(** * Xero integration core: token cipher, token manager, transaction sync
      and exclusion engine

    A shallow embedding of
      - [app/config.py], as far as the modules below read the settings
      - [app/models/exclusion_rule.py], [app/models/transaction.py],
        [app/models/xero_connection.py]
      - [app/services/exclusion/engine.py]
      - [app/services/xero/token_crypto.py]
      - [app/services/xero/token_manager.py]
      - [app/services/xero/transaction_sync.py]
      - [app/services/xero/transactions.py]
      - [app/api/internal/xero_sync_debug.py]
    followed by the properties of the specification that these files decide.

    Conventions.  [None] is [None] of an option type, also for a key that a
    provider record does not carry (what [dict.get] returns for it).  A
    Python [str] that the code only compares, folds and stores (a rule
    pattern, a description, a status) is a [string]; a [str] that the code
    encodes (a token, the secret) is a [str], the list of its code points.
    A naive [datetime] is an integer counting microseconds, a [timedelta]
    likewise; a [datetime] that may carry a time zone is a [stamp].  A call
    that can raise returns a [result]; the database a call leaves behind is
    returned next to it. *)

From Stdlib Require Import String Ascii List ZArith NArith Bool Lia.
From Stdlib Require Strings.Byte.
Import ListNotations.
Open Scope string_scope.
Open Scope list_scope.

(* ===================================================================== *)
(** * Part I.  Definitions                                                *)
(* ===================================================================== *)

(** ** Python values *)

Definition UUID := N.
Definition datetime := Z.
Definition timedelta := Z.

Definition timedelta_minutes (m : Z) : timedelta := (m * 60 * 1000000)%Z.
Definition timedelta_seconds (s : Z) : timedelta := (s * 1000000)%Z.
Definition timedelta_hours (h : Z) : timedelta := (h * 3600 * 1000000)%Z.

(** Exceptions the embedded code raises or lets through. *)
Inductive exn : Type :=
| Exception (msg : string)        (* [raise Exception(msg)] *)
| InvalidToken                    (* cryptography.fernet.InvalidToken *)
| KeyError (key : string)         (* [tokens[key]] on a missing key *)
| JSONDecodeError                 (* [resp.json()] on a body that is not JSON *)
| TransportError                  (* httpx could not complete the request *)
| IntegrityError                  (* a schema constraint refused the flush *)
| TypeError                       (* an aware and a naive [datetime] ordered;
                                     [timedelta] of a value that is no number *)
| AttributeError (name : string)  (* an attribute that the object does not have *)
| UnicodeEncodeError              (* [str.encode] on a lone surrogate *)
| UnicodeDecodeError              (* [bytes.decode] on bytes that are not UTF-8 *)
| ValueError (msg : string)       (* [Fernet(key)] on a key of the wrong form *)
| OverflowError                   (* a [datetime] or [timedelta] out of range *)
| ArgumentError.                  (* sqlalchemy.exc.ArgumentError *)

Inductive result (A : Type) : Type :=
| Return (a : A)
| Raise (e : exn).
Arguments Return {A} a.
Arguments Raise {A} e.

(** Truthiness of an optional string: [None] and the empty string are
    falsy. *)
Definition truthy (v : option string) : bool :=
  match v with
  | Some (String _ _) => true
  | _ => false
  end.

(** [a or b] *)
Definition py_or (a b : option string) : option string :=
  if truthy a then a else b.

(** [str.lower], on the ASCII letters. *)
Definition lower_ascii (c : ascii) : ascii :=
  let n := nat_of_ascii c in
  if ((65 <=? n) && (n <=? 90))%nat then ascii_of_nat (n + 32) else c.

Fixpoint lower (s : string) : string :=
  match s with
  | EmptyString => EmptyString
  | String c s' => String (lower_ascii c) (lower s')
  end.

(** [value.startswith(p)] *)
Definition startswith (value p : string) : bool := String.prefix p value.

(** [value.endswith(p)] *)
Definition endswith (value p : string) : bool :=
  let n := String.length value in
  let k := String.length p in
  if (k <=? n)%nat then String.eqb (String.substring (n - k) k value) p else false.

(** [p in value] *)
Fixpoint contains (value p : string) : bool :=
  String.prefix p value ||
  match value with
  | EmptyString => false
  | String _ rest => contains rest p
  end.

(** *** Text and bytes *)

(** A [str] is a sequence of code points, each below [0x110000]; the
    surrogates [0xD800] to [0xDFFF] are code points like the others, and a
    [str] can hold one on its own.  A [bytes] object is a sequence of
    bytes. *)
Definition codepoint := N.
Definition str := list codepoint.
Definition byte := Init.Byte.byte.
Definition bytes := list byte.

(** A literal of the source, which is ASCII. *)
Definition literal (s : string) : str := map N_of_ascii (list_ascii_of_string s).

Definition str_eqb (a b : str) : bool :=
  if list_eq_dec N.eq_dec a b then true else false.

Definition byte_of_N (n : N) : byte :=
  match Byte.of_N n with
  | Some b => b
  | None => Init.Byte.x00
  end.

Definition is_surrogate (c : codepoint) : bool :=
  ((0xD800 <=? c) && (c <=? 0xDFFF))%N.

(** The UTF-8 form of a code point; none for a surrogate. *)
Definition encode_codepoint (c : codepoint) : option bytes :=
  if (c <? 0x80)%N then Some [byte_of_N c]
  else if (c <? 0x800)%N then
    Some [byte_of_N (0xC0 + c / 0x40); byte_of_N (0x80 + c mod 0x40)]
  else if (c <? 0x10000)%N then
    if is_surrogate c then None
    else Some [byte_of_N (0xE0 + c / 0x1000);
               byte_of_N (0x80 + (c / 0x40) mod 0x40);
               byte_of_N (0x80 + c mod 0x40)]
  else if (c <? 0x110000)%N then
    Some [byte_of_N (0xF0 + c / 0x40000);
          byte_of_N (0x80 + (c / 0x1000) mod 0x40);
          byte_of_N (0x80 + (c / 0x40) mod 0x40);
          byte_of_N (0x80 + c mod 0x40)]
  else None.

(** The UTF-8 form of a string; none when it holds a surrogate. *)
Fixpoint utf8_encode (s : str) : option bytes :=
  match s with
  | [] => Some []
  | c :: rest =>
    match encode_codepoint c, utf8_encode rest with
    | Some head, Some tail => Some (head ++ tail)
    | _, _ => None
    end
  end.

(** [s.encode()]: UTF-8, errors strict. *)
Definition encode (s : str) : result bytes :=
  match utf8_encode s with
  | Some b => Return b
  | None => Raise UnicodeEncodeError
  end.

(** The payload of a continuation byte. *)
Definition continuation (b : byte) : option N :=
  let n := Byte.to_N b in
  if ((0x80 <=? n) && (n <=? 0xBF))%N then Some (n - 0x80)%N else None.

(** The string that the bytes are the UTF-8 form of; none when they are
    not UTF-8: a form longer than needed, a surrogate and a value above
    [0x10FFFF] are refused. *)
Fixpoint utf8_decode (b : bytes) : option str :=
  match b with
  | [] => Some []
  | b0 :: rest =>
    let n0 := Byte.to_N b0 in
    if (n0 <? 0x80)%N then option_map (cons n0) (utf8_decode rest)
    else if (n0 <? 0xC2)%N then None
    else if (n0 <? 0xE0)%N then
      match rest with
      | b1 :: rest =>
        match continuation b1 with
        | Some n1 => option_map (cons ((n0 - 0xC0) * 0x40 + n1)%N) (utf8_decode rest)
        | None => None
        end
      | _ => None
      end
    else if (n0 <? 0xF0)%N then
      match rest with
      | b1 :: b2 :: rest =>
        match continuation b1, continuation b2 with
        | Some n1, Some n2 =>
          let c := ((n0 - 0xE0) * 0x1000 + n1 * 0x40 + n2)%N in
          if (c <? 0x800)%N || is_surrogate c then None
          else option_map (cons c) (utf8_decode rest)
        | _, _ => None
        end
      | _ => None
      end
    else if (n0 <? 0xF5)%N then
      match rest with
      | b1 :: b2 :: b3 :: rest =>
        match continuation b1, continuation b2, continuation b3 with
        | Some n1, Some n2, Some n3 =>
          let c := ((n0 - 0xF0) * 0x40000 + n1 * 0x1000 + n2 * 0x40 + n3)%N in
          if (c <? 0x10000)%N || (0x10FFFF <? c)%N then None
          else option_map (cons c) (utf8_decode rest)
        | _, _, _ => None
        end
      | _ => None
      end
    else None
  end.

(** [b.decode()]: UTF-8, errors strict. *)
Definition decode (b : bytes) : result str :=
  match utf8_decode b with
  | Some s => Return s
  | None => Raise UnicodeDecodeError
  end.

(** The code points that UTF-8 has a form for, and the strings made of
    them. *)
Definition scalar (c : codepoint) : bool :=
  (c <? 0x110000)%N && negb (is_surrogate c).

Definition encodable (s : str) : bool := forallb scalar s.

Definition is_ascii (b : byte) : bool := (Byte.to_N b <? 0x80)%N.

(** ** Libraries *)

(** The [re] module, as far as [ExclusionRule.matches] uses it:
    [re_search_ignorecase pattern value] is
    [bool(re.search(pattern, value, re.IGNORECASE))], and [None] when the
    pattern does not compile ([re.error]). *)
Class PyRe : Type := {
  re_search_ignorecase : string -> string -> option bool
}.

(** The [hashlib], [base64] and [cryptography] packages, as far as
    [token_crypto.py] uses them.  A SHA-256 digest has 32 bytes.
    [urlsafe_b64decode] is [None] on input that is not base64.
    [Fernet_encrypt key time iv data] is the token that [Fernet.encrypt]
    makes under the 32 bytes [key] (the decoded key of the constructor)
    when the clock reads [time] and the random initialisation vector drawn
    is [iv]; a token is base64 text.  [Fernet_decrypt key token] is
    [Fernet.decrypt] without a time-to-live, [None] for [InvalidToken]; it
    accepts every token made under the same key. *)
Class Cryptography : Type := {
  sha256_digest : bytes -> bytes;
  sha256_digest_length : forall message, List.length (sha256_digest message) = 32%nat;
  urlsafe_b64encode : bytes -> bytes;
  urlsafe_b64decode : bytes -> option bytes;
  urlsafe_b64decode_encode :
    forall data, urlsafe_b64decode (urlsafe_b64encode data) = Some data;
  Fernet_encrypt : bytes -> datetime -> bytes -> bytes -> bytes;
  Fernet_decrypt : bytes -> bytes -> option bytes;
  Fernet_decrypt_encrypt :
    forall key time iv data,
      List.length key = 32%nat ->
      Fernet_decrypt key (Fernet_encrypt key time iv data) = Some data;
  Fernet_encrypt_ascii :
    forall key time iv data,
      forallb is_ascii (Fernet_encrypt key time iv data) = true
}.

(** ** Settings ([app/config.py]) *)

(** [app.config.settings], the fields that the embedded modules have a use
    for.  [Settings] declares them in lower case. *)
Record Settings : Type := {
  jwt_secret_key : str;
  xero_client_id : option str;
  xero_client_secret : option str
}.

(** [settings.<name>], for the names under which the embedded modules read
    these fields.  [XERO_CLIENT_ID] and [XERO_CLIENT_SECRET] are the
    aliases of the two fields, the names of the environment variables that
    fill them; an alias names the input and is no attribute of the object,
    so that [BaseModel.__getattr__] raises [AttributeError] for it. *)
Definition getattr (settings : Settings) (name : string) : result (option str) :=
  if String.eqb name "jwt_secret_key" then Return (Some (jwt_secret_key settings))
  else if String.eqb name "xero_client_id" then Return (xero_client_id settings)
  else if String.eqb name "xero_client_secret" then Return (xero_client_secret settings)
  else Raise (AttributeError name).

(** ** Models *)

Module ExclusionRule.

Record t : Type := {
  id : UUID;
  organization_id : UUID;
  rule_type : string;
  pattern : string;
  match_type : string;
  enabled : bool;
  reason : option string;
  created_by : option UUID;
  created_at : datetime;
  updated_at : datetime
}.

Definition is_active (self : t) : bool := enabled self.

Definition matches `{PyRe} (self : t) (value : option string) : bool :=
  match value with
  | None => false
  | Some v =>
    if negb (truthy value) || negb (enabled self) then false
    else
      let value_lower := lower v in
      let pattern_lower := lower (pattern self) in
      if String.eqb (match_type self) "contains" then
        contains value_lower pattern_lower
      else if String.eqb (match_type self) "equals" then
        String.eqb value_lower pattern_lower
      else if String.eqb (match_type self) "starts_with" then
        startswith value_lower pattern_lower
      else if String.eqb (match_type self) "ends_with" then
        endswith value_lower pattern_lower
      else if String.eqb (match_type self) "regex" then
        match re_search_ignorecase (pattern self) v with
        | Some b => b
        | None => false
        end
      else false
  end.

End ExclusionRule.

Module Transaction.

Record t : Type := {
  id : UUID;
  organization_id : UUID;
  client_id : UUID;
  xero_transaction_id : string;
  xero_type : option string;
  date : option string;
  amount : option Z;
  description : option string;
  supplier_name : option string;
  document_required : bool;
  document_received : bool;
  document_uploaded_at : option datetime;
  excluded : bool;
  exclusion_reason : option string;
  created_at : datetime;
  updated_at : datetime
}.

Definition needs_document (self : t) : bool :=
  document_required self && negb (document_received self) && negb (excluded self).

End Transaction.

(** A [datetime] object with or without a time zone.  [datetime.utcnow()]
    makes a naive one.  The PostgreSQL driver returns a column of type
    [DateTime(timezone=True)] as an aware one.  The integer is the instant,
    in microseconds of UTC. *)
Inductive stamp : Type :=
| naive (t : datetime)
| aware (t : datetime).

Definition instant (a : stamp) : datetime :=
  match a with
  | naive t => t
  | aware t => t
  end.

(** [a > b] and [a >= b]: an aware and a naive operand cannot be ordered. *)
Definition stamp_gt (a b : stamp) : result bool :=
  match a, b with
  | naive x, naive y => Return (x >? y)%Z
  | aware x, aware y => Return (x >? y)%Z
  | _, _ => Raise TypeError
  end.

Definition stamp_ge (a b : stamp) : result bool :=
  match a, b with
  | naive x, naive y => Return (x >=? y)%Z
  | aware x, aware y => Return (x >=? y)%Z
  | _, _ => Raise TypeError
  end.

(** [a == b]: an aware and a naive operand are unequal. *)
Definition stamp_eqb (a b : stamp) : bool :=
  match a, b with
  | naive x, naive y => Z.eqb x y
  | aware x, aware y => Z.eqb x y
  | _, _ => false
  end.

(** [a - d] keeps the time zone of [a]. *)
Definition stamp_sub (a : stamp) (d : timedelta) : stamp :=
  match a with
  | naive x => naive (x - d)%Z
  | aware x => aware (x - d)%Z
  end.

(** What a session reads back once the value has been written to a column
    of type [DateTime(timezone=True)], the time zone of the database
    session being UTC. *)
Definition stored (a : stamp) : stamp :=
  match a with
  | naive x => aware x
  | aware x => aware x
  end.

(** The first and the last instant that a [datetime] can hold:
    [datetime.min] and [datetime.max]. *)
Definition datetime_min : datetime := (-62135596800000000)%Z.
Definition datetime_max : datetime := 253402300799999999%Z.

(** [t + d] for a naive [t], where [d] comes from outside. *)
Definition datetime_add (t : datetime) (d : timedelta) : result datetime :=
  let sum := (t + d)%Z in
  if ((datetime_min <=? sum) && (sum <=? datetime_max))%Z then Return sum
  else Raise OverflowError.

Module XeroConnection.

(** An object of the class as a query of the session returns it.  In an
    object that the session has read from the table, [expires_at] is
    aware; in one to which the session has assigned a reading of
    [datetime.utcnow()] it is naive until the session reads the row again
    (the sessions are made with [expire_on_commit=False]). *)
Record t : Type := {
  id : UUID;
  organization_id : UUID;
  xero_tenant_id : string;
  xero_tenant_name : option string;
  access_token_encrypted : str;
  refresh_token_encrypted : str;
  expires_at : stamp;
  last_sync_at : option datetime;
  sync_status : string;
  connected_by : option UUID;
  created_at : datetime;
  updated_at : datetime
}.

Definition is_active (self : t) : bool := String.eqb (sync_status self) "active".

(** [is_expired] and [needs_refresh] read the clock; [utcnow] is the
    reading. *)
Definition is_expired (utcnow : datetime) (self : t) : result bool :=
  stamp_ge (naive utcnow) (expires_at self).

Definition needs_refresh (utcnow : datetime) (self : t) : result bool :=
  stamp_ge (naive utcnow) (stamp_sub (expires_at self) (timedelta_hours 1)).

End XeroConnection.

(** The three tables the embedded code reads and writes, each in the order
    the database returns its rows. *)
Record Database : Type := {
  transactions : list Transaction.t;
  exclusion_rules : list ExclusionRule.t;
  xero_connections : list XeroConnection.t
}.

(** What a call returns or raises, and the database it leaves. *)
Record Outcome (A : Type) : Type := {
  value : result A;
  database : Database
}.
Arguments value {A} o.
Arguments database {A} o.

(** [db.query(Model).filter(p).first()] *)
Definition first {A : Type} (p : A -> bool) (rows : list A) : option A :=
  List.find p rows.

(** ** Exclusion engine ([app/services/exclusion/engine.py]) *)

(** The three assignments of the matching branch. *)
Definition exclude (transaction : Transaction.t) (rule : ExclusionRule.t) : Transaction.t :=
  {| Transaction.id := Transaction.id transaction;
     Transaction.organization_id := Transaction.organization_id transaction;
     Transaction.client_id := Transaction.client_id transaction;
     Transaction.xero_transaction_id := Transaction.xero_transaction_id transaction;
     Transaction.xero_type := Transaction.xero_type transaction;
     Transaction.date := Transaction.date transaction;
     Transaction.amount := Transaction.amount transaction;
     Transaction.description := Transaction.description transaction;
     Transaction.supplier_name := Transaction.supplier_name transaction;
     Transaction.document_required := false;
     Transaction.document_received := Transaction.document_received transaction;
     Transaction.document_uploaded_at := Transaction.document_uploaded_at transaction;
     Transaction.excluded := true;
     Transaction.exclusion_reason :=
       py_or (ExclusionRule.reason rule) (Some "Auto-excluded");
     Transaction.created_at := Transaction.created_at transaction;
     Transaction.updated_at := Transaction.updated_at transaction |}.

(** The field a rule tests; [None] for a rule type the engine skips. *)
Definition tested_value (rule : ExclusionRule.t) (transaction : Transaction.t)
  : option (option string) :=
  if String.eqb (ExclusionRule.rule_type rule) "supplier_name" then
    Some (Transaction.supplier_name transaction)
  else if String.eqb (ExclusionRule.rule_type rule) "description" then
    Some (Transaction.description transaction)
  else None.

(** [apply_exclusion_rules]: the transaction as the call leaves it, and the
    value returned. *)
Fixpoint apply_exclusion_rules `{PyRe}
  (transaction : Transaction.t) (rules : list ExclusionRule.t)
  : Transaction.t * bool :=
  match rules with
  | [] => (transaction, false)
  | rule :: rest =>
    if negb (ExclusionRule.is_active rule) then
      apply_exclusion_rules transaction rest
    else
      match tested_value rule transaction with
      | None => apply_exclusion_rules transaction rest
      | Some value =>
        if ExclusionRule.matches rule value then (exclude transaction rule, true)
        else apply_exclusion_rules transaction rest
      end
  end.


(** A rule "would match" a transaction: it is active, its type selects a
    field, and [matches] accepts that field. *)
Definition would_match `{PyRe} (rule : ExclusionRule.t) (transaction : Transaction.t) : bool :=
  ExclusionRule.is_active rule &&
  match tested_value rule transaction with
  | None => false
  | Some value => ExclusionRule.matches rule value
  end.

(** ** Token cipher ([app/services/xero/token_crypto.py]) *)

(** [Fernet(key)]: the constructor decodes the key and asks for 32 bytes.
    The object it makes is given by these 32 bytes. *)
Definition Fernet `{Cryptography} (key : bytes) : result bytes :=
  match urlsafe_b64decode key with
  | Some raw =>
    if Nat.eqb (List.length raw) 32 then Return raw
    else Raise (ValueError "Fernet key must be 32 url-safe base64-encoded bytes.")
  | None => Raise (ValueError "Fernet key must be 32 url-safe base64-encoded bytes.")
  end.

Definition _get_fernet `{Cryptography} (settings : Settings) : result bytes :=
  match encode (jwt_secret_key settings) with
  | Raise e => Raise e
  | Return secret =>
    let key := urlsafe_b64encode (sha256_digest secret) in
    Fernet key
  end.

(** [time] and [iv] are what [Fernet.encrypt] reads from the clock and
    draws at random. *)
Definition encrypt_token `{Cryptography}
  (settings : Settings) (time : datetime) (iv : bytes) (token : str) : result str :=
  match _get_fernet settings with
  | Raise e => Raise e
  | Return f =>
    match encode token with
    | Raise e => Raise e
    | Return data => decode (Fernet_encrypt f time iv data)
    end
  end.

Definition decrypt_token `{Cryptography}
  (settings : Settings) (encrypted_token : str) : result str :=
  match _get_fernet settings with
  | Raise e => Raise e
  | Return f =>
    match encode encrypted_token with
    | Raise e => Raise e
    | Return token =>
      match Fernet_decrypt f token with
      | Some data => decode data
      | None => Raise InvalidToken
      end
    end
  end.

(** ** Transaction sync ([app/services/xero/transaction_sync.py]) *)

(** A record of the provider's [BankTransactions] array, in the provider's
    format: the keys the sync reads, each absent ([None]) or carrying a
    value of the provider's type. *)
Module BankTransaction.

Record contact : Type := {
  Name : option string
}.

Record t : Type := {
  BankTransactionID : option string;
  Type_ : option string;
  Date : option string;
  Total : option Z;
  Reference : option string;
  LineAmountTypes : option string;
  Contact : option contact;
  HasAttachments : option bool
}.

End BankTransaction.

(** The session of one call.  [SessionLocal] is made with [autoflush=False]:
    a query sees the rows of the table, with the changes this session made
    to them in place, and none of the objects handed to [db.add], which
    reach the table at [db.commit()]. *)
Record Session : Type := {
  rows : list Transaction.t;
  added : list Transaction.t
}.

(** Assigning to an object that a query returned changes it in place: the
    first row of the table that satisfies [p] becomes [r]. *)
Fixpoint assign (p : Transaction.t -> bool) (r : Transaction.t)
  (table : list Transaction.t) : list Transaction.t :=
  match table with
  | [] => []
  | x :: rest => if p x then r :: rest else x :: assign p r rest
  end.

(** [tx.get("HasAttachments", False)] *)
Definition has_attachments_of (tx : BankTransaction.t) : bool :=
  match BankTransaction.HasAttachments tx with
  | Some b => b
  | None => false
  end.

(** [(tx.get("Contact") or {}).get("Name")] *)
Definition contact_name (tx : BankTransaction.t) : option string :=
  match BankTransaction.Contact tx with
  | Some c => BankTransaction.Name c
  | None => None
  end.

(** The filter of the lookup query. *)
Definition same_transaction (organization_id : UUID) (xero_tx_id : string)
  (t : Transaction.t) : bool :=
  N.eqb (Transaction.organization_id t) organization_id &&
  String.eqb (Transaction.xero_transaction_id t) xero_tx_id.

(** The object the insert branch constructs. *)
Definition new_transaction (uuid : UUID) (organization_id client_id : UUID)
  (xero_tx_id : string) (tx : BankTransaction.t) (now : datetime) : Transaction.t :=
  let has_attachments := has_attachments_of tx in
  {| Transaction.id := uuid;
     Transaction.organization_id := organization_id;
     Transaction.client_id := client_id;
     Transaction.xero_transaction_id := xero_tx_id;
     Transaction.xero_type := BankTransaction.Type_ tx;
     Transaction.date := BankTransaction.Date tx;
     Transaction.amount := BankTransaction.Total tx;
     Transaction.description :=
       py_or (BankTransaction.Reference tx) (BankTransaction.LineAmountTypes tx);
     Transaction.supplier_name := contact_name tx;
     Transaction.document_required := negb has_attachments;
     Transaction.document_received := has_attachments;
     Transaction.document_uploaded_at := None;
     Transaction.excluded := false;
     Transaction.exclusion_reason := None;
     Transaction.created_at := now;
     Transaction.updated_at := now |}.

(** The assignments of the update branch, before the engine runs. *)
Definition update_transaction (existing : Transaction.t)
  (tx : BankTransaction.t) (now : datetime) : Transaction.t :=
  let has_attachments := has_attachments_of tx in
  {| Transaction.id := Transaction.id existing;
     Transaction.organization_id := Transaction.organization_id existing;
     Transaction.client_id := Transaction.client_id existing;
     Transaction.xero_transaction_id := Transaction.xero_transaction_id existing;
     Transaction.xero_type := BankTransaction.Type_ tx;
     Transaction.date := BankTransaction.Date tx;
     Transaction.amount := BankTransaction.Total tx;
     Transaction.description :=
       py_or (BankTransaction.Reference tx) (Transaction.description existing);
     Transaction.supplier_name := contact_name tx;
     Transaction.document_required := negb has_attachments;
     Transaction.document_received :=
       if has_attachments then true else Transaction.document_received existing;
     Transaction.document_uploaded_at := Transaction.document_uploaded_at existing;
     Transaction.excluded := Transaction.excluded existing;
     Transaction.exclusion_reason := Transaction.exclusion_reason existing;
     Transaction.created_at := Transaction.created_at existing;
     Transaction.updated_at := now |}.

(** The body of the [for] loop.  [uuid4 n] is the identifier that the
    [n]-th call of [uuid.uuid4()] draws. *)
Definition upsert_one `{PyRe}
  (organization_id client_id : UUID) (rules : list ExclusionRule.t)
  (now : datetime) (uuid4 : nat -> UUID)
  (db : Session) (tx : BankTransaction.t) : Session :=
  let xero_tx_id := BankTransaction.BankTransactionID tx in
  match xero_tx_id with
  | None => db
  | Some xid =>
    if negb (truthy xero_tx_id) then db
    else
      let existing := first (same_transaction organization_id xid) (rows db) in
      match existing with
      | None =>
        let new_tx :=
          new_transaction (uuid4 (List.length (added db)))
            organization_id client_id xid tx now in
        {| rows := rows db;
           added := added db ++ [fst (apply_exclusion_rules new_tx rules)] |}
      | Some existing =>
        let existing := update_transaction existing tx now in
        {| rows :=
             assign (same_transaction organization_id xid)
               (fst (apply_exclusion_rules existing rules)) (rows db);
           added := added db |}
      end
  end.

(** The constraints of the [transactions] table that the values of a sync
    can break and that the flush reports with [IntegrityError]:
    [xero_transaction_id] is unique, [date] and [amount] are not null.
    What the column types ask of a value (the range of [Numeric(12, 2)],
    the form of a [Date], the lengths of the [String] columns) and the
    foreign keys are not represented: a flush that one of them refuses
    returns here. *)
Fixpoint unique (ids : list string) : bool :=
  match ids with
  | [] => true
  | x :: rest => negb (existsb (String.eqb x) rest) && unique rest
  end.

Definition not_null (t : Transaction.t) : bool :=
  match Transaction.date t, Transaction.amount t with
  | Some _, Some _ => true
  | _, _ => false
  end.

Definition constraints_hold (table : list Transaction.t) : bool :=
  unique (map Transaction.xero_transaction_id table) && forallb not_null table.

(** The query that loads the enabled rules of the organization. *)
Definition enabled_rules (organization_id : UUID) (db : Database) : list ExclusionRule.t :=
  filter
    (fun r => N.eqb (ExclusionRule.organization_id r) organization_id &&
              ExclusionRule.enabled r)
    (exclusion_rules db).

(** [upsert_xero_transactions].  [db.commit()] flushes the changed rows
    and the added objects; when a constraint refuses the flush the call
    raises and the database keeps the state it had before the call. *)
Definition upsert_xero_transactions `{PyRe}
  (db : Database) (organization_id client_id : UUID)
  (xero_transactions : list BankTransaction.t)
  (now : datetime) (uuid4 : nat -> UUID) : Outcome unit :=
  let rules := enabled_rules organization_id db in
  let session :=
    fold_left (upsert_one organization_id client_id rules now uuid4)
      xero_transactions {| rows := transactions db; added := [] |} in
  let table := rows session ++ added session in
  if constraints_hold table then
    {| value := Return tt;
       database := {| transactions := table;
                      exclusion_rules := exclusion_rules db;
                      xero_connections := xero_connections db |} |}
  else
    {| value := Raise IntegrityError; database := db |}.

(** *** Notions for the statements about the sync *)

(** The update branch as a whole: the assignments, then the engine. *)
Definition synced `{PyRe} (rules : list ExclusionRule.t) (now : datetime)
  (existing : Transaction.t) (tx : BankTransaction.t) : Transaction.t :=
  fst (apply_exclusion_rules (update_transaction existing tx now) rules).

(** The insert branch as a whole: the constructor, then the engine. *)
Definition inserted `{PyRe} (rules : list ExclusionRule.t) (now : datetime)
  (uuid organization_id client_id : UUID) (xero_tx_id : string)
  (tx : BankTransaction.t) : Transaction.t :=
  fst (apply_exclusion_rules
         (new_transaction uuid organization_id client_id xero_tx_id tx now) rules).

(** The loop does not skip the record, and the record's lookup accepts
    the row. *)
Definition selects (organization_id : UUID) (tx : BankTransaction.t)
  (t : Transaction.t) : bool :=
  match BankTransaction.BankTransactionID tx with
  | Some xid => truthy (Some xid) && same_transaction organization_id xid t
  | None => false
  end.

(** What one record does to one row of the table. *)
Definition touch `{PyRe} (organization_id : UUID) (rules : list ExclusionRule.t)
  (now : datetime) (t : Transaction.t) (tx : BankTransaction.t) : Transaction.t :=
  if selects organization_id tx t then synced rules now t tx else t.

(** The provider identifiers of the records that the loop does not skip. *)
Fixpoint processed_ids (xero_transactions : list BankTransaction.t) : list string :=
  match xero_transactions with
  | [] => []
  | tx :: rest =>
    match BankTransaction.BankTransactionID tx with
    | Some xid =>
      if truthy (Some xid) then xid :: processed_ids rest else processed_ids rest
    | None => processed_ids rest
    end
  end.

(** The columns a lookup reads. *)
Definition key (t : Transaction.t) : UUID * string :=
  (Transaction.organization_id t, Transaction.xero_transaction_id t).

(** Two states of a row that agree on its identity and on every business
    field; [created_at] and [updated_at] are free. *)
Definition same_business_fields (t t' : Transaction.t) : Prop :=
  Transaction.id t = Transaction.id t' /\
  Transaction.organization_id t = Transaction.organization_id t' /\
  Transaction.client_id t = Transaction.client_id t' /\
  Transaction.xero_transaction_id t = Transaction.xero_transaction_id t' /\
  Transaction.xero_type t = Transaction.xero_type t' /\
  Transaction.date t = Transaction.date t' /\
  Transaction.amount t = Transaction.amount t' /\
  Transaction.description t = Transaction.description t' /\
  Transaction.supplier_name t = Transaction.supplier_name t' /\
  Transaction.document_required t = Transaction.document_required t' /\
  Transaction.document_received t = Transaction.document_received t' /\
  Transaction.excluded t = Transaction.excluded t' /\
  Transaction.exclusion_reason t = Transaction.exclusion_reason t'.

(** The identifiers, among those the loop processes, for which the
    organization has no row in the table: those of the records that take
    the insert branch, in the order of the batch. *)
Definition unknown_ids (organization_id : UUID) (table : list Transaction.t)
  (xero_transactions : list BankTransaction.t) : list string :=
  filter (fun xid => negb (existsb (same_transaction organization_id xid) table))
         (processed_ids xero_transactions).

(** ** Token manager ([app/services/xero/token_manager.py]) *)

(** The form posted to the provider's token endpoint. *)
Module Payload.

Record t : Type := {
  grant_type : string;
  refresh_token : str;
  client_id : option str;
  client_secret : option str
}.

End Payload.

(** The JSON object of a token response, as the manager reads it.  The two
    tokens: absent, or the string under the key.  [expires_in]: absent, or
    the value under the key as [timedelta(seconds=...)] takes it, which
    makes a duration of it or raises ([TypeError] for a value that is no
    number, [OverflowError] for more seconds than a [timedelta] holds). *)
Module Tokens.

Record t : Type := {
  access_token : option str;
  refresh_token : option str;
  expires_in : option (result timedelta)
}.

End Tokens.

(** An HTTP response: its status, and its body as [resp.json()] reads it
    ([None] when the body is not JSON). *)
Record Response : Type := {
  status_code : Z;
  json : option Tokens.t
}.

(** What one call of [get_valid_access_token] takes from outside: the clock
    readings, in the order the call makes them ([utcnow_flush] is the
    reading of the [onupdate] hook of [updated_at]), what
    [await client.post(...)] evaluates to, and the time and initialisation
    vector that Fernet draws for each of the two tokens it makes. *)
Record Environment : Type := {
  utcnow_check : datetime;
  posted : result Response;
  fernet_time_access : datetime;
  fernet_iv_access : bytes;
  fernet_time_refresh : datetime;
  fernet_iv_refresh : bytes;
  utcnow_expiry : datetime;
  utcnow_flush : datetime
}.

Definition set_tokens (connection : XeroConnection.t)
  (access refresh : str) (expires : stamp) (status : string) : XeroConnection.t :=
  {| XeroConnection.id := XeroConnection.id connection;
     XeroConnection.organization_id := XeroConnection.organization_id connection;
     XeroConnection.xero_tenant_id := XeroConnection.xero_tenant_id connection;
     XeroConnection.xero_tenant_name := XeroConnection.xero_tenant_name connection;
     XeroConnection.access_token_encrypted := access;
     XeroConnection.refresh_token_encrypted := refresh;
     XeroConnection.expires_at := expires;
     XeroConnection.last_sync_at := XeroConnection.last_sync_at connection;
     XeroConnection.sync_status := status;
     XeroConnection.connected_by := XeroConnection.connected_by connection;
     XeroConnection.created_at := XeroConnection.created_at connection;
     XeroConnection.updated_at := XeroConnection.updated_at connection |}.

Definition set_sync_status (connection : XeroConnection.t) (status : string)
  : XeroConnection.t :=
  set_tokens connection
    (XeroConnection.access_token_encrypted connection)
    (XeroConnection.refresh_token_encrypted connection)
    (XeroConnection.expires_at connection) status.

Definition set_updated_at (connection : XeroConnection.t) (now : datetime)
  : XeroConnection.t :=
  {| XeroConnection.id := XeroConnection.id connection;
     XeroConnection.organization_id := XeroConnection.organization_id connection;
     XeroConnection.xero_tenant_id := XeroConnection.xero_tenant_id connection;
     XeroConnection.xero_tenant_name := XeroConnection.xero_tenant_name connection;
     XeroConnection.access_token_encrypted := XeroConnection.access_token_encrypted connection;
     XeroConnection.refresh_token_encrypted := XeroConnection.refresh_token_encrypted connection;
     XeroConnection.expires_at := XeroConnection.expires_at connection;
     XeroConnection.last_sync_at := XeroConnection.last_sync_at connection;
     XeroConnection.sync_status := XeroConnection.sync_status connection;
     XeroConnection.connected_by := XeroConnection.connected_by connection;
     XeroConnection.created_at := XeroConnection.created_at connection;
     XeroConnection.updated_at := now |}.

(** The flush of a connection at [db.commit()].  The unit of work compares
    the object with the state it was loaded in and writes the columns whose
    value differs, to the row with the object's primary key; when it writes
    any, [updated_at] takes the reading of its [onupdate] hook.  The result
    is the row as a session reads it afterwards. *)
Definition flush_row (loaded current : XeroConnection.t) (now : datetime)
  (row : XeroConnection.t) : XeroConnection.t :=
  let access_dirty :=
    negb (str_eqb (XeroConnection.access_token_encrypted loaded)
                  (XeroConnection.access_token_encrypted current)) in
  let refresh_dirty :=
    negb (str_eqb (XeroConnection.refresh_token_encrypted loaded)
                  (XeroConnection.refresh_token_encrypted current)) in
  let expires_dirty :=
    negb (stamp_eqb (XeroConnection.expires_at loaded)
                    (XeroConnection.expires_at current)) in
  let status_dirty :=
    negb (String.eqb (XeroConnection.sync_status loaded)
                     (XeroConnection.sync_status current)) in
  if access_dirty || refresh_dirty || expires_dirty || status_dirty then
    set_updated_at
      (set_tokens row
         (if access_dirty then XeroConnection.access_token_encrypted current
          else XeroConnection.access_token_encrypted row)
         (if refresh_dirty then XeroConnection.refresh_token_encrypted current
          else XeroConnection.refresh_token_encrypted row)
         (if expires_dirty then stored (XeroConnection.expires_at current)
          else XeroConnection.expires_at row)
         (if status_dirty then XeroConnection.sync_status current
          else XeroConnection.sync_status row))
      now
  else row.

Definition commit_connection (loaded current : XeroConnection.t) (now : datetime)
  (db : Database) : Database :=
  {| transactions := transactions db;
     exclusion_rules := exclusion_rules db;
     xero_connections :=
       map (fun row =>
              if N.eqb (XeroConnection.id row) (XeroConnection.id loaded)
              then flush_row loaded current now row else row)
           (xero_connections db) |}.

(** [get_valid_access_token] is a coroutine with one point of suspension
    that matters, [await client.post(...)].  The code before it runs
    without interruption, and so does the code after it. *)

(** Where the first part ends: with the stored token, or suspended on the
    request it has sent, holding the connection object it loaded. *)
Inductive progress : Type :=
| Valid (access_token : str)
| Refreshing (connection : XeroConnection.t) (payload : Payload.t).

(** The query that loads the connection of the organization. *)
Definition connection_of (organization_id : UUID) (db : Database)
  : option XeroConnection.t :=
  first (fun c => N.eqb (XeroConnection.organization_id c) organization_id)
        (xero_connections db).

(** Lines 19 to 40: load, check the expiry, build the form of the refresh
    request.  The entries of the form are evaluated in the order in which
    they are written. *)
Definition check_expiry `{Cryptography}
  (settings : Settings) (db : Database) (organization_id : UUID)
  (utcnow : datetime) : result progress :=
  let connection := connection_of organization_id db in
  match connection with
  | None => Raise (Exception "No Xero connection found")
  | Some connection =>
    match stamp_gt (XeroConnection.expires_at connection)
                   (naive (utcnow + timedelta_minutes 2)%Z) with
    | Raise e => Raise e
    | Return true =>
      match decrypt_token settings (XeroConnection.access_token_encrypted connection) with
      | Return token => Return (Valid token)
      | Raise e => Raise e
      end
    | Return false =>
      match decrypt_token settings (XeroConnection.refresh_token_encrypted connection) with
      | Raise e => Raise e
      | Return refresh_token =>
        match getattr settings "XERO_CLIENT_ID" with
        | Raise e => Raise e
        | Return client_id =>
          match getattr settings "XERO_CLIENT_SECRET" with
          | Raise e => Raise e
          | Return client_secret =>
            let payload :=
              {| Payload.grant_type := "refresh_token";
                 Payload.refresh_token := refresh_token;
                 Payload.client_id := client_id;
                 Payload.client_secret := client_secret |} in
            Return (Refreshing connection payload)
          end
        end
      end
    end
  end.

(** Lines 57 to 66: the assignments of the new tokens, the commit and the
    value returned.  An exception before the commit leaves the table as it
    was. *)
Definition store_tokens `{Cryptography}
  (settings : Settings) (env : Environment) (db : Database)
  (connection : XeroConnection.t) (tokens : Tokens.t) : Outcome str :=
  match Tokens.access_token tokens with
  | None => {| value := Raise (KeyError "access_token"); database := db |}
  | Some access =>
    match encrypt_token settings (fernet_time_access env) (fernet_iv_access env) access with
    | Raise e => {| value := Raise e; database := db |}
    | Return access_token_encrypted =>
      match Tokens.refresh_token tokens with
      | None => {| value := Raise (KeyError "refresh_token"); database := db |}
      | Some refresh =>
        match encrypt_token settings (fernet_time_refresh env) (fernet_iv_refresh env)
                            refresh with
        | Raise e => {| value := Raise e; database := db |}
        | Return refresh_token_encrypted =>
          match Tokens.expires_in tokens with
          | None => {| value := Raise (KeyError "expires_in"); database := db |}
          | Some (Raise e) => {| value := Raise e; database := db |}
          | Some (Return seconds) =>
            match datetime_add (utcnow_expiry env) seconds with
            | Raise e => {| value := Raise e; database := db |}
            | Return expires_at =>
              let refreshed :=
                set_tokens connection access_token_encrypted refresh_token_encrypted
                           (naive expires_at) "connected" in
              {| value :=
                   decrypt_token settings
                     (XeroConnection.access_token_encrypted refreshed);
                 database :=
                   commit_connection connection refreshed (utcnow_flush env) db |}
            end
          end
        end
      end
    end
  end.

(** Lines 49 to 66: what the coroutine does with the outcome of the
    request once it resumes. *)
Definition complete_refresh `{Cryptography}
  (settings : Settings) (env : Environment) (db : Database)
  (connection : XeroConnection.t) : Outcome str :=
  match posted env with
  | Raise e => {| value := Raise e; database := db |}
  | Return resp =>
    if negb (Z.eqb (status_code resp) 200) then
      let revoked := set_sync_status connection "revoked" in
      {| value := Raise (Exception "Failed to refresh Xero token");
         database := commit_connection connection revoked (utcnow_flush env) db |}
    else
      match json resp with
      | None => {| value := Raise JSONDecodeError; database := db |}
      | Some tokens => store_tokens settings env db connection tokens
      end
  end.

(** One call, run from start to end with nothing in between: its outcome
    and the requests it has sent to the provider's token endpoint. *)
Definition get_valid_access_token `{Cryptography}
  (settings : Settings) (env : Environment) (db : Database)
  (organization_id : UUID) : Outcome str * list Payload.t :=
  match check_expiry settings db organization_id (utcnow_check env) with
  | Raise e => ({| value := Raise e; database := db |}, [])
  | Return (Valid token) => ({| value := Return token; database := db |}, [])
  | Return (Refreshing connection payload) =>
    (complete_refresh settings env db connection, [payload])
  end.

(** Two calls in one event loop.  Each is in one of three states; a step
    of the scheduler resumes one of them, which then runs to its next
    suspension or to its end.  Each call has a session of its own, hence
    the connection object it loaded travels with it. *)
Inductive coroutine : Type :=
| Created
| Suspended (connection : XeroConnection.t)
| Done (r : result str).

Record Loop : Type := {
  shared : Database;
  sent : list Payload.t;
  first_call : coroutine;
  second_call : coroutine
}.

Definition resume `{Cryptography}
  (settings : Settings) (env : Environment) (organization_id : UUID)
  (db : Database) (c : coroutine) : coroutine * Database * list Payload.t :=
  match c with
  | Created =>
    match check_expiry settings db organization_id (utcnow_check env) with
    | Raise e => (Done (Raise e), db, [])
    | Return (Valid token) => (Done (Return token), db, [])
    | Return (Refreshing connection payload) => (Suspended connection, db, [payload])
    end
  | Suspended connection =>
    let o := complete_refresh settings env db connection in
    (Done (value o), database o, [])
  | Done r => (Done r, db, [])
  end.

(** [schedule] names the call that each step resumes: [true] the first,
    [false] the second. *)
Fixpoint run `{Cryptography}
  (settings : Settings) (env1 env2 : Environment) (organization_id : UUID)
  (schedule : list bool) (l : Loop) : Loop :=
  match schedule with
  | [] => l
  | true :: rest =>
    let '(c, db, reqs) :=
      resume settings env1 organization_id (shared l) (first_call l) in
    run settings env1 env2 organization_id rest
      {| shared := db; sent := sent l ++ reqs;
         first_call := c; second_call := second_call l |}
  | false :: rest =>
    let '(c, db, reqs) :=
      resume settings env2 organization_id (shared l) (second_call l) in
    run settings env1 env2 organization_id rest
      {| shared := db; sent := sent l ++ reqs;
         first_call := first_call l; second_call := c |}
  end.

Definition start (db : Database) : Loop :=
  {| shared := db; sent := []; first_call := Created; second_call := Created |}.

(** The state of a call after the steps of a schedule: started, hence
    ended, when the schedule names it. *)
Definition after_steps `{Cryptography}
  (settings : Settings) (env : Environment) (organization_id : UUID) (db : Database)
  (named : bool) (c : coroutine) : coroutine :=
  match c with
  | Created =>
    if named
    then Done (value (fst (get_valid_access_token settings env db organization_id)))
    else Created
  | _ => c
  end.

(** ** Transaction fetch ([app/services/xero/transactions.py]) *)

(** The headers of the request for the bank transactions. *)
Module Headers.

Record t : Type := {
  Authorization : str;
  xero_tenant_id : string;
  Accept : string
}.

End Headers.

(** The response to it: its status, its text, and its body as
    [response.json()] reads it, [None] when the body is not JSON; inside,
    the [BankTransactions] array, [None] when the object has no such key. *)
Record Feed : Type := {
  feed_status_code : Z;
  feed_text : string;
  feed_json : option (option (list BankTransaction.t))
}.

(** What a call of [fetch_bank_transactions] returns or raises, the
    database it leaves, and the requests it has sent: the posts to the
    token endpoint and the gets of the bank transactions. *)
Record Fetched : Type := {
  fetched : Outcome (list BankTransaction.t);
  posts : list Payload.t;
  gets : list Headers.t
}.

(** [fetch_bank_transactions].  [got] is what [await client.get(...)]
    evaluates to. *)
Definition fetch_bank_transactions `{Cryptography}
  (settings : Settings) (env : Environment) (got : result Feed)
  (db : Database) (organization_id : UUID) : Fetched :=
  let connection := connection_of organization_id db in
  match connection with
  | None =>
    {| fetched :=
         {| value := Raise (Exception "Xero not connected for this organization");
            database := db |};
       posts := []; gets := [] |}
  | Some connection =>
    let (token, sent_posts) := get_valid_access_token settings env db organization_id in
    match value token with
    | Raise e =>
      {| fetched := {| value := Raise e; database := database token |};
         posts := sent_posts; gets := [] |}
    | Return access_token =>
      let headers :=
        {| Headers.Authorization := literal "Bearer " ++ access_token;
           Headers.xero_tenant_id := XeroConnection.xero_tenant_id connection;
           Headers.Accept := "application/json" |} in
      match got with
      | Raise e =>
        {| fetched := {| value := Raise e; database := database token |};
           posts := sent_posts; gets := [headers] |}
      | Return response =>
        if negb (Z.eqb (feed_status_code response) 200) then
          {| fetched :=
               {| value :=
                    Raise (Exception (String.append "Failed to fetch bank transactions: "
                                                    (feed_text response)));
                  database := database token |};
             posts := sent_posts; gets := [headers] |}
        else
          match feed_json response with
          | None =>
            {| fetched := {| value := Raise JSONDecodeError; database := database token |};
               posts := sent_posts; gets := [headers] |}
          | Some data =>
            {| fetched :=
                 {| value :=
                      Return (match data with
                              | Some bank_transactions => bank_transactions
                              | None => []
                              end);
                    database := database token |};
               posts := sent_posts; gets := [headers] |}
          end
      end
    end
  end.

(** ** Sync endpoint ([app/api/internal/xero_sync_debug.py]) *)

(** A row of the [clients] table: the columns that the endpoint's query
    reads. *)
Module Client.

Record t : Type := {
  id : UUID;
  organization_id : UUID
}.

End Client.

(** What a caller hands to [Session.execute]: a construct made with
    [text(...)], or a plain string. *)
Inductive statement : Type :=
| text (sql : string)
| plain (sql : string).

(** [db.execute(statement, params).scalar()], where [selected] is the
    column of values that the select yields.  [app/database.py] imports
    [async_sessionmaker], which SQLAlchemy has from version 2.0 on, and
    from that version on [Session.execute] takes executable constructs
    only: it refuses a plain string with [ArgumentError]. *)
Definition execute_scalar {A : Type} (stmt : statement) (selected : list A)
  : result (option A) :=
  match stmt with
  | text _ => Return (hd_error selected)
  | plain _ => Raise ArgumentError
  end.

(** How a request to the endpoint ends: with the JSON object
    [{"fetched": n, "status": "sync completed"}], with an [HTTPException]
    of the endpoint, or with an exception that the endpoint lets
    through. *)
Inductive reply : Type :=
| Completed (fetched : nat)
| HTTPException (status : Z) (detail : string)
| Unhandled (e : exn).

Record Handled : Type := {
  replied : reply;
  stored_db : Database;
  token_posts : list Payload.t;
  feed_gets : list Headers.t
}.

(** [debug_sync_transactions].  [organization_id] is
    [current_user.organization_id]; [clients] is the table that the
    endpoint's query selects from, in the order the database returns its
    rows. *)
Definition debug_sync_transactions `{PyRe} `{Cryptography}
  (settings : Settings) (env : Environment) (got : result Feed)
  (now : datetime) (uuid4 : nat -> UUID)
  (organization_id : option UUID) (clients : list Client.t)
  (db : Database) : Handled :=
  match organization_id with
  | None =>
    {| replied := HTTPException 400 "User has no organization";
       stored_db := db; token_posts := []; feed_gets := [] |}
  | Some organization_id =>
    let client_id :=
      execute_scalar
        (plain "SELECT id FROM clients WHERE organization_id = :org_id LIMIT 1")
        (map Client.id
           (filter (fun c => N.eqb (Client.organization_id c) organization_id) clients)) in
    match client_id with
    | Raise e =>
      {| replied := Unhandled e; stored_db := db; token_posts := []; feed_gets := [] |}
    | Return None =>
      {| replied := HTTPException 400 "No client found for org";
         stored_db := db; token_posts := []; feed_gets := [] |}
    | Return (Some client_id) =>
      let f := fetch_bank_transactions settings env got db organization_id in
      match value (fetched f) with
      | Raise e =>
        {| replied := Unhandled e; stored_db := database (fetched f);
           token_posts := posts f; feed_gets := gets f |}
      | Return xero_transactions =>
        let synced_db :=
          upsert_xero_transactions (database (fetched f)) organization_id client_id
            xero_transactions now uuid4 in
        match value synced_db with
        | Raise e =>
          {| replied := Unhandled e; stored_db := database synced_db;
             token_posts := posts f; feed_gets := gets f |}
        | Return _ =>
          {| replied := Completed (List.length xero_transactions);
             stored_db := database synced_db;
             token_posts := posts f; feed_gets := gets f |}
        end
      end
    end
  end.

(** ** Instances for the examples *)

(** A regular-expression engine for patterns without metacharacters: the
    search is a search for the pattern as a substring, letter case ignored. *)
Definition literal_re : PyRe :=
  {| re_search_ignorecase := fun pattern value => Some (contains (lower value) (lower pattern)) |}.

(** The same engine, which moreover refuses the pattern ["("], an unclosed
    group, as [re] does. *)
Definition paren_re : PyRe :=
  {| re_search_ignorecase := fun pattern value =>
       if String.eqb pattern "(" then None
       else Some (contains (lower value) (lower pattern)) |}.

(** A stand-in for the three packages.  The digest is the message cut or
    filled to 32 bytes, base64 is the identity, and the cipher marks the
    data instead of enciphering it: the token is the letter [g] followed by
    two letters from [A] to [P] for each byte of the data. *)
Definition armour (data : bytes) : bytes :=
  flat_map (fun b => [byte_of_N (65 + Byte.to_N b / 16);
                      byte_of_N (65 + Byte.to_N b mod 16)]) data.

Fixpoint unarmour (token : bytes) : option bytes :=
  match token with
  | [] => Some []
  | high :: low :: rest =>
    let h := Byte.to_N high in
    let l := Byte.to_N low in
    if ((65 <=? h) && (h <=? 80) && (65 <=? l) && (l <=? 80))%N then
      match unarmour rest with
      | Some data => Some (byte_of_N ((h - 65) * 16 + (l - 65)) :: data)
      | None => None
      end
    else None
  | _ => None
  end.

Definition marking_cipher : Cryptography.
Proof.
  refine
    {| sha256_digest := fun message => firstn 32 (message ++ repeat Init.Byte.x00 32);
       urlsafe_b64encode := fun data => data;
       urlsafe_b64decode := fun data => Some data;
       Fernet_encrypt := fun _ _ _ data => Init.Byte.x67 :: armour data;
       Fernet_decrypt := fun _ token =>
         match token with
         | Init.Byte.x67 :: rest => unarmour rest
         | _ => None
         end |}.
  - intros message. rewrite length_firstn, length_app, repeat_length. lia.
  - reflexivity.
  - intros _ _ _ data _. induction data as [|b data IH]; [reflexivity|].
    cbn [armour flat_map app unarmour] in *. unfold armour in IH. rewrite IH.
    destruct b; reflexivity.
  - intros _ _ _ data. cbn [forallb]. apply andb_true_iff. split; [reflexivity|].
    induction data as [|b data IH]; [reflexivity|].
    cbn [armour flat_map app forallb] in *. unfold armour in IH. rewrite IH.
    destruct b; reflexivity.
Defined.

Module Example.

Definition settings : Settings :=
  {| jwt_secret_key := literal "secret";
     xero_client_id := Some (literal "client");
     xero_client_secret := Some (literal "hush") |}.

(** Five thousand seconds after the epoch. *)
Definition now : datetime := 5000000000%Z.

(** A connection as a session reads it from the table: its access token,
    ["A1"] under the stand-in cipher, expired ten seconds ago; its refresh
    token is ["R1"]. *)
Definition connection : XeroConnection.t :=
  {| XeroConnection.id := 1%N;
     XeroConnection.organization_id := 7%N;
     XeroConnection.xero_tenant_id := "tenant";
     XeroConnection.xero_tenant_name := Some "Demo Company";
     XeroConnection.access_token_encrypted := literal "gEBDB";
     XeroConnection.refresh_token_encrypted := literal "gFCDB";
     XeroConnection.expires_at := aware (now - timedelta_seconds 10)%Z;
     XeroConnection.last_sync_at := None;
     XeroConnection.sync_status := "connected";
     XeroConnection.connected_by := None;
     XeroConnection.created_at := 0%Z;
     XeroConnection.updated_at := 0%Z |}.

(** The same connection with an hour left. *)
Definition fresh_connection : XeroConnection.t :=
  set_tokens connection (literal "gEBDB") (literal "gFCDB")
             (aware (now + timedelta_minutes 60)%Z) "connected".

(** The two connections as a session holds them that has assigned
    [expires_at] itself, from its clock. *)
Definition pending_connection : XeroConnection.t :=
  set_tokens connection (literal "gEBDB") (literal "gFCDB")
             (naive (now - timedelta_seconds 10)%Z) "connected".

Definition fresh_pending_connection : XeroConnection.t :=
  set_tokens connection (literal "gEBDB") (literal "gFCDB")
             (naive (now + timedelta_minutes 60)%Z) "connected".

Definition holding (connection : XeroConnection.t) : Database :=
  {| transactions := []; exclusion_rules := []; xero_connections := [connection] |}.

Definition db : Database := holding connection.

Definition fresh_db : Database := holding fresh_connection.

Definition rotated : Response :=
  {| status_code := 200%Z;
     json := Some {| Tokens.access_token := Some (literal "A2");
                     Tokens.refresh_token := Some (literal "R2");
                     Tokens.expires_in := Some (Return (timedelta_seconds 1800)) |} |}.

Definition rejected : Response :=
  {| status_code := 400%Z;
     json := Some {| Tokens.access_token := None;
                     Tokens.refresh_token := None;
                     Tokens.expires_in := None |} |}.

(** The provider would accept the refresh token. *)
Definition accepted_env : Environment :=
  {| utcnow_check := now;
     posted := Return rotated;
     fernet_time_access := (now + 1)%Z;
     fernet_iv_access := [Init.Byte.x01];
     fernet_time_refresh := (now + 2)%Z;
     fernet_iv_refresh := [Init.Byte.x02];
     utcnow_expiry := (now + 3)%Z;
     utcnow_flush := (now + 4)%Z |}.

(** The provider would refuse it. *)
Definition rejected_env : Environment :=
  {| utcnow_check := (now + 1)%Z;
     posted := Return rejected;
     fernet_time_access := (now + 5)%Z;
     fernet_iv_access := [Init.Byte.x03];
     fernet_time_refresh := (now + 6)%Z;
     fernet_iv_refresh := [Init.Byte.x04];
     utcnow_expiry := (now + 7)%Z;
     utcnow_flush := (now + 8)%Z |}.

(** A call that starts a minute later. *)
Definition later_env : Environment :=
  {| utcnow_check := (now + timedelta_minutes 1)%Z;
     posted := Raise TransportError;
     fernet_time_access := (now + timedelta_minutes 1)%Z;
     fernet_iv_access := [Init.Byte.x05];
     fernet_time_refresh := (now + timedelta_minutes 1)%Z;
     fernet_iv_refresh := [Init.Byte.x06];
     utcnow_expiry := (now + timedelta_minutes 1)%Z;
     utcnow_flush := (now + timedelta_minutes 1)%Z |}.

Definition rule (rule_type pattern match_type : string) (reason : option string)
  : ExclusionRule.t :=
  {| ExclusionRule.id := 20%N;
     ExclusionRule.organization_id := 7%N;
     ExclusionRule.rule_type := rule_type;
     ExclusionRule.pattern := pattern;
     ExclusionRule.match_type := match_type;
     ExclusionRule.enabled := true;
     ExclusionRule.reason := reason;
     ExclusionRule.created_by := None;
     ExclusionRule.created_at := 0%Z;
     ExclusionRule.updated_at := 0%Z |}.

Definition cloud_rule : ExclusionRule.t :=
  rule "supplier_name" "AWS" "contains" (Some "Cloud infra").

(** The same rule, switched off. *)
Definition disabled_cloud_rule : ExclusionRule.t :=
  {| ExclusionRule.id := 20%N;
     ExclusionRule.organization_id := 7%N;
     ExclusionRule.rule_type := "supplier_name";
     ExclusionRule.pattern := "AWS";
     ExclusionRule.match_type := "contains";
     ExclusionRule.enabled := false;
     ExclusionRule.reason := Some "Cloud infra";
     ExclusionRule.created_by := None;
     ExclusionRule.created_at := 0%Z;
     ExclusionRule.updated_at := 0%Z |}.

Definition emea_rule : ExclusionRule.t :=
  rule "supplier_name" "emea sarl" "ends_with" None.

Definition fees_rule : ExclusionRule.t :=
  rule "description" "fee" "contains" (Some "Fees").

Definition acme_rule : ExclusionRule.t :=
  rule "supplier_name" "acme" "starts_with" (Some "Acme").

(** A row of the table, for the provider transaction ["T1"]. *)
Definition row (description supplier : option string)
           (required received excluded : bool) (reason : option string)
  : Transaction.t :=
  {| Transaction.id := 11%N;
     Transaction.organization_id := 7%N;
     Transaction.client_id := 3%N;
     Transaction.xero_transaction_id := "T1";
     Transaction.xero_type := Some "SPEND";
     Transaction.date := Some "2024-01-05";
     Transaction.amount := Some 1250%Z;
     Transaction.description := description;
     Transaction.supplier_name := supplier;
     Transaction.document_required := required;
     Transaction.document_received := received;
     Transaction.document_uploaded_at := None;
     Transaction.excluded := excluded;
     Transaction.exclusion_reason := reason;
     Transaction.created_at := 0%Z;
     Transaction.updated_at := 0%Z |}.

Definition aws_row : Transaction.t :=
  row (Some "Hosting") (Some "AWS EMEA SARL") true false false None.

(** A row that an earlier sync has excluded. *)
Definition excluded_row : Transaction.t :=
  row (Some "Hosting") (Some "AWS EMEA SARL") false false true (Some "Cloud infra").

(** A row whose document has arrived. *)
Definition received_row : Transaction.t :=
  row (Some "Invoice 7") (Some "Other Ltd") false true false None.

Definition fee_row : Transaction.t :=
  row (Some "Bank fee") (Some "Old Supplier") true false false None.

(** A provider record for a transaction. *)
Definition record (id : string) (reference supplier : option string)
           (attachments : option bool) : BankTransaction.t :=
  {| BankTransaction.BankTransactionID := Some id;
     BankTransaction.Type_ := Some "SPEND";
     BankTransaction.Date := Some "2024-01-05";
     BankTransaction.Total := Some 1250%Z;
     BankTransaction.Reference := reference;
     BankTransaction.LineAmountTypes := Some "Inclusive";
     BankTransaction.Contact :=
       match supplier with
       | Some n => Some {| BankTransaction.Name := Some n |}
       | None => None
       end;
     BankTransaction.HasAttachments := attachments |}.

Definition table (rows : list Transaction.t) (rules : list ExclusionRule.t) : Database :=
  {| transactions := rows; exclusion_rules := rules; xero_connections := [] |}.

Definition uuid4 (n : nat) : UUID := N.of_nat (100 + n).

(** A row with neither a description nor a supplier name. *)
Definition blank_row : Transaction.t :=
  row None (Some EmptyString) true false false None.

(** A row of another organization, for the provider transaction ["T9"]. *)
Definition foreign_row : Transaction.t :=
  {| Transaction.id := 12%N;
     Transaction.organization_id := 8%N;
     Transaction.client_id := 4%N;
     Transaction.xero_transaction_id := "T9";
     Transaction.xero_type := Some "RECEIVE";
     Transaction.date := Some "2024-02-01";
     Transaction.amount := Some 990%Z;
     Transaction.description := Some "Refund";
     Transaction.supplier_name := Some "AWS EMEA SARL";
     Transaction.document_required := true;
     Transaction.document_received := false;
     Transaction.document_uploaded_at := None;
     Transaction.excluded := false;
     Transaction.exclusion_reason := None;
     Transaction.created_at := 0%Z;
     Transaction.updated_at := 0%Z |}.


(** A provider record without an identifier. *)
Definition anonymous_record : BankTransaction.t :=
  {| BankTransaction.BankTransactionID := None;
     BankTransaction.Type_ := Some "SPEND";
     BankTransaction.Date := Some "2024-01-05";
     BankTransaction.Total := Some 10%Z;
     BankTransaction.Reference := Some "Lunch";
     BankTransaction.LineAmountTypes := None;
     BankTransaction.Contact := None;
     BankTransaction.HasAttachments := Some true |}.

Definition hosting_record : BankTransaction.t :=
  record "T1" (Some "Hosting") (Some "AWS EMEA SARL") (Some false).

Definition ireland_record : BankTransaction.t :=
  record "T2" None (Some "AWS Ireland") None.

Definition attached_record : BankTransaction.t :=
  record "T1" (Some "Hosting") (Some "AWS EMEA SARL") (Some true).

(** Answers to the request for the bank transactions. *)
Definition feed : Feed :=
  {| feed_status_code := 200%Z;
     feed_text := "{...}";
     feed_json := Some (Some [hosting_record; ireland_record]) |}.

Definition unavailable : Feed :=
  {| feed_status_code := 503%Z;
     feed_text := "Service Unavailable";
     feed_json := None |}.

End Example.

(* ===================================================================== *)
(** * Part II.  Properties                                                *)
(* ===================================================================== *)

(** ** The exclusion engine *)

Section Engine.

Context `{PyRe}.

(** The engine is a search for the first rule that would match. *)
Lemma apply_exclusion_rules_find (transaction : Transaction.t) (rules : list ExclusionRule.t) :
  apply_exclusion_rules transaction rules =
  match find (fun r => would_match r transaction) rules with
  | Some rule => (exclude transaction rule, true)
  | None => (transaction, false)
  end.
Proof.
  induction rules as [|rule rest IH]; simpl; [reflexivity|].
  unfold would_match at 1.
  destruct (ExclusionRule.is_active rule); simpl; [|exact IH].
  destruct (tested_value rule transaction) as [v|]; [|exact IH].
  destruct (ExclusionRule.matches rule v); [reflexivity|exact IH].
Qed.



(** The engine reads [supplier_name] and [description] and nothing else. *)
Lemma would_match_fields (rule : ExclusionRule.t) (t t' : Transaction.t) :
  Transaction.supplier_name t = Transaction.supplier_name t' ->
  Transaction.description t = Transaction.description t' ->
  would_match rule t = would_match rule t'.
Proof.
  intros Hs Hd. unfold would_match, tested_value. now rewrite Hs, Hd.
Qed.

Lemma find_would_match_fields (rules : list ExclusionRule.t) (t t' : Transaction.t) :
  Transaction.supplier_name t = Transaction.supplier_name t' ->
  Transaction.description t = Transaction.description t' ->
  find (fun r => would_match r t) rules = find (fun r => would_match r t') rules.
Proof.
  intros Hs Hd. induction rules as [|r l IH]; simpl; [reflexivity|].
  rewrite (would_match_fields r t t' Hs Hd). now rewrite IH.
Qed.


End Engine.

(** ** Text and bytes *)

Ltac div_lia := zify; Z.to_euclidean_division_equations; lia.

Lemma to_N_byte_of_N (n : N) : (n < 256)%N -> Byte.to_N (byte_of_N n) = n.
Proof.
  intros Hn. unfold byte_of_N.
  destruct (Byte.of_N n) as [b|] eqn:E.
  - now apply Byte.to_of_N.
  - apply Byte.of_N_None_iff in E. lia.
Qed.

Lemma byte_of_N_to_N (b : byte) : byte_of_N (Byte.to_N b) = b.
Proof. unfold byte_of_N. now rewrite Byte.of_to_N. Qed.

Lemma continuation_byte_of_N (n : N) :
  (n < 64)%N -> continuation (byte_of_N (0x80 + n)) = Some n.
Proof.
  intros Hn. unfold continuation. rewrite to_N_byte_of_N by lia.
  destruct (N.leb_spec 0x80 (0x80 + n)); [|lia].
  destruct (N.leb_spec (0x80 + n) 0xBF); [|lia].
  cbn [andb]. f_equal. lia.
Qed.

Lemma Some_eq {A : Type} (x y : A) : Some x = Some y -> y = x.
Proof. congruence. Qed.

(** Decoding reads back the code point whose form starts the bytes. *)
Lemma utf8_decode_codepoint (c : N) (head tail : bytes) :
  encode_codepoint c = Some head ->
  utf8_decode (head ++ tail) = option_map (cons c) (utf8_decode tail).
Proof.
  unfold encode_codepoint.
  destruct (N.ltb_spec c 0x80) as [H1|H1].
  { intros E. apply Some_eq in E. subst head. cbn [app utf8_decode].
    rewrite to_N_byte_of_N by lia.
    destruct (N.ltb_spec c 0x80); [reflexivity|lia]. }
  destruct (N.ltb_spec c 0x800) as [H2|H2].
  { intros E. apply Some_eq in E. subst head. cbn [app utf8_decode].
    rewrite to_N_byte_of_N by div_lia.
    rewrite continuation_byte_of_N by div_lia.
    destruct (N.ltb_spec (0xC0 + c / 0x40) 0x80); [div_lia|].
    destruct (N.ltb_spec (0xC0 + c / 0x40) 0xC2); [div_lia|].
    destruct (N.ltb_spec (0xC0 + c / 0x40) 0xE0); [|div_lia].
    do 2 f_equal. div_lia. }
  destruct (N.ltb_spec c 0x10000) as [H3|H3].
  { destruct (is_surrogate c) eqn:Hs; [discriminate|].
    intros E. apply Some_eq in E. subst head. cbn [app utf8_decode].
    rewrite to_N_byte_of_N by div_lia.
    rewrite !continuation_byte_of_N by div_lia.
    destruct (N.ltb_spec (0xE0 + c / 0x1000) 0x80); [div_lia|].
    destruct (N.ltb_spec (0xE0 + c / 0x1000) 0xC2); [div_lia|].
    destruct (N.ltb_spec (0xE0 + c / 0x1000) 0xE0); [div_lia|].
    destruct (N.ltb_spec (0xE0 + c / 0x1000) 0xF0); [|div_lia].
    cbv zeta.
    replace ((0xE0 + c / 0x1000 - 0xE0) * 0x1000 + (c / 0x40) mod 0x40 * 0x40 + c mod 0x40)%N
      with c by div_lia.
    rewrite Hs.
    destruct (N.ltb_spec c 0x800); [lia|]. reflexivity. }
  destruct (N.ltb_spec c 0x110000) as [H4|H4]; [|discriminate].
  intros E. apply Some_eq in E. subst head. cbn [app utf8_decode].
  rewrite to_N_byte_of_N by div_lia.
  rewrite !continuation_byte_of_N by div_lia.
  destruct (N.ltb_spec (0xF0 + c / 0x40000) 0x80); [div_lia|].
  destruct (N.ltb_spec (0xF0 + c / 0x40000) 0xC2); [div_lia|].
  destruct (N.ltb_spec (0xF0 + c / 0x40000) 0xE0); [div_lia|].
  destruct (N.ltb_spec (0xF0 + c / 0x40000) 0xF0); [div_lia|].
  destruct (N.ltb_spec (0xF0 + c / 0x40000) 0xF5); [|div_lia].
  cbv zeta.
  replace ((0xF0 + c / 0x40000 - 0xF0) * 0x40000 + (c / 0x1000) mod 0x40 * 0x1000 +
           (c / 0x40) mod 0x40 * 0x40 + c mod 0x40)%N
    with c by div_lia.
  destruct (N.ltb_spec c 0x10000); [lia|].
  destruct (N.ltb_spec 0x10FFFF c); [lia|]. reflexivity.
Qed.

Lemma utf8_decode_encode (s : str) (b : bytes) :
  utf8_encode s = Some b -> utf8_decode b = Some s.
Proof.
  revert b. induction s as [|c s IH]; cbn [utf8_encode]; intros b E.
  - apply Some_eq in E. now subst b.
  - destruct (encode_codepoint c) as [head|] eqn:Ec; [|discriminate].
    destruct (utf8_encode s) as [tail|]; [|discriminate].
    apply Some_eq in E. subst b.
    rewrite (utf8_decode_codepoint c head tail Ec), (IH tail eq_refl). reflexivity.
Qed.

(** [s.encode().decode()] is [s]. *)
Lemma decode_encode (s : str) (b : bytes) :
  encode s = Return b -> decode b = Return s.
Proof.
  unfold encode, decode. destruct (utf8_encode s) as [b'|] eqn:E; [|discriminate].
  intros Eb. injection Eb as <-. now rewrite (utf8_decode_encode s b' E).
Qed.

Lemma encode_codepoint_scalar (c : N) :
  scalar c = true <-> exists head, encode_codepoint c = Some head.
Proof.
  unfold scalar, encode_codepoint, is_surrogate.
  destruct (N.ltb_spec c 0x80); destruct (N.ltb_spec c 0x800);
    destruct (N.ltb_spec c 0x10000); destruct (N.ltb_spec c 0x110000);
    destruct (N.leb_spec 0xD800 c); destruct (N.leb_spec c 0xDFFF);
    cbn [andb negb]; try lia;
      (split; [intros E; try discriminate; eexists; reflexivity
              |intros [head E]; try discriminate; reflexivity]).
Qed.

Lemma utf8_encode_encodable (s : str) :
  encodable s = true <-> exists b, utf8_encode s = Some b.
Proof.
  induction s as [|c s IH]; cbn [encodable forallb utf8_encode].
  - split; [eexists|]; reflexivity.
  - rewrite andb_true_iff, encode_codepoint_scalar. fold (encodable s). rewrite IH.
    split.
    + intros [[head ->] [tail ->]]. eexists. reflexivity.
    + destruct (encode_codepoint c) as [head|]; [|intros [b E]; discriminate].
      destruct (utf8_encode s) as [tail|]; [|intros [b E]; discriminate].
      intros _. split; eexists; reflexivity.
Qed.

(** [s.encode()] returns for the strings without a surrogate, and raises
    [UnicodeEncodeError] for the others. *)
Lemma encode_encodable (s : str) :
  encodable s = true <-> exists b, encode s = Return b.
Proof.
  rewrite utf8_encode_encodable. unfold encode. split; intros [b E].
  - rewrite E. now exists b.
  - destruct (utf8_encode s) as [b'|]; [now exists b'|discriminate].
Qed.

Lemma encode_raises (s : str) (e : exn) :
  encode s = Raise e -> e = UnicodeEncodeError.
Proof. unfold encode. destruct (utf8_encode s); congruence. Qed.

Lemma decode_raises (b : bytes) (e : exn) :
  decode b = Raise e -> e = UnicodeDecodeError.
Proof. unfold decode. destruct (utf8_decode b); congruence. Qed.

Lemma encode_not_encodable (s : str) :
  encodable s = false -> encode s = Raise UnicodeEncodeError.
Proof.
  intros Hs. destruct (encode s) as [b|e] eqn:E.
  - assert (encodable s = true) as Ht by (apply encode_encodable; now exists b).
    congruence.
  - now rewrite (encode_raises s e E).
Qed.

(** Bytes that are ASCII decode to themselves, and encode back. *)
Lemma decode_ascii (b : bytes) :
  forallb is_ascii b = true -> decode b = Return (map Byte.to_N b).
Proof.
  unfold decode. intros Hb.
  assert (utf8_decode b = Some (map Byte.to_N b)) as ->; [|reflexivity].
  induction b as [|b0 rest IH]; cbn [forallb utf8_decode map] in *; [reflexivity|].
  apply andb_true_iff in Hb. destruct Hb as [H0 Hr]. unfold is_ascii in H0.
  rewrite H0, (IH Hr). reflexivity.
Qed.

Lemma encode_ascii (b : bytes) :
  forallb is_ascii b = true -> encode (map Byte.to_N b) = Return b.
Proof.
  unfold encode. intros Hb.
  assert (utf8_encode (map Byte.to_N b) = Some b) as ->; [|reflexivity].
  induction b as [|b0 rest IH]; cbn [forallb utf8_encode map] in *; [reflexivity|].
  apply andb_true_iff in Hb. destruct Hb as [H0 Hr]. unfold is_ascii in H0.
  unfold encode_codepoint. rewrite H0, (IH Hr), byte_of_N_to_N. reflexivity.
Qed.

(** ** The token cipher *)

Section Cipher.

Context `{Cryptography}.

(** The key that [_get_fernet] derives has the form that [Fernet] asks
    for: the constructor does not raise, and the object works under the
    digest of the secret. *)
Lemma _get_fernet_digest (settings : Settings) (secret : bytes) :
  encode (jwt_secret_key settings) = Return secret ->
  _get_fernet settings = Return (sha256_digest secret).
Proof.
  intros Hs. unfold _get_fernet, Fernet.
  now rewrite Hs, urlsafe_b64decode_encode, sha256_digest_length.
Qed.

Lemma _get_fernet_raises (settings : Settings) :
  encodable (jwt_secret_key settings) = false ->
  _get_fernet settings = Raise UnicodeEncodeError.
Proof.
  intros Hs. unfold _get_fernet. now rewrite (encode_not_encodable _ Hs).
Qed.

(** What the cipher raises: [_get_fernet] only [UnicodeEncodeError], and
    the two functions nothing but the errors of the codec and
    [InvalidToken]. *)
Lemma _get_fernet_raises_only (settings : Settings) (e : exn) :
  _get_fernet settings = Raise e -> e = UnicodeEncodeError.
Proof.
  unfold _get_fernet, Fernet.
  destruct (encode (jwt_secret_key settings)) as [secret|e'] eqn:E.
  - rewrite urlsafe_b64decode_encode, sha256_digest_length. discriminate.
  - intros E'. injection E' as <-. exact (encode_raises _ _ E).
Qed.

Lemma decrypt_token_raises_only (settings : Settings) (token : str) (e : exn) :
  decrypt_token settings token = Raise e ->
  e = UnicodeEncodeError \/ e = InvalidToken \/ e = UnicodeDecodeError.
Proof.
  unfold decrypt_token.
  destruct (_get_fernet settings) as [f|e'] eqn:Ef.
  - destruct (encode token) as [b|e''] eqn:Ee.
    + destruct (Fernet_decrypt f b) as [data|].
      * intros Ed. right. right. exact (decode_raises _ _ Ed).
      * intros E'. injection E' as <-. right. now left.
    + intros E'. injection E' as <-. left. exact (encode_raises _ _ Ee).
  - intros E'. injection E' as <-. left. exact (_get_fernet_raises_only _ _ Ef).
Qed.

(** C6, as amended.  For every plaintext string [s] without a surrogate,
    under a secret without one, whatever the time and the initialisation
    vector of the encryption, [encrypt_token(s)] returns and
    [decrypt_token(encrypt_token(s)) = s].  When [s] or the secret holds a
    surrogate, [encrypt_token(s)] raises [UnicodeEncodeError] and returns
    nothing to decrypt. *)
Theorem decrypt_token_encrypt_token
        (settings : Settings) (time : datetime) (iv : bytes) (s : str) :
  (encodable (jwt_secret_key settings) = true ->
   encodable s = true ->
   exists encrypted,
     encrypt_token settings time iv s = Return encrypted /\
     decrypt_token settings encrypted = Return s) /\
  (encodable (jwt_secret_key settings) = false \/ encodable s = false ->
   encrypt_token settings time iv s = Raise UnicodeEncodeError).
Proof.
  split.
  - intros Hk Hs.
    apply encode_encodable in Hk. destruct Hk as [secret Hk].
    pose proof (_get_fernet_digest settings secret Hk) as Hf.
    apply encode_encodable in Hs. destruct Hs as [data Hs].
    set (key := sha256_digest secret) in *.
    set (token := Fernet_encrypt key time iv data).
    exists (map Byte.to_N token).
    pose proof (Fernet_encrypt_ascii key time iv data) as Hascii. fold token in Hascii.
    split.
    + unfold encrypt_token. rewrite Hf, Hs. fold token. now apply decode_ascii.
    + unfold decrypt_token. rewrite Hf, (encode_ascii token Hascii).
      unfold token. rewrite Fernet_decrypt_encrypt by apply sha256_digest_length.
      now apply decode_encode.
  - intros Hor. unfold encrypt_token.
    destruct (_get_fernet settings) as [f|e] eqn:Ef.
    + destruct Hor as [Hk|Hs].
      * rewrite (_get_fernet_raises settings Hk) in Ef. discriminate.
      * now rewrite (encode_not_encodable s Hs).
    + now rewrite (_get_fernet_raises_only settings e Ef).
Qed.

End Cipher.

(** ** The token manager *)

Section Manager.

Context `{Cryptography}.

(** What a call comes to.  The comparison of line 29 raises on a
    connection whose [expires_at] is aware.  On one whose [expires_at] is
    naive the call answers from the store when more than 2 minutes are
    left; otherwise it decrypts the refresh token and raises at line 38,
    where it reads [settings.XERO_CLIENT_ID].  No path reaches
    [client.post], and none writes. *)
Lemma get_valid_access_token_cases
      (settings : Settings) (env : Environment) (db : Database) (organization_id : UUID) :
  get_valid_access_token settings env db organization_id =
  ({| value :=
        match connection_of organization_id db with
        | None => Raise (Exception "No Xero connection found")
        | Some connection =>
          match XeroConnection.expires_at connection with
          | aware _ => Raise TypeError
          | naive t =>
            if (t >? utcnow_check env + timedelta_minutes 2)%Z then
              decrypt_token settings (XeroConnection.access_token_encrypted connection)
            else
              match decrypt_token settings
                      (XeroConnection.refresh_token_encrypted connection) with
              | Raise e => Raise e
              | Return _ => Raise (AttributeError "XERO_CLIENT_ID")
              end
          end
        end;
      database := db |}, []).
Proof.
  unfold get_valid_access_token, check_expiry.
  destruct (connection_of organization_id db) as [connection|]; [|reflexivity].
  destruct (XeroConnection.expires_at connection) as [t|t]; cbn [stamp_gt]; [|reflexivity].
  destruct (t >? utcnow_check env + timedelta_minutes 2)%Z.
  - destruct (decrypt_token settings (XeroConnection.access_token_encrypted connection));
      reflexivity.
  - destruct (decrypt_token settings (XeroConnection.refresh_token_encrypted connection));
      reflexivity.
Qed.

(** The first part of a call never ends suspended on a request. *)
Lemma check_expiry_never_refreshes
      (settings : Settings) (db : Database) (organization_id : UUID) (utcnow : datetime)
      (connection : XeroConnection.t) (payload : Payload.t) :
  check_expiry settings db organization_id utcnow <> Return (Refreshing connection payload).
Proof.
  unfold check_expiry.
  destruct (connection_of organization_id db) as [c|]; [|discriminate].
  destruct (stamp_gt _ _) as [[|]|e]; [| |discriminate].
  - destruct (decrypt_token settings (XeroConnection.access_token_encrypted c)); discriminate.
  - destruct (decrypt_token settings (XeroConnection.refresh_token_encrypted c)); discriminate.
Qed.

(** A call that finds the token within the margin raises. *)
Lemma within_margin_raises
      (settings : Settings) (env : Environment) (db : Database) (organization_id : UUID)
      (connection : XeroConnection.t) :
  connection_of organization_id db = Some connection ->
  (instant (XeroConnection.expires_at connection) <=
   utcnow_check env + timedelta_minutes 2)%Z ->
  value (fst (get_valid_access_token settings env db organization_id)) =
  match XeroConnection.expires_at connection with
  | aware _ => Raise TypeError
  | naive _ =>
    match decrypt_token settings (XeroConnection.refresh_token_encrypted connection) with
    | Raise e => Raise e
    | Return _ => Raise (AttributeError "XERO_CLIENT_ID")
    end
  end.
Proof.
  intros Hc Hexp. rewrite get_valid_access_token_cases, Hc. cbn [fst value].
  destruct (XeroConnection.expires_at connection) as [t|t]; [|reflexivity].
  cbn [instant] in Hexp.
  destruct (Z.gtb_spec t (utcnow_check env + timedelta_minutes 2)) as [Hgt|_]; [lia|].
  reflexivity.
Qed.

Lemma within_margin_raises_some
      (settings : Settings) (env : Environment) (db : Database) (organization_id : UUID)
      (connection : XeroConnection.t) :
  connection_of organization_id db = Some connection ->
  (instant (XeroConnection.expires_at connection) <=
   utcnow_check env + timedelta_minutes 2)%Z ->
  exists e, value (fst (get_valid_access_token settings env db organization_id)) = Raise e.
Proof.
  intros Hc Hexp. rewrite (within_margin_raises settings env db organization_id connection Hc Hexp).
  destruct (XeroConnection.expires_at connection); [|now eexists].
  destruct (decrypt_token settings _); now eexists.
Qed.

(** C7.  The code at the claim's input.  The connection exists and its
    [expires_at] is more than 2 minutes after the current time.  When the
    connection is as a session reads it from the table, with an aware
    [expires_at], [get_valid_access_token] raises [TypeError] at the
    comparison with [datetime.utcnow()]: it returns no token.  It sends no
    request and leaves the database as it was.  Only on a connection whose
    [expires_at] is naive does the call return the decryption of the
    stored access token. *)
Theorem stored_expiry_is_not_comparable
        (settings : Settings) (env : Environment) (db : Database)
        (organization_id : UUID) (connection : XeroConnection.t) (t : datetime) :
  connection_of organization_id db = Some connection ->
  (t > utcnow_check env + timedelta_minutes 2)%Z ->
  (XeroConnection.expires_at connection = aware t ->
   get_valid_access_token settings env db organization_id =
   ({| value := Raise TypeError; database := db |}, [])) /\
  (XeroConnection.expires_at connection = naive t ->
   get_valid_access_token settings env db organization_id =
   ({| value := decrypt_token settings (XeroConnection.access_token_encrypted connection);
       database := db |}, [])).
Proof.
  intros Hc Hexp. rewrite get_valid_access_token_cases, Hc.
  split; intros ->; [reflexivity|].
  apply Z.gtb_gt in Hexp. now rewrite Hexp.
Qed.

(** C2.  The code at the claim's input.  The stored connection's
    [expires_at] is not more than 2 minutes in the future.  Whatever the
    provider would answer to a refresh request, a success with
    [access_token], [refresh_token] and [expires_in] included,
    [get_valid_access_token] sends no request: it raises [TypeError] at
    line 29 when [expires_at] is aware, and otherwise what the decryption
    of the stored refresh token raises or, when that returns,
    [AttributeError] at line 38.  It returns no token and the connection
    row keeps its tokens, its [expires_at] and its [sync_status]. *)
Theorem accepted_refresh_is_never_requested
        (settings : Settings) (env : Environment) (db : Database)
        (organization_id : UUID) (connection : XeroConnection.t) :
  connection_of organization_id db = Some connection ->
  (instant (XeroConnection.expires_at connection) <=
   utcnow_check env + timedelta_minutes 2)%Z ->
  let (outcome, requests) := get_valid_access_token settings env db organization_id in
  requests = [] /\
  database outcome = db /\
  connection_of organization_id (database outcome) = Some connection /\
  value outcome =
    match XeroConnection.expires_at connection with
    | aware _ => Raise TypeError
    | naive _ =>
      match decrypt_token settings (XeroConnection.refresh_token_encrypted connection) with
      | Raise e => Raise e
      | Return _ => Raise (AttributeError "XERO_CLIENT_ID")
      end
    end.
Proof.
  intros Hc Hexp.
  pose proof (within_margin_raises settings env db organization_id connection Hc Hexp) as Hv.
  rewrite get_valid_access_token_cases in *. cbn [fst database] in *.
  repeat split; assumption.
Qed.

(** C8.  The code, whatever the input.  No call of
    [get_valid_access_token] sends a refresh request, none raises
    [Exception("Failed to refresh Xero token")], and none writes: the
    connection row keeps the [sync_status] it had, which the call never
    sets to ["revoked"]. *)
Theorem refused_refresh_is_never_recorded
        (settings : Settings) (env : Environment) (db : Database)
        (organization_id : UUID) :
  let (outcome, requests) := get_valid_access_token settings env db organization_id in
  requests = [] /\
  database outcome = db /\
  value outcome <> Raise (Exception "Failed to refresh Xero token").
Proof.
  rewrite get_valid_access_token_cases. cbn [database value].
  split; [reflexivity|]. split; [reflexivity|].
  destruct (connection_of organization_id db) as [connection|]; [|discriminate].
  destruct (XeroConnection.expires_at connection) as [t|t]; [|discriminate].
  assert (forall token,
             decrypt_token settings token <>
             Raise (Exception "Failed to refresh Xero token")) as Hd.
  { intros token E. apply decrypt_token_raises_only in E.
    destruct E as [E|[E|E]]; discriminate. }
  destruct (t >? utcnow_check env + timedelta_minutes 2)%Z; [apply Hd|].
  destruct (decrypt_token settings (XeroConnection.refresh_token_encrypted connection))
    as [rt|e] eqn:Ed; [discriminate|].
  rewrite <- Ed. apply Hd.
Qed.

(** Resuming a call that has not started runs it to its end: it raises or
    returns as the call alone does, sends nothing and writes nothing. *)
Lemma resume_Created
      (settings : Settings) (env : Environment) (organization_id : UUID) (db : Database) :
  resume settings env organization_id db Created =
  (Done (value (fst (get_valid_access_token settings env db organization_id))), db, []).
Proof.
  unfold resume, get_valid_access_token.
  destruct (check_expiry settings db organization_id (utcnow_check env))
    as [[token|connection payload]|e] eqn:Ec; try reflexivity.
  now apply check_expiry_never_refreshes in Ec.
Qed.

Lemma run_from_unsuspended
      (settings : Settings) (env1 env2 : Environment) (organization_id : UUID)
      (db : Database) (schedule : list bool) (requests : list Payload.t)
      (c1 c2 : coroutine) :
  (forall connection, c1 <> Suspended connection) ->
  (forall connection, c2 <> Suspended connection) ->
  run settings env1 env2 organization_id schedule
      {| shared := db; sent := requests; first_call := c1; second_call := c2 |} =
  {| shared := db; sent := requests;
     first_call :=
       after_steps settings env1 organization_id db (existsb (fun b => b) schedule) c1;
     second_call :=
       after_steps settings env2 organization_id db (existsb negb schedule) c2 |}.
Proof.
  revert c1 c2.
  induction schedule as [|[|] rest IH]; intros c1 c2 H1 H2; cbn [run existsb negb orb].
  - destruct c1, c2; reflexivity.
  - cbn [shared sent first_call second_call].
    destruct c1 as [|connection|r]; [|now elim (H1 connection)|].
    + rewrite resume_Created, app_nil_r, IH; [|discriminate|exact H2].
      cbn [after_steps]. reflexivity.
    + cbn [resume]. rewrite app_nil_r, IH; [|discriminate|exact H2]. reflexivity.
  - cbn [shared sent first_call second_call].
    destruct c2 as [|connection|r]; [|now elim (H2 connection)|].
    + rewrite resume_Created, app_nil_r, IH; [|exact H1|discriminate].
      cbn [after_steps]. reflexivity.
    + cbn [resume]. rewrite app_nil_r, IH; [|exact H1|discriminate]. reflexivity.
Qed.

(** C9.  The code at the claim's input.  Two calls for the same
    organization, run in one event loop under any schedule, the stored
    token being within the margin at the clock reading of each.  No
    request reaches the provider: not one refresh call is issued.  The
    database is left as it was, and each call that the schedule starts
    ends by raising: no caller receives a token. *)
Theorem concurrent_calls_request_nothing
        (settings : Settings) (env1 env2 : Environment) (db : Database)
        (organization_id : UUID) (connection : XeroConnection.t)
        (schedule : list bool) :
  connection_of organization_id db = Some connection ->
  (instant (XeroConnection.expires_at connection) <=
   utcnow_check env1 + timedelta_minutes 2)%Z ->
  (instant (XeroConnection.expires_at connection) <=
   utcnow_check env2 + timedelta_minutes 2)%Z ->
  let l := run settings env1 env2 organization_id schedule (start db) in
  sent l = [] /\
  shared l = db /\
  (In true schedule -> exists e, first_call l = Done (Raise e)) /\
  (In false schedule -> exists e, second_call l = Done (Raise e)) /\
  (forall token, first_call l <> Done (Return token)) /\
  (forall token, second_call l <> Done (Return token)).
Proof.
  intros Hc H1 H2. cbv zeta. unfold start.
  rewrite run_from_unsuspended by discriminate.
  cbn [sent shared first_call second_call after_steps].
  destruct (within_margin_raises_some settings env1 db organization_id connection Hc H1)
    as [e1 He1].
  destruct (within_margin_raises_some settings env2 db organization_id connection Hc H2)
    as [e2 He2].
  rewrite He1, He2.
  split; [reflexivity|]. split; [reflexivity|].
  split; [|split; [|split]].
  - intros Hin.
    assert (existsb (fun b => b) schedule = true) as ->
        by (apply existsb_exists; now exists true).
    now exists e1.
  - intros Hin.
    assert (existsb negb schedule = true) as ->
        by (apply existsb_exists; now exists false).
    now exists e2.
  - intros token. destruct (existsb (fun b => b) schedule); discriminate.
  - intros token. destruct (existsb negb schedule); discriminate.
Qed.

End Manager.

(** ** The transaction sync *)

(** *** Tables *)

Lemma first_None_forall {A : Type} (p : A -> bool) (table : list A) :
  first p table = None -> forall x, In x table -> p x = false.
Proof. intros Hf x Hx. exact (find_none p table Hf x Hx). Qed.

Lemma assign_absent (p : Transaction.t -> bool) (r : Transaction.t)
      (table : list Transaction.t) :
  first p table = None -> assign p r table = table.
Proof.
  unfold first. induction table as [|x l IH]; simpl; [reflexivity|].
  destruct (p x); [discriminate|]. intros Hf. now rewrite IH.
Qed.

Lemma map_key_assign (p : Transaction.t -> bool) (e r : Transaction.t)
      (table : list Transaction.t) :
  first p table = Some e -> key r = key e ->
  map key (assign p r table) = map key table.
Proof.
  unfold first. intros Hf Hk. induction table as [|x l IH]; simpl in *; [discriminate|].
  destruct (p x).
  - injection Hf as <-. simpl. now rewrite Hk.
  - simpl. now rewrite IH.
Qed.

Lemma unique_not_in (x : string) (ids : list string) :
  existsb (String.eqb x) ids = false -> ~ In x ids.
Proof.
  intros He Hin.
  assert (existsb (String.eqb x) ids = true) as Ht.
  { apply existsb_exists. exists x. split; [exact Hin|apply String.eqb_refl]. }
  congruence.
Qed.

Lemma unique_NoDup (ids : list string) : unique ids = true <-> NoDup ids.
Proof.
  induction ids as [|x l IH]; simpl.
  - split; [constructor|reflexivity].
  - rewrite andb_true_iff, negb_true_iff, IH. split.
    + intros [Hx Hl]. constructor; [now apply unique_not_in|exact Hl].
    + intros Hn. inversion Hn as [|? ? Hx Hl]; subst. split; [|exact Hl].
      destruct (existsb (String.eqb x) l) eqn:E; [|reflexivity].
      apply existsb_exists in E. destruct E as (y & Hy & Exy).
      apply String.eqb_eq in Exy. subst y. contradiction.
Qed.

(** In a table with unique provider identifiers, a lookup by identifier
    accepts one row at most, and assigning to the row it returns is a
    change of every row it accepts. *)
Lemma assign_unique (p : Transaction.t -> bool) (g : Transaction.t -> Transaction.t)
      (xid : string) (e : Transaction.t) (table : list Transaction.t) :
  (forall x, p x = true -> Transaction.xero_transaction_id x = xid) ->
  NoDup (map Transaction.xero_transaction_id table) ->
  first p table = Some e ->
  assign p (g e) table = map (fun x => if p x then g x else x) table.
Proof.
  unfold first. intros Hp Hu Hf.
  induction table as [|x l IH]; simpl in *; [discriminate|].
  inversion Hu as [|? ? Hx Hl]; subst.
  destruct (p x) eqn:Epx.
  - injection Hf as <-. f_equal.
    symmetry. etransitivity; [|apply map_id]. apply map_ext_in.
    intros y Hy. destruct (p y) eqn:Epy; [|reflexivity].
    exfalso. apply Hx. rewrite (Hp x Epx), <- (Hp y Epy). now apply in_map.
  - f_equal. now apply IH.
Qed.

Lemma map_absent (p : Transaction.t -> bool) (g : Transaction.t -> Transaction.t)
      (table : list Transaction.t) :
  first p table = None ->
  map (fun x => if p x then g x else x) table = table.
Proof.
  intros Hf. etransitivity; [|apply map_id]. apply map_ext_in.
  intros x Hx. now rewrite (first_None_forall p table Hf x Hx).
Qed.

Lemma same_transaction_key (organization_id : UUID) (xid : string) (t t' : Transaction.t) :
  key t = key t' ->
  same_transaction organization_id xid t = same_transaction organization_id xid t'.
Proof.
  unfold key, same_transaction. intros Hk. injection Hk as Ho Hx. now rewrite Ho, Hx.
Qed.

Lemma same_transaction_xid (organization_id : UUID) (xid : string) (t : Transaction.t) :
  same_transaction organization_id xid t = true ->
  Transaction.organization_id t = organization_id /\
  Transaction.xero_transaction_id t = xid.
Proof.
  unfold same_transaction. rewrite andb_true_iff, N.eqb_eq, String.eqb_eq. tauto.
Qed.

Lemma existsb_key (organization_id : UUID) (xid : string) (l l' : list Transaction.t) :
  map key l = map key l' ->
  existsb (same_transaction organization_id xid) l =
  existsb (same_transaction organization_id xid) l'.
Proof.
  revert l'. induction l as [|x l IH]; intros [|x' l'] Hm; simpl in *;
    try discriminate; [reflexivity|].
  injection Hm as Ho Hx Hm.
  assert (key x = key x') as Hk by (unfold key; congruence).
  now rewrite (same_transaction_key _ _ _ _ Hk), (IH _ Hm).
Qed.

Lemma first_existsb {A : Type} (p : A -> bool) (table : list A) :
  first p table = None <-> existsb p table = false.
Proof.
  unfold first. induction table as [|x l IH]; simpl; [tauto|].
  destruct (p x); simpl; [split; discriminate|exact IH].
Qed.

Lemma map_xid_key (l l' : list Transaction.t) :
  map key l = map key l' ->
  map Transaction.xero_transaction_id l = map Transaction.xero_transaction_id l'.
Proof.
  intros Hm.
  assert (forall l0, map Transaction.xero_transaction_id l0 = map snd (map key l0)) as E.
  { intros l0. rewrite map_map. reflexivity. }
  now rewrite (E l), (E l'), Hm.
Qed.

(** *** One row *)

Section Rows.

Context `{PyRe}.
Variables (organization_id client_id : UUID) (rules : list ExclusionRule.t).

Lemma engine_result (t : Transaction.t) :
  fst (apply_exclusion_rules t rules) =
  match find (fun r => would_match r t) rules with
  | Some rule => exclude t rule
  | None => t
  end.
Proof.
  rewrite apply_exclusion_rules_find.
  destruct (find _ rules); reflexivity.
Qed.

Lemma key_engine (t : Transaction.t) :
  key (fst (apply_exclusion_rules t rules)) = key t.
Proof. rewrite engine_result. destruct (find _ rules); reflexivity. Qed.

Lemma key_synced (now : datetime) (t : Transaction.t) (tx : BankTransaction.t) :
  key (synced rules now t tx) = key t.
Proof. unfold synced. now rewrite key_engine. Qed.

Lemma key_inserted (now : datetime) (uuid : UUID) (xid : string) (tx : BankTransaction.t) :
  key (inserted rules now uuid organization_id client_id xid tx) = (organization_id, xid).
Proof. unfold inserted. now rewrite key_engine. Qed.

Lemma selects_key (tx : BankTransaction.t) (t t' : Transaction.t) :
  key t = key t' -> selects organization_id tx t = selects organization_id tx t'.
Proof.
  intros Hk. unfold selects.
  destruct (BankTransaction.BankTransactionID tx) as [xid|]; [|reflexivity].
  now rewrite (same_transaction_key _ _ _ _ Hk).
Qed.

Lemma key_touch (now : datetime) (t : Transaction.t) (tx : BankTransaction.t) :
  key (touch organization_id rules now t tx) = key t.
Proof.
  unfold touch. destruct (selects organization_id tx t); [apply key_synced|reflexivity].
Qed.

Lemma selects_xid (tx : BankTransaction.t) (t : Transaction.t) :
  selects organization_id tx t = true ->
  BankTransaction.BankTransactionID tx = Some (Transaction.xero_transaction_id t) /\
  In (Transaction.xero_transaction_id t) (processed_ids [tx]).
Proof.
  unfold selects. simpl.
  destruct (BankTransaction.BankTransactionID tx) as [xid|]; [|discriminate].
  rewrite andb_true_iff. intros [Ht Hs].
  apply same_transaction_xid in Hs. destruct Hs as [_ <-].
  rewrite Ht. split; [reflexivity|now left].
Qed.

Lemma processed_ids_app (l l' : list BankTransaction.t) :
  processed_ids (l ++ l') = processed_ids l ++ processed_ids l'.
Proof.
  induction l as [|tx l IH]; cbn [processed_ids app]; [reflexivity|].
  destruct (BankTransaction.BankTransactionID tx) as [xid|]; [|exact IH].
  destruct (truthy (Some xid)); cbn [app]; now rewrite IH.
Qed.

Lemma selects_processed (txs : list BankTransaction.t) (tx : BankTransaction.t)
      (t : Transaction.t) :
  In tx txs -> selects organization_id tx t = true ->
  In (Transaction.xero_transaction_id t) (processed_ids txs).
Proof.
  intros Hin Hs. apply in_split in Hin. destruct Hin as (l1 & l2 & ->).
  rewrite processed_ids_app. apply in_or_app. right.
  change (tx :: l2) with ([tx] ++ l2). rewrite processed_ids_app.
  apply in_or_app. left. now apply selects_xid.
Qed.

(** A row that no record of the batch selects comes out as it went in. *)
Lemma fold_touch_unselected (now : datetime) (txs : list BankTransaction.t)
      (t : Transaction.t) :
  (forall tx, In tx txs -> selects organization_id tx t = false) ->
  fold_left (touch organization_id rules now) txs t = t.
Proof.
  induction txs as [|tx rest IH]; simpl; intros Hn; [reflexivity|].
  unfold touch at 2. rewrite (Hn tx (or_introl eq_refl)).
  apply IH. intros tx' Hin. apply Hn. now right.
Qed.

(** In a batch without a repeated identifier, one record at most selects
    a row, and the row comes out as that record leaves it. *)
Lemma fold_touch_once (now : datetime) (txs : list BankTransaction.t)
      (t : Transaction.t) :
  NoDup (processed_ids txs) ->
  fold_left (touch organization_id rules now) txs t =
  match find (fun tx => selects organization_id tx t) txs with
  | Some tx => synced rules now t tx
  | None => t
  end.
Proof.
  revert t.
  induction txs as [|tx rest IH]; cbn [fold_left find processed_ids]; intros t Hn;
    [reflexivity|].
  assert (NoDup (processed_ids rest)) as Hrest.
  { destruct (BankTransaction.BankTransactionID tx) as [xid|]; [|exact Hn].
    destruct (truthy (Some xid)); [now inversion Hn|exact Hn]. }
  unfold touch at 2.
  destruct (selects organization_id tx t) eqn:Es.
  - apply fold_touch_unselected. intros tx' Hin.
    rewrite (selects_key tx' _ t (key_synced now t tx)).
    destruct (selects organization_id tx' t) eqn:Es'; [|reflexivity].
    exfalso.
    pose proof (selects_processed rest tx' t Hin Es') as Hin'.
    apply selects_xid in Es. destruct Es as [Eid _]. rewrite Eid in Hn.
    cbv beta iota in Hn. unfold selects in Es'.
    destruct (BankTransaction.BankTransactionID tx') as [xid'|]; [|discriminate].
    apply andb_true_iff in Es'. destruct Es' as [Ht Hs].
    apply same_transaction_xid in Hs. destruct Hs as [_ Hx]. subst xid'.
    rewrite Ht in Hn. inversion Hn; contradiction.
  - now apply IH.
Qed.

End Rows.

(** *** The loop *)

Section Loop.

Context `{PyRe}.
Variables (organization_id client_id : UUID) (rules : list ExclusionRule.t).
Variables (now : datetime) (uuid4 : nat -> UUID).

Local Abbreviation step := (upsert_one organization_id client_id rules now uuid4).
Local Abbreviation lookup xid := (same_transaction organization_id xid).

(** What an iteration does, by cases. *)
Lemma step_cases (db : Session) (tx : BankTransaction.t) :
  (truthy (BankTransaction.BankTransactionID tx) = false /\
   step db tx = db /\
   forall t, selects organization_id tx t = false) \/
  (exists xid,
      BankTransaction.BankTransactionID tx = Some xid /\
      truthy (Some xid) = true /\
      first (lookup xid) (rows db) = None /\
      step db tx =
      {| rows := rows db;
         added := added db ++
                  [inserted rules now (uuid4 (List.length (added db)))
                            organization_id client_id xid tx] |}) \/
  (exists xid existing,
      BankTransaction.BankTransactionID tx = Some xid /\
      truthy (Some xid) = true /\
      first (lookup xid) (rows db) = Some existing /\
      step db tx =
      {| rows := assign (lookup xid) (synced rules now existing tx) (rows db);
         added := added db |}).
Proof.
  unfold upsert_one, selects.
  destruct (BankTransaction.BankTransactionID tx) as [xid|]; [|now left].
  destruct (truthy (Some xid)) eqn:Et; cbn [negb andb]; [|now left].
  destruct (first (lookup xid) (rows db)) as [existing|] eqn:Ef.
  - right; right. now exists xid, existing.
  - right; left. now exists xid.
Qed.

Lemma step_keys (db : Session) (tx : BankTransaction.t) :
  map key (rows (step db tx)) = map key (rows db).
Proof.
  destruct (step_cases db tx)
    as [(_ & -> & _)|[(xid & _ & _ & _ & ->)|(xid & e & _ & _ & Hf & ->)]];
    try reflexivity.
  cbn [rows]. apply (map_key_assign _ e); [exact Hf|apply key_synced].
Qed.

Lemma step_rows (db : Session) (tx : BankTransaction.t) :
  NoDup (map Transaction.xero_transaction_id (rows db)) ->
  rows (step db tx) =
  map (fun t => touch organization_id rules now t tx) (rows db).
Proof.
  intros Hu. unfold touch.
  destruct (step_cases db tx)
    as [(_ & -> & Hs)|[(xid & Eid & Et & Hf & ->)|(xid & e & Eid & Et & Hf & ->)]];
    cbn [rows].
  - symmetry. etransitivity; [|apply map_id]. apply map_ext. intros t. now rewrite Hs.
  - symmetry. unfold selects. rewrite Eid, Et. cbn [andb].
    now apply map_absent.
  - unfold selects. rewrite Eid, Et. cbn [andb].
    apply (assign_unique (lookup xid) (fun x => synced rules now x tx) xid e);
      [|exact Hu|exact Hf].
    intros x Hx. now apply same_transaction_xid in Hx.
Qed.

Lemma step_added (db : Session) (tx : BankTransaction.t) :
  exists extra, added (step db tx) = added db ++ extra.
Proof.
  destruct (step_cases db tx)
    as [(_ & -> & _)|[(xid & _ & _ & _ & ->)|(xid & e & _ & _ & _ & ->)]]; cbn [added].
  - exists []. now rewrite app_nil_r.
  - eexists. reflexivity.
  - exists []. now rewrite app_nil_r.
Qed.

Lemma loop_keys (txs : list BankTransaction.t) (db : Session) :
  map key (rows (fold_left step txs db)) = map key (rows db).
Proof.
  revert db. induction txs as [|tx rest IH]; intros db; cbn [fold_left]; [reflexivity|].
  now rewrite IH, step_keys.
Qed.

Lemma loop_rows (txs : list BankTransaction.t) (db : Session) :
  NoDup (map Transaction.xero_transaction_id (rows db)) ->
  rows (fold_left step txs db) =
  map (fun t => fold_left (touch organization_id rules now) txs t) (rows db).
Proof.
  revert db. induction txs as [|tx rest IH]; intros db Hu; cbn [fold_left].
  - symmetry. apply map_id.
  - rewrite IH.
    + rewrite (step_rows db tx Hu), map_map. reflexivity.
    + now rewrite (map_xid_key _ _ (step_keys db tx)).
Qed.

Lemma loop_added (txs : list BankTransaction.t) (db : Session) :
  exists extra, added (fold_left step txs db) = added db ++ extra.
Proof.
  revert db. induction txs as [|tx rest IH]; intros db; cbn [fold_left].
  - exists []. now rewrite app_nil_r.
  - destruct (IH (step db tx)) as (e2 & ->).
    destruct (step_added db tx) as (e1 & ->).
    exists (e1 ++ e2). now rewrite app_assoc.
Qed.

(** Every object the loop adds was made by the insert branch, for a
    record of the batch whose lookup found no row. *)
Lemma loop_added_origin (txs : list BankTransaction.t) (db : Session) (t : Transaction.t) :
  In t (added (fold_left step txs db)) ->
  In t (added db) \/
  exists tx uuid xid,
    In tx txs /\
    BankTransaction.BankTransactionID tx = Some xid /\
    truthy (Some xid) = true /\
    existsb (lookup xid) (rows db) = false /\
    t = inserted rules now uuid organization_id client_id xid tx.
Proof.
  revert db. induction txs as [|tx rest IH]; intros db; cbn [fold_left]; [now left|].
  intros Hin. destruct (IH _ Hin) as [Hold|(tx' & u & xid & Hin' & Eid & Et & Ex & ->)].
  - destruct (step_cases db tx)
      as [(_ & E & _)|[(xid & Eid & Et & Hf & E)|(xid & e & _ & _ & _ & E)]];
      rewrite E in Hold; cbn [added] in Hold; try (now left).
    apply in_app_or in Hold. destruct Hold as [Hold|[<-|[]]]; [now left|].
    right. exists tx, (uuid4 (List.length (added db))), xid.
    repeat split; try assumption; [now left|now apply first_existsb].
  - right. exists tx', u, xid. repeat split; try assumption; [now right|].
    now rewrite <- (existsb_key _ _ _ _ (step_keys db tx)).
Qed.

(** Once a lookup has a row or an added object to find, it keeps one. *)
Lemma loop_keeps (txs : list BankTransaction.t) (db : Session) (xid : string) :
  existsb (lookup xid) (rows db ++ added db) = true ->
  existsb (lookup xid)
          (rows (fold_left step txs db) ++ added (fold_left step txs db)) = true.
Proof.
  rewrite !existsb_app.
  rewrite (existsb_key _ _ _ _ (loop_keys txs db)).
  destruct (loop_added txs db) as (extra & ->).
  rewrite existsb_app. intros Hx.
  apply orb_true_iff in Hx. destruct Hx as [-> | ->]; [reflexivity|].
  cbn [orb]. now rewrite orb_true_r.
Qed.

(** After the loop every record it did not skip has a row of the table,
    or an added object, that its lookup accepts. *)
Lemma loop_covers (txs : list BankTransaction.t) (db : Session)
      (tx : BankTransaction.t) (xid : string) :
  In tx txs ->
  BankTransaction.BankTransactionID tx = Some xid ->
  truthy (Some xid) = true ->
  existsb (lookup xid)
          (rows (fold_left step txs db) ++ added (fold_left step txs db)) = true.
Proof.
  revert db. induction txs as [|tx0 rest IH]; intros db Hin Eid Et; [destruct Hin|].
  cbn [fold_left]. destruct Hin as [->|Hin]; [|now apply IH].
  apply loop_keeps. rewrite existsb_app.
  destruct (step_cases db tx)
    as [(Hskip & _)|[(xid' & Eid' & _ & Hf & ->)|(xid' & e & Eid' & _ & Hf & ->)]];
    cbn [rows added].
  - rewrite Eid in Hskip. congruence.
  - rewrite Eid in Eid'. injection Eid' as <-.
    apply orb_true_iff. right. rewrite existsb_app. apply orb_true_iff. right.
    cbn [existsb]. unfold same_transaction.
    pose proof (key_inserted organization_id client_id rules now
                  (uuid4 (List.length (added db))) xid tx) as Hk.
    unfold key in Hk. injection Hk as Ho Hx. rewrite Ho, Hx.
    now rewrite N.eqb_refl, String.eqb_refl.
  - rewrite Eid in Eid'. injection Eid' as <-.
    apply orb_true_iff. left.
    rewrite (existsb_key _ _ _ (rows db)).
    + destruct (existsb (lookup xid) (rows db)) eqn:Ex; [reflexivity|].
      apply first_existsb in Ex. congruence.
    + apply (map_key_assign _ e); [exact Hf|apply key_synced].
Qed.

(** When every record has a row to find, the loop adds nothing. *)
Lemma loop_adds_nothing (txs : list BankTransaction.t) (db : Session) :
  (forall tx xid,
      In tx txs -> BankTransaction.BankTransactionID tx = Some xid ->
      truthy (Some xid) = true -> existsb (lookup xid) (rows db) = true) ->
  added (fold_left step txs db) = added db.
Proof.
  revert db. induction txs as [|tx rest IH]; intros db Hall; cbn [fold_left]; [reflexivity|].
  rewrite IH.
  - destruct (step_cases db tx)
      as [(_ & -> & _)|[(xid & Eid & Et & Hf & _)|(xid & e & _ & _ & _ & ->)]];
      try reflexivity.
    exfalso. apply first_existsb in Hf.
    rewrite (Hall tx xid (or_introl eq_refl) Eid Et) in Hf. discriminate.
  - intros tx' xid Hin Eid Et.
    rewrite (existsb_key _ _ _ _ (step_keys db tx)).
    apply (Hall tx' xid); [now right|exact Eid|exact Et].
Qed.

(** A record whose lookup finds no row has its object among the added. *)
Lemma loop_inserts (txs : list BankTransaction.t) (db : Session)
      (tx : BankTransaction.t) (xid : string) :
  In tx txs ->
  BankTransaction.BankTransactionID tx = Some xid ->
  truthy (Some xid) = true ->
  existsb (lookup xid) (rows db) = false ->
  exists uuid,
    In (inserted rules now uuid organization_id client_id xid tx)
       (added (fold_left step txs db)).
Proof.
  revert db. induction txs as [|tx0 rest IH]; intros db Hin Eid Et Ex; [destruct Hin|].
  cbn [fold_left]. destruct Hin as [->|Hin].
  - destruct (loop_added rest (step db tx)) as (extra & ->).
    destruct (step_cases db tx)
      as [(Hskip & _)|[(xid' & Eid' & _ & _ & ->)|(xid' & e & Eid' & _ & Hf & _)]].
    + rewrite Eid in Hskip. congruence.
    + rewrite Eid in Eid'. injection Eid' as <-. cbn [added].
      exists (uuid4 (List.length (added db))).
      apply in_or_app. left. apply in_or_app. right. now left.
    + rewrite Eid in Eid'. injection Eid' as <-.
      apply first_existsb in Ex. congruence.
  - apply IH; try assumption.
    now rewrite (existsb_key _ _ _ _ (step_keys db tx0)).
Qed.

End Loop.

(** *** A record applied twice *)

Lemma py_or_idempotent (a b : option string) : py_or a (py_or a b) = py_or a b.
Proof. unfold py_or. destruct (truthy a); reflexivity. Qed.

Lemma same_business_fields_refl (t : Transaction.t) : same_business_fields t t.
Proof. unfold same_business_fields. repeat split. Qed.

Lemma processed_ids_injective (txs : list BankTransaction.t)
      (tx tx' : BankTransaction.t) (xid : string) :
  NoDup (processed_ids txs) ->
  In tx txs -> In tx' txs ->
  BankTransaction.BankTransactionID tx = Some xid ->
  BankTransaction.BankTransactionID tx' = Some xid ->
  truthy (Some xid) = true ->
  tx = tx'.
Proof.
  intros Hn Hin Hin' Eid Eid' Et.
  assert (forall l t, In t l -> BankTransaction.BankTransactionID t = Some xid ->
                      In xid (processed_ids l)) as Hmem.
  { induction l as [|x l IH]; intros t Ht Et0; [destruct Ht|].
    cbn [processed_ids]. destruct Ht as [->|Ht].
    - rewrite Et0, Et. now left.
    - destruct (BankTransaction.BankTransactionID x) as [y|]; [|now apply (IH t)].
      destruct (truthy (Some y)); [right|]; now apply (IH t). }
  induction txs as [|x l IH]; [destruct Hin|].
  cbn [processed_ids] in Hn.
  destruct Hin as [->|Hin], Hin' as [->|Hin']; [reflexivity| | |].
  - rewrite Eid, Et in Hn. inversion Hn as [|? ? Hx _]; subst.
    exfalso. apply Hx. now apply (Hmem l tx').
  - rewrite Eid', Et in Hn. inversion Hn as [|? ? Hx _]; subst.
    exfalso. apply Hx. now apply (Hmem l tx).
  - apply IH; try assumption.
    destruct (BankTransaction.BankTransactionID x) as [y|]; [|exact Hn].
    destruct (truthy (Some y)); [now inversion Hn|exact Hn].
Qed.

Section Twice.

Context `{PyRe}.
Variables (organization_id client_id : UUID) (rules : list ExclusionRule.t).

(** An update applied to the row that the same update has left changes no
    business field. *)
Lemma synced_twice (now now' : datetime) (t : Transaction.t) (tx : BankTransaction.t) :
  same_business_fields (synced rules now t tx)
                       (synced rules now' (synced rules now t tx) tx).
Proof.
  unfold synced. rewrite !engine_result.
  set (u := update_transaction t tx now).
  assert (forall t1, Transaction.description t1 = Transaction.description u ->
                     find (fun r => would_match r (update_transaction t1 tx now')) rules =
                     find (fun r => would_match r u) rules) as Hfind.
  { intros t1 Hd. apply find_would_match_fields; [reflexivity|].
    cbn [update_transaction Transaction.description]. rewrite Hd.
    unfold u. cbn [update_transaction Transaction.description].
    apply py_or_idempotent. }
  destruct (find (fun r => would_match r u) rules) as [rule|] eqn:Ef.
  - rewrite (Hfind (exclude u rule) eq_refl).
    unfold same_business_fields, u. simpl.
    rewrite py_or_idempotent.
    destruct (has_attachments_of tx); repeat split.
  - rewrite (Hfind u eq_refl).
    unfold same_business_fields, u. simpl.
    rewrite py_or_idempotent.
    destruct (has_attachments_of tx); repeat split.
Qed.

(** An update applied to the object that the insert branch has made for
    the same record changes no business field. *)
Lemma synced_inserted (now now' : datetime) (uuid : UUID) (xid : string)
      (tx : BankTransaction.t) :
  same_business_fields
    (inserted rules now uuid organization_id client_id xid tx)
    (synced rules now'
            (inserted rules now uuid organization_id client_id xid tx) tx).
Proof.
  unfold synced, inserted. rewrite !engine_result.
  set (n := new_transaction uuid organization_id client_id xid tx now).
  assert (forall t1, Transaction.description t1 = Transaction.description n ->
                     find (fun r => would_match r (update_transaction t1 tx now')) rules =
                     find (fun r => would_match r n) rules) as Hfind.
  { intros t1 Hd. apply find_would_match_fields; [reflexivity|].
    cbn [update_transaction Transaction.description]. rewrite Hd.
    unfold n. cbn [new_transaction Transaction.description].
    apply py_or_idempotent. }
  destruct (find (fun r => would_match r n) rules) as [rule|] eqn:Ef.
  - rewrite (Hfind (exclude n rule) eq_refl).
    unfold same_business_fields, n. simpl.
    rewrite py_or_idempotent.
    destruct (has_attachments_of tx); repeat split.
  - rewrite (Hfind n eq_refl).
    unfold same_business_fields, n. simpl.
    rewrite py_or_idempotent.
    destruct (has_attachments_of tx); repeat split.
Qed.

(** The constraints read the provider identifier, the date and the
    amount. *)
Lemma constraints_same_business_fields (l l' : list Transaction.t) :
  Forall2 same_business_fields l l' ->
  constraints_hold l' = constraints_hold l.
Proof.
  intros Hf. unfold constraints_hold.
  assert (map Transaction.xero_transaction_id l' = map Transaction.xero_transaction_id l) as ->.
  { induction Hf as [|x y l l' Hxy _ IH]; simpl; [reflexivity|].
    rewrite IH. f_equal. symmetry. apply Hxy. }
  f_equal.
  induction Hf as [|x y l l' Hxy _ IH]; simpl; [reflexivity|].
  rewrite IH. f_equal. unfold not_null.
  destruct Hxy as (_ & _ & _ & _ & _ & Hd & Ha & _). now rewrite Hd, Ha.
Qed.

Lemma find_selects_key (txs : list BankTransaction.t) (t t' : Transaction.t) :
  key t = key t' ->
  find (fun tx => selects organization_id tx t) txs =
  find (fun tx => selects organization_id tx t') txs.
Proof.
  intros Hk. induction txs as [|tx rest IH]; simpl; [reflexivity|].
  now rewrite (selects_key organization_id tx t t' Hk), IH.
Qed.

End Twice.

Lemma Forall2_map_right {A : Type} (R : A -> A -> Prop) (f : A -> A) (l : list A) :
  (forall x, In x l -> R x (f x)) -> Forall2 R l (map f l).
Proof.
  induction l as [|x l IH]; simpl; intros Hr; constructor.
  - apply Hr. now left.
  - apply IH. intros y Hy. apply Hr. now right.
Qed.

Lemma constraints_unique (table : list Transaction.t) :
  constraints_hold table = true ->
  NoDup (map Transaction.xero_transaction_id table).
Proof.
  unfold constraints_hold. rewrite andb_true_iff. intros [Hu _].
  now apply unique_NoDup.
Qed.

(** *** The call *)

Section Call.

Context `{PyRe}.

(** What a call that returns has done: the loop ran from the table as it
    was, the constraints accepted the rows and the added objects, and
    these are the new table. *)
Lemma upsert_returns (db : Database) (organization_id client_id : UUID)
      (xero_transactions : list BankTransaction.t)
      (now : datetime) (uuid4 : nat -> UUID) :
  value (upsert_xero_transactions db organization_id client_id
           xero_transactions now uuid4) = Return tt ->
  let session :=
    fold_left (upsert_one organization_id client_id
                 (enabled_rules organization_id db) now uuid4)
              xero_transactions {| rows := transactions db; added := [] |} in
  constraints_hold (rows session ++ added session) = true /\
  database (upsert_xero_transactions db organization_id client_id
              xero_transactions now uuid4) =
  {| transactions := rows session ++ added session;
     exclusion_rules := exclusion_rules db;
     xero_connections := xero_connections db |}.
Proof.
  unfold upsert_xero_transactions. cbv zeta.
  destruct (constraints_hold _); cbn [value database]; [now split|discriminate].
Qed.

(** A call that raises leaves the database as it was. *)
Lemma upsert_raises (db : Database) (organization_id client_id : UUID)
      (xero_transactions : list BankTransaction.t)
      (now : datetime) (uuid4 : nat -> UUID) :
  value (upsert_xero_transactions db organization_id client_id
           xero_transactions now uuid4) <> Return tt ->
  database (upsert_xero_transactions db organization_id client_id
              xero_transactions now uuid4) = db.
Proof.
  unfold upsert_xero_transactions. cbv zeta.
  destruct (constraints_hold _); cbn [value database]; [congruence|reflexivity].
Qed.

(** The rows of the table after a call that returns: each row of the
    table before, as the records of the batch have left it. *)
Lemma upsert_rows (db : Database) (organization_id client_id : UUID)
      (xero_transactions : list BankTransaction.t)
      (now : datetime) (uuid4 : nat -> UUID) :
  value (upsert_xero_transactions db organization_id client_id
           xero_transactions now uuid4) = Return tt ->
  let rules := enabled_rules organization_id db in
  let session :=
    fold_left (upsert_one organization_id client_id rules now uuid4)
              xero_transactions {| rows := transactions db; added := [] |} in
  NoDup (map Transaction.xero_transaction_id (transactions db)) /\
  rows session =
  map (fun t => fold_left (touch organization_id rules now) xero_transactions t)
      (transactions db).
Proof.
  intros Hv. destruct (upsert_returns _ _ _ _ _ _ Hv) as [Hc _].
  cbv zeta in *.
  apply constraints_unique in Hc. rewrite map_app in Hc.
  apply NoDup_app_remove_r in Hc.
  rewrite (map_xid_key _ _ (loop_keys _ _ _ _ _ _ _)) in Hc. cbn [rows] in Hc.
  split; [exact Hc|].
  now rewrite loop_rows.
Qed.

(** A row of the table keeps its place, and the added objects follow the
    rows. *)
Lemma upsert_nth_row (db : Database) (organization_id client_id : UUID)
      (xero_transactions : list BankTransaction.t)
      (now : datetime) (uuid4 : nat -> UUID) (i : nat) (t : Transaction.t) :
  value (upsert_xero_transactions db organization_id client_id
           xero_transactions now uuid4) = Return tt ->
  nth_error (transactions db) i = Some t ->
  nth_error (transactions (database (upsert_xero_transactions db organization_id
               client_id xero_transactions now uuid4))) i =
  Some (fold_left (touch organization_id (enabled_rules organization_id db) now)
                  xero_transactions t).
Proof.
  intros Hv Hi.
  destruct (upsert_returns _ _ _ _ _ _ Hv) as [_ ->].
  destruct (upsert_rows _ _ _ _ _ _ Hv) as [_ Hr].
  cbv zeta in *. cbn [transactions]. rewrite Hr.
  rewrite nth_error_app1.
  - now apply map_nth_error.
  - rewrite length_map. apply nth_error_Some. congruence.
Qed.

Lemma upsert_nth_added (db : Database) (organization_id client_id : UUID)
      (xero_transactions : list BankTransaction.t)
      (now : datetime) (uuid4 : nat -> UUID) (i : nat) (t' : Transaction.t) :
  (List.length (transactions db) <= i)%nat ->
  nth_error (transactions (database (upsert_xero_transactions db organization_id
               client_id xero_transactions now uuid4))) i = Some t' ->
  exists tx uuid xid,
    In tx xero_transactions /\
    BankTransaction.BankTransactionID tx = Some xid /\
    truthy (Some xid) = true /\
    existsb (same_transaction organization_id xid) (transactions db) = false /\
    t' = inserted (enabled_rules organization_id db) now uuid
                  organization_id client_id xid tx.
Proof.
  intros Hi Hn.
  destruct (value (upsert_xero_transactions db organization_id client_id
                     xero_transactions now uuid4)) as [[]|e] eqn:Hv.
  - destruct (upsert_returns _ _ _ _ _ _ Hv) as [_ Hd].
    destruct (upsert_rows _ _ _ _ _ _ Hv) as [_ Hr].
    cbv zeta in *. rewrite Hd in Hn. cbn [transactions] in Hn.
    rewrite nth_error_app2 in Hn; [|rewrite Hr, length_map; exact Hi].
    apply nth_error_In in Hn.
    apply loop_added_origin in Hn. destruct Hn as [[]|Hn]. exact Hn.
  - rewrite upsert_raises in Hn; [|congruence].
    apply nth_error_None in Hi. congruence.
Qed.

End Call.

(** *** What an update and an insert leave in a row *)

Section Branches.

Context `{PyRe}.
Variables (organization_id client_id : UUID) (rules : list ExclusionRule.t).

Lemma synced_keeps (now : datetime) (t : Transaction.t) (tx : BankTransaction.t) :
  Transaction.id (synced rules now t tx) = Transaction.id t /\
  Transaction.xero_transaction_id (synced rules now t tx) =
    Transaction.xero_transaction_id t /\
  Transaction.document_received (synced rules now t tx) =
    (if has_attachments_of tx then true else Transaction.document_received t).
Proof.
  unfold synced. rewrite engine_result.
  destruct (find _ rules); repeat split.
Qed.

(** The document flag of an updated row: cleared by a rule that would
    match, and otherwise the negation of the provider's attachment flag. *)
Lemma synced_document_required (now : datetime) (t : Transaction.t)
      (tx : BankTransaction.t) :
  (Forall (fun r => would_match r (synced rules now t tx) = false) rules ->
   Transaction.document_required (synced rules now t tx) =
     negb (has_attachments_of tx)) /\
  (Transaction.excluded t = false ->
   Transaction.excluded (synced rules now t tx) = true ->
   Transaction.document_required (synced rules now t tx) = false).
Proof.
  unfold synced. rewrite engine_result.
  destruct (find _ rules) as [rule|] eqn:Ef; split.
  - intros Hall. exfalso.
    apply find_some in Ef. destruct Ef as [Hin Hm].
    rewrite Forall_forall in Hall. specialize (Hall rule Hin).
    rewrite (would_match_fields rule _ (update_transaction t tx now)) in Hall;
      [congruence|reflexivity|reflexivity].
  - reflexivity.
  - reflexivity.
  - simpl. congruence.
Qed.

Lemma inserted_fields (now : datetime) (uuid : UUID) (xid : string)
      (tx : BankTransaction.t) :
  let t := inserted rules now uuid organization_id client_id xid tx in
  Transaction.organization_id t = organization_id /\
  Transaction.xero_transaction_id t = xid /\
  Transaction.document_received t = has_attachments_of tx /\
  (Forall (fun r => would_match r t = false) rules ->
   Transaction.document_required t = negb (has_attachments_of tx)) /\
  (Transaction.excluded t = true -> Transaction.document_required t = false).
Proof.
  unfold inserted. rewrite engine_result.
  destruct (find _ rules) as [rule|] eqn:Ef; cbv zeta; repeat split.
  - intros Hall. exfalso.
    apply find_some in Ef. destruct Ef as [Hin Hm].
    rewrite Forall_forall in Hall. specialize (Hall rule Hin).
    rewrite (would_match_fields rule _
               (new_transaction uuid organization_id client_id xid tx now)) in Hall;
      [congruence|reflexivity|reflexivity].
  - simpl. discriminate.
Qed.

Lemma touch_keeps (now : datetime) (t : Transaction.t) (tx : BankTransaction.t) :
  Transaction.id (touch organization_id rules now t tx) = Transaction.id t /\
  Transaction.xero_transaction_id (touch organization_id rules now t tx) =
    Transaction.xero_transaction_id t /\
  (Transaction.document_received t = true ->
   Transaction.document_received (touch organization_id rules now t tx) = true).
Proof.
  unfold touch. destruct (selects organization_id tx t); [|now repeat split].
  destruct (synced_keeps now t tx) as (Hi & Hx & Hr).
  rewrite Hi, Hx, Hr. repeat split.
  intros ->. now destruct (has_attachments_of tx).
Qed.

Lemma fold_touch_keeps (now : datetime) (txs : list BankTransaction.t) (t : Transaction.t) :
  Transaction.id (fold_left (touch organization_id rules now) txs t) = Transaction.id t /\
  Transaction.xero_transaction_id (fold_left (touch organization_id rules now) txs t) =
    Transaction.xero_transaction_id t /\
  (Transaction.document_received t = true ->
   Transaction.document_received (fold_left (touch organization_id rules now) txs t) = true).
Proof.
  revert t. induction txs as [|tx rest IH]; intros t; cbn [fold_left]; [now repeat split|].
  destruct (IH (touch organization_id rules now t tx)) as (Hi & Hx & Hr).
  destruct (touch_keeps now t tx) as (Hi' & Hx' & Hr').
  rewrite Hi, Hx, Hi', Hx'. repeat split. intros Ht. apply Hr, Hr', Ht.
Qed.

End Branches.

(** *** The last record of a batch for a row *)

Section Last.

Context `{PyRe}.
Variables (organization_id : UUID) (rules : list ExclusionRule.t).

Lemma find_existsb {A : Type} (p : A -> bool) (l : list A) :
  find p l = None <-> existsb p l = false.
Proof.
  induction l as [|x l IH]; cbn [find existsb]; [tauto|].
  destruct (p x); cbn [orb]; [split; discriminate|exact IH].
Qed.

Lemma existsb_pointwise {A : Type} (p q : A -> bool) (l : list A) :
  (forall x, p x = q x) -> existsb p l = existsb q l.
Proof.
  intros Hpq. induction l as [|x l IH]; cbn [existsb]; [reflexivity|].
  now rewrite Hpq, IH.
Qed.

(** A row that some record of the batch selects comes out as the last of
    these records leaves the row that the records before it have made;
    these have kept its key, and its exclusion if it had one. *)
Lemma fold_touch_last (now : datetime) (txs : list BankTransaction.t)
      (t : Transaction.t) (tx : BankTransaction.t) :
  find (fun tx => selects organization_id tx t) (rev txs) = Some tx ->
  exists t0,
    key t0 = key t /\
    (Transaction.excluded t = true -> Transaction.excluded t0 = true) /\
    (NoDup (processed_ids txs) -> t0 = t) /\
    fold_left (touch organization_id rules now) txs t = synced rules now t0 tx.
Proof.
  revert tx. induction txs as [|x l IH] using rev_ind; intros tx; [discriminate|].
  rewrite rev_app_distr. cbn [rev app find].
  rewrite fold_left_app. cbn [fold_left].
  set (t1 := fold_left (touch organization_id rules now) l t).
  assert (key t1 = key t) as Hk.
  { unfold t1. clear. revert t. induction l as [|y l IH]; intros t; cbn [fold_left];
      [reflexivity|]. now rewrite IH, key_touch. }
  assert (Transaction.excluded t = true -> Transaction.excluded t1 = true) as Hx.
  { unfold t1. clear. revert t. induction l as [|y l IH]; intros t; cbn [fold_left];
      [tauto|]. intros Ht. apply IH. unfold touch.
    destruct (selects organization_id y t); [|exact Ht].
    unfold synced. rewrite engine_result. destruct (find _ rules); [reflexivity|exact Ht]. }
  unfold touch at 1. rewrite (selects_key organization_id x t1 t Hk).
  destruct (selects organization_id x t) eqn:Es.
  - intros E. injection E as <-. exists t1. split; [exact Hk|]. split; [exact Hx|].
    split; [|reflexivity].
    intros Hnd. unfold t1. apply fold_touch_unselected. intros tx' Hin.
    destruct (selects organization_id tx' t) eqn:Es'; [|reflexivity]. exfalso.
    rewrite processed_ids_app in Hnd.
    pose proof (selects_processed organization_id l tx' t Hin Es') as Hin1.
    pose proof (selects_xid organization_id x t Es) as [_ Hin2].
    revert Hnd Hin1 Hin2. generalize (Transaction.xero_transaction_id t).
    generalize (processed_ids l). generalize (processed_ids [x]). clear.
    intros l2 l1 s Hnd H1 H2. induction l1 as [|a l1 IH]; [contradiction|].
    cbn [app] in Hnd. inversion Hnd as [|? ? Hn Hnd']; subst.
    destruct H1 as [->|H1]; [|now apply IH].
    apply Hn. apply in_or_app. now right.
  - intros Hf. destruct (IH tx Hf) as (t0 & Hk0 & Hx0 & Hn0 & Hfold).
    exists t0. split; [exact Hk0|]. split; [exact Hx0|]. split; [|exact Hfold].
    intros Hnd. apply Hn0. rewrite processed_ids_app in Hnd.
    now apply NoDup_app_remove_r in Hnd.
Qed.

(** What the update branch leaves in the row, by what the rules make of
    the row as it leaves it. *)
Lemma synced_verdict (now : datetime) (t : Transaction.t) (tx : BankTransaction.t) :
  let t' := synced rules now t tx in
  (existsb (fun r => would_match r t') rules = true ->
   Transaction.excluded t' = true /\ Transaction.document_required t' = false) /\
  (existsb (fun r => would_match r t') rules = false ->
   Transaction.excluded t' = Transaction.excluded t /\
   Transaction.document_required t' = negb (has_attachments_of tx)).
Proof.
  cbv zeta.
  assert (forall r, would_match r (synced rules now t tx) =
                    would_match r (update_transaction t tx now)) as Hw.
  { intros r. apply would_match_fields; unfold synced; rewrite engine_result;
      destruct (find _ rules); reflexivity. }
  rewrite (existsb_pointwise _ _ rules Hw). clear Hw.
  unfold synced. rewrite engine_result.
  destruct (find (fun r => would_match r (update_transaction t tx now)) rules)
    as [rule|] eqn:Ef.
  - split; [intros _; split; reflexivity|].
    intros Hn. apply find_existsb in Hn. congruence.
  - split; [|intros _; split; reflexivity].
    intros Hy. apply find_existsb in Ef. congruence.
Qed.

End Last.

(** *** The properties of the sync *)

Section Sync.

Context `{PyRe}.

(** C4.  A row whose [document_received] is true keeps its place, its
    identity and [document_received = true] through every call of
    [upsert_xero_transactions], whatever the records of the batch report
    in [HasAttachments], and whether the call returns or raises. *)
Theorem document_received_is_never_reset
        (db : Database) (organization_id client_id : UUID)
        (xero_transactions : list BankTransaction.t)
        (now : datetime) (uuid4 : nat -> UUID)
        (i : nat) (t : Transaction.t) :
  nth_error (transactions db) i = Some t ->
  Transaction.document_received t = true ->
  exists t',
    nth_error
      (transactions
         (database (upsert_xero_transactions db organization_id client_id
                      xero_transactions now uuid4))) i = Some t' /\
    Transaction.id t' = Transaction.id t /\
    Transaction.xero_transaction_id t' = Transaction.xero_transaction_id t /\
    Transaction.document_received t' = true.
Proof.
  intros Hi Hr.
  destruct (value (upsert_xero_transactions db organization_id client_id
                     xero_transactions now uuid4)) as [[]|e] eqn:Hv.
  - eexists. split; [apply upsert_nth_row; [exact Hv|exact Hi]|].
    destruct (fold_touch_keeps organization_id (enabled_rules organization_id db)
                now xero_transactions t) as (Hid & Hx & Hrec).
    auto.
  - rewrite upsert_raises; [|congruence].
    exists t. auto.
Qed.

(** C1, as amended.  After a call of [upsert_xero_transactions],
    [excluded = true] implies [document_required = false] for every row
    that the call has inserted and, when no provider identifier occurs
    twice among the records the call processes, for every row that was
    not excluded before the call.  For a row that the call has updated,
    whatever it was before, the last record of the batch for it decides:
    when an enabled rule matches the row as the call leaves it, the row is
    excluded and its document is not required; when that record reports
    attachments, its document is not required; when neither is the case,
    its document is required, and the row is excluded if it was excluded
    before the call (when no identifier is repeated: if and only if it
    was).  A row for which the batch has no record, and every row when
    the call raises, is left as it was. *)
Theorem excluded_rows_need_no_document
        (db : Database) (organization_id client_id : UUID)
        (xero_transactions : list BankTransaction.t)
        (now : datetime) (uuid4 : nat -> UUID) :
  let rules := enabled_rules organization_id db in
  let call :=
    upsert_xero_transactions db organization_id client_id xero_transactions now uuid4 in
  let after := transactions (database call) in
  (forall i t',
      (List.length (transactions db) <= i)%nat ->
      nth_error after i = Some t' ->
      Transaction.excluded t' = true ->
      Transaction.document_required t' = false) /\
  (NoDup (processed_ids xero_transactions) ->
   forall i t t',
     nth_error (transactions db) i = Some t ->
     Transaction.excluded t = false ->
     nth_error after i = Some t' ->
     Transaction.excluded t' = true ->
     Transaction.document_required t' = false) /\
  (value call = Return tt ->
   forall i t t' tx,
     nth_error (transactions db) i = Some t ->
     nth_error after i = Some t' ->
     find (fun tx => selects organization_id tx t) (rev xero_transactions) = Some tx ->
     (existsb (fun r => would_match r t') rules = true ->
      Transaction.excluded t' = true /\ Transaction.document_required t' = false) /\
     (has_attachments_of tx = true -> Transaction.document_required t' = false) /\
     (existsb (fun r => would_match r t') rules = false ->
      has_attachments_of tx = false ->
      Transaction.document_required t' = true /\
      (Transaction.excluded t = true -> Transaction.excluded t' = true) /\
      (NoDup (processed_ids xero_transactions) ->
       Transaction.excluded t' = Transaction.excluded t))) /\
  (forall i t,
      nth_error (transactions db) i = Some t ->
      value call <> Return tt \/
      find (fun tx => selects organization_id tx t) (rev xero_transactions) = None ->
      nth_error after i = Some t).
Proof.
  cbv zeta. split; [|split; [|split]].
  - intros i t' Hi Hn.
    destruct (upsert_nth_added _ _ _ _ _ _ _ _ Hi Hn)
      as (tx & uuid & xid & _ & _ & _ & _ & ->).
    apply (inserted_fields organization_id client_id
             (enabled_rules organization_id db) now uuid xid tx).
  - intros Hnd i t t' Hi Hex Hn.
    destruct (value (upsert_xero_transactions db organization_id client_id
                       xero_transactions now uuid4)) as [[]|e] eqn:Hv.
    + rewrite (upsert_nth_row _ _ _ _ _ _ _ _ Hv Hi) in Hn.
      injection Hn as <-.
      rewrite (fold_touch_once _ _ _ _ _ Hnd).
      destruct (find _ xero_transactions) as [tx|]; [|congruence].
      now apply synced_document_required.
    + rewrite upsert_raises in Hn; [|congruence].
      congruence.
  - intros Hv i t t' tx Hi Hn Hf.
    rewrite (upsert_nth_row _ _ _ _ _ _ _ _ Hv Hi) in Hn. injection Hn as <-.
    destruct (fold_touch_last organization_id (enabled_rules organization_id db) now
                xero_transactions t tx Hf) as (t0 & _ & Hx0 & Hn0 & ->).
    destruct (synced_verdict (enabled_rules organization_id db) now t0 tx) as [Hy Hno].
    cbv zeta in Hy, Hno.
    split; [exact Hy|]. split.
    + intros Ha.
      destruct (existsb _ (enabled_rules organization_id db)) eqn:E.
      * now apply Hy.
      * destruct (Hno eq_refl) as [_ ->]. now rewrite Ha.
    + intros E Ha. destruct (Hno E) as [Hex Hreq]. rewrite Hreq, Ha, Hex.
      split; [reflexivity|]. split; [exact Hx0|].
      intros Hnd. now rewrite (Hn0 Hnd).
  - intros i t Hi [Hv|Hf].
    + rewrite upsert_raises; assumption.
    + destruct (value (upsert_xero_transactions db organization_id client_id
                         xero_transactions now uuid4)) as [[]|e] eqn:Hv.
      * rewrite (upsert_nth_row _ _ _ _ _ _ _ _ Hv Hi). f_equal.
        apply fold_touch_unselected. intros tx Hin.
        apply in_rev in Hin. exact (find_none _ _ Hf tx Hin).
      * rewrite upsert_raises; [exact Hi|congruence].
Qed.

(** C3, as amended.  When no provider identifier occurs twice among the
    records the call processes and a first call of
    [upsert_xero_transactions] returns, a second call with the same
    records and the rules unchanged returns as well, and the table after
    it has the rows of the table after the first, in the same places:
    no row more, and in each row the same identity and the same [type],
    [date], [amount], [description], [supplier_name],
    [document_required], [document_received], [excluded] and
    [exclusion_reason]. *)
Theorem sync_twice_same_rows
        (db : Database) (organization_id client_id : UUID)
        (xero_transactions : list BankTransaction.t)
        (now : datetime) (uuid4 : nat -> UUID)
        (now' : datetime) (uuid4' : nat -> UUID) :
  NoDup (processed_ids xero_transactions) ->
  let once :=
    upsert_xero_transactions db organization_id client_id
      xero_transactions now uuid4 in
  value once = Return tt ->
  let twice :=
    upsert_xero_transactions (database once) organization_id client_id
      xero_transactions now' uuid4' in
  exclusion_rules (database once) = exclusion_rules db /\
  value twice = Return tt /\
  List.length (transactions (database twice)) =
    List.length (transactions (database once)) /\
  Forall2 same_business_fields
          (transactions (database once)) (transactions (database twice)).
Proof.
  intros Hnd once Hv twice.
  destruct (upsert_returns _ _ _ _ _ _ Hv) as [Hc Hd].
  destruct (upsert_rows _ _ _ _ _ _ Hv) as [Hu Hr].
  cbv zeta in Hc, Hd, Hr.
  set (rules := enabled_rules organization_id db) in *.
  set (s1 := fold_left (upsert_one organization_id client_id rules now uuid4)
                       xero_transactions
                       {| rows := transactions db; added := [] |}) in *.
  assert (enabled_rules organization_id (database once) = rules) as Hrules.
  { unfold once. rewrite Hd. reflexivity. }
  assert (transactions (database once) = rows s1 ++ added s1) as Ht1.
  { unfold once. rewrite Hd. reflexivity. }
  set (s2 := fold_left (upsert_one organization_id client_id rules now' uuid4')
                       xero_transactions
                       {| rows := rows s1 ++ added s1; added := [] |}).
  assert (added s2 = []) as Ha2.
  { unfold s2. rewrite loop_adds_nothing; [reflexivity|].
    intros tx xid Hin Eid Et. cbn [rows].
    exact (loop_covers organization_id client_id rules now uuid4
             xero_transactions _ tx xid Hin Eid Et). }
  assert (rows s2 =
          map (fun t => fold_left (touch organization_id rules now')
                                  xero_transactions t)
              (rows s1 ++ added s1)) as Hr2.
  { unfold s2. rewrite loop_rows; [reflexivity|].
    cbn [rows]. now apply constraints_unique. }
  assert (Forall2 same_business_fields (rows s1 ++ added s1) (rows s2 ++ added s2)) as HF.
  { rewrite Ha2, app_nil_r, Hr2. apply Forall2_map_right.
    intros t Hin. rewrite (fold_touch_once _ _ _ _ _ Hnd).
    apply in_app_or in Hin. destruct Hin as [Hin|Hin].
    - rewrite Hr in Hin. apply in_map_iff in Hin. destruct Hin as (t0 & <- & _).
      rewrite (fold_touch_once _ _ _ _ _ Hnd).
      destruct (find (fun tx => selects organization_id tx t0) xero_transactions)
        as [tx|] eqn:Ef.
      + rewrite (find_selects_key organization_id _ _ t0 (key_synced rules now t0 tx)), Ef.
        apply synced_twice.
      + rewrite Ef. apply same_business_fields_refl.
    - apply loop_added_origin in Hin.
      destruct Hin as [[]|(tx & u & xid & Hin & Eid & Et & _ & ->)].
      destruct (find _ xero_transactions) as [tx'|] eqn:Ef.
      + apply find_some in Ef. destruct Ef as [Hin' Hs].
        apply selects_xid in Hs. destruct Hs as [Eid' _].
        pose proof (key_inserted organization_id client_id rules now u xid tx) as Hk.
        unfold key in Hk. injection Hk as _ Hx. rewrite Hx in Eid'.
        rewrite (processed_ids_injective _ tx' tx xid Hnd Hin' Hin Eid' Eid Et).
        apply synced_inserted.
      + apply same_business_fields_refl. }
  assert (transactions (database twice) = rows s2 ++ added s2 /\
          value twice = Return tt) as [Ht2 Hv2].
  { unfold twice, upsert_xero_transactions. cbv zeta.
    rewrite Hrules, Ht1. fold s2.
    rewrite (constraints_same_business_fields _ _ HF), Hc. now split. }
  repeat split.
  - unfold once. now rewrite Hd.
  - exact Hv2.
  - rewrite Ht1, Ht2. symmetry. exact (Forall2_length HF).
  - now rewrite Ht1, Ht2.
Qed.

(** C10.  A record without the key [HasAttachments] is treated as having
    no attachments.  In the iteration that processes it, from whatever
    state the session is in: when its lookup finds no row, the object
    added for it has [document_received = false] and, when no rule would
    match it, [document_required = true]; when its lookup finds a row,
    the row is assigned [document_received] as it was and, when no rule
    would match it, [document_required = true].  And so for a call that
    returns: the object inserted for the record is in the table with
    these values, and, when no provider identifier occurs twice among
    the records the call processes, the row the record updates holds
    these values after the call. *)
Theorem record_without_HasAttachments
        (db : Database) (organization_id client_id : UUID)
        (xero_transactions : list BankTransaction.t)
        (now : datetime) (uuid4 : nat -> UUID)
        (tx : BankTransaction.t) (xid : string) :
  In tx xero_transactions ->
  BankTransaction.HasAttachments tx = None ->
  BankTransaction.BankTransactionID tx = Some xid ->
  truthy (Some xid) = true ->
  let rules := enabled_rules organization_id db in
  let unmatched t := Forall (fun r => would_match r t = false) rules in
  (forall session : Session,
      let session' := upsert_one organization_id client_id rules now uuid4 session tx in
      match first (same_transaction organization_id xid) (rows session) with
      | None =>
        exists new_tx,
          rows session' = rows session /\
          added session' = added session ++ [new_tx] /\
          Transaction.document_received new_tx = false /\
          (unmatched new_tx -> Transaction.document_required new_tx = true)
      | Some existing =>
        exists updated,
          rows session' =
            assign (same_transaction organization_id xid) updated (rows session) /\
          added session' = added session /\
          Transaction.document_received updated =
            Transaction.document_received existing /\
          (unmatched updated -> Transaction.document_required updated = true)
      end) /\
  (value (upsert_xero_transactions db organization_id client_id
            xero_transactions now uuid4) = Return tt ->
   let after :=
     transactions (database (upsert_xero_transactions db organization_id client_id
                               xero_transactions now uuid4)) in
   (existsb (same_transaction organization_id xid) (transactions db) = false ->
    exists i new_tx,
      (List.length (transactions db) <= i)%nat /\
      nth_error after i = Some new_tx /\
      Transaction.organization_id new_tx = organization_id /\
      Transaction.xero_transaction_id new_tx = xid /\
      Transaction.document_received new_tx = false /\
      (unmatched new_tx -> Transaction.document_required new_tx = true)) /\
   (NoDup (processed_ids xero_transactions) ->
    forall i existing,
      nth_error (transactions db) i = Some existing ->
      same_transaction organization_id xid existing = true ->
      exists updated,
        nth_error after i = Some updated /\
        Transaction.document_received updated =
          Transaction.document_received existing /\
        (unmatched updated -> Transaction.document_required updated = true))).
Proof.
  intros Hin Hno Eid Et rules unmatched.
  assert (has_attachments_of tx = false) as Hhas.
  { unfold has_attachments_of. now rewrite Hno. }
  split.
  - intros session session'. unfold session', upsert_one.
    rewrite Eid, Et. cbn [negb].
    destruct (first (same_transaction organization_id xid) (rows session))
      as [existing|]; eexists; cbn [rows added].
    + split; [reflexivity|]. split; [reflexivity|].
      fold (synced rules now existing tx).
      destruct (synced_keeps rules now existing tx) as (_ & _ & Hr).
      destruct (synced_document_required rules now existing tx) as (Hd & _).
      rewrite Hr, Hhas. split; [reflexivity|].
      intros Hu. now rewrite (Hd Hu), Hhas.
    + split; [reflexivity|]. split; [reflexivity|].
      fold (inserted rules now (uuid4 (List.length (added session)))
                     organization_id client_id xid tx).
      destruct (inserted_fields organization_id client_id rules now
                  (uuid4 (List.length (added session))) xid tx)
        as (_ & _ & Hr & Hd & _).
      rewrite Hr, Hhas. split; [reflexivity|].
      intros Hu. now rewrite (Hd Hu), Hhas.
  - intros Hv after. unfold after.
    destruct (upsert_returns _ _ _ _ _ _ Hv) as [_ Hd].
    destruct (upsert_rows _ _ _ _ _ _ Hv) as [_ Hr].
    cbv zeta in Hd, Hr. fold rules in Hd, Hr.
    split.
    + intros Hex.
      destruct (loop_inserts organization_id client_id rules now uuid4
                  xero_transactions {| rows := transactions db; added := [] |}
                  tx xid Hin Eid Et Hex) as (uuid & Hadded).
      apply In_nth_error in Hadded. destruct Hadded as (j & Hj).
      exists (List.length (transactions db) + j)%nat. eexists.
      split; [lia|].
      destruct (inserted_fields organization_id client_id rules now uuid xid tx)
        as (Ho & Hx & Hrec & Hdoc & _).
      split; [|rewrite Ho, Hx, Hrec, Hhas; repeat split;
               intros Hu; now rewrite (Hdoc Hu), Hhas].
      rewrite Hd. cbn [transactions].
      rewrite nth_error_app2; rewrite Hr, length_map; [|lia].
      replace (List.length (transactions db) + j - List.length (transactions db))%nat
        with j by lia.
      exact Hj.
    + intros Hnd i existing Hi Hsel.
      exists (synced rules now existing tx).
      destruct (synced_keeps rules now existing tx) as (_ & _ & Hrec).
      destruct (synced_document_required rules now existing tx) as (Hdoc & _).
      rewrite Hrec, Hhas.
      split; [|split; [reflexivity|intros Hu; now rewrite (Hdoc Hu), Hhas]].
      rewrite (upsert_nth_row _ _ _ _ _ _ _ _ Hv Hi). f_equal. fold rules.
      rewrite (fold_touch_once _ _ _ _ _ Hnd).
      assert (selects organization_id tx existing = true) as Hs.
      { unfold selects. now rewrite Eid, Et, Hsel. }
      destruct (find (fun tx0 => selects organization_id tx0 existing) xero_transactions)
        as [tx'|] eqn:Ef.
      * apply find_some in Ef. destruct Ef as [Hin' Hs'].
        apply selects_xid in Hs'. destruct Hs' as [Eid' _].
        apply same_transaction_xid in Hsel. destruct Hsel as [_ Hx].
        rewrite Hx in Eid'.
        now rewrite (processed_ids_injective _ tx' tx xid Hnd Hin' Hin Eid' Eid Et).
      * pose proof (find_none _ _ Ef tx Hin) as Hn. cbv beta in Hn. congruence.
Qed.

End Sync.

(** C1.  A row that an earlier sync has excluded, its document not
    required; the rule that excluded it has been switched off since, and
    the provider reports the transaction again, without attachments.  After
    the call the row is still excluded and its document is required. *)
Lemma stale_exclusion_requires_document :
  let call :=
    @upsert_xero_transactions literal_re
      (Example.table [Example.excluded_row] [Example.disabled_cloud_rule]) 7%N 3%N
      [Example.record "T1" (Some "Hosting") (Some "AWS EMEA SARL") (Some false)]
      Example.now Example.uuid4 in
  Transaction.excluded Example.excluded_row = true /\
  Transaction.document_required Example.excluded_row = false /\
  value call = Return tt /\
  exists t',
    transactions (database call) = [t'] /\
    Transaction.excluded t' = true /\
    Transaction.document_required t' = true.
Proof.
  cbv zeta. repeat split. eexists. repeat split.
Qed.

(** Why the amended C1 asks that no identifier be repeated: a row that is
    not excluded, and two records for it in one batch.  The rule on ["AWS"]
    matches the supplier of the first record and excludes the row; the
    second record changes the supplier, no rule matches, and the row is
    left excluded with its document required. *)
Lemma repeated_identifier_leaves_exclusion :
  let call :=
    @upsert_xero_transactions literal_re
      (Example.table [Example.aws_row] [Example.cloud_rule]) 7%N 3%N
      [Example.record "T1" (Some "Hosting") (Some "AWS EMEA SARL") (Some false);
       Example.record "T1" (Some "Hosting") (Some "Other Ltd") (Some false)]
      Example.now Example.uuid4 in
  Transaction.excluded Example.aws_row = false /\
  value call = Return tt /\
  exists t',
    transactions (database call) = [t'] /\
    Transaction.excluded t' = true /\
    Transaction.document_required t' = true.
Proof.
  cbv zeta. repeat split. eexists. repeat split.
Qed.

Lemma Forall2_map_same_business_fields {B : Type} (f : Transaction.t -> B)
      (l l' : list Transaction.t) :
  (forall x y, same_business_fields x y -> f x = f y) ->
  Forall2 same_business_fields l l' -> map f l = map f l'.
Proof.
  intros Hf HF. induction HF as [|x y l l' Hxy _ IH]; cbn [map]; [reflexivity|].
  now rewrite (Hf x y Hxy), IH.
Qed.

(** C3.  A batch with two records for the provider transaction ["T1"],
    synced twice onto a table that has a row for it.  In the first call the
    first record meets the description that the row had and is excluded by
    the rule on descriptions; in the second call it meets the description
    that the second record has left and is excluded by the rule on
    suppliers.  The two calls leave different exclusion reasons. *)
Lemma repeated_identifier_changes_reason :
  let batch :=
    [Example.record "T1" None (Some "ACME Ltd") (Some false);
     Example.record "T1" (Some "Invoice 7") (Some "Other Ltd") (Some false)] in
  let db := Example.table [Example.fee_row] [Example.fees_rule; Example.acme_rule] in
  let once :=
    @upsert_xero_transactions literal_re db 7%N 3%N batch Example.now Example.uuid4 in
  let twice :=
    @upsert_xero_transactions literal_re (database once) 7%N 3%N batch
      Example.now Example.uuid4 in
  value once = Return tt /\
  value twice = Return tt /\
  map Transaction.exclusion_reason (transactions (database once)) = [Some "Fees"] /\
  map Transaction.exclusion_reason (transactions (database twice)) = [Some "Acme"] /\
  ~ Forall2 same_business_fields
      (transactions (database once)) (transactions (database twice)).
Proof.
  cbv zeta. repeat split.
  intros HF.
  apply (Forall2_map_same_business_fields Transaction.exclusion_reason) in HF;
    [|intros x y Hs; apply Hs].
  vm_compute in HF. discriminate.
Qed.

(** ** The properties at the examples *)


(** C6.  A string that holds a surrogate on its own, which [str] allows
    and UTF-8 has no form for: [encrypt_token] raises
    [UnicodeEncodeError], so that nothing is returned that
    [decrypt_token] could take back to the string.  Under a secret that
    holds one, the same happens to every string. *)
Lemma lone_surrogate_is_not_encrypted :
  let s := [0xD800%N] in
  let spoilt :=
    {| jwt_secret_key := [0x73; 0xDC80]%N;
       xero_client_id := None;
       xero_client_secret := None |} in
  @encrypt_token marking_cipher Example.settings Example.now [Init.Byte.x01] s =
    Raise UnicodeEncodeError /\
  ~ (exists encrypted,
        @encrypt_token marking_cipher Example.settings Example.now [Init.Byte.x01] s =
          Return encrypted /\
        @decrypt_token marking_cipher Example.settings encrypted = Return s) /\
  @encrypt_token marking_cipher spoilt Example.now [Init.Byte.x01] (literal "A2") =
    Raise UnicodeEncodeError.
Proof.
  cbv zeta. split; [reflexivity|]. split; [|reflexivity].
  intros [encrypted [E _]]. discriminate E.
Qed.

(** The access token ["A2"], a string with an accented letter, the euro
    sign and a character beyond the basic plane, and a string that ends
    with a surrogate. *)
Lemma decrypt_token_encrypt_token_example :
  encodable (jwt_secret_key Example.settings) = true /\
  encodable [0xE9; 0x20AC; 0x1F600]%N = true /\
  (exists encrypted,
      @encrypt_token marking_cipher Example.settings Example.now [Init.Byte.x01]
        (literal "A2") = Return encrypted /\
      @decrypt_token marking_cipher Example.settings encrypted = Return (literal "A2")) /\
  (exists encrypted,
      @encrypt_token marking_cipher Example.settings Example.now [Init.Byte.x01]
        [0xE9; 0x20AC; 0x1F600]%N = Return encrypted /\
      @decrypt_token marking_cipher Example.settings encrypted =
        Return [0xE9; 0x20AC; 0x1F600]%N) /\
  @encrypt_token marking_cipher Example.settings Example.now [Init.Byte.x01]
    [0x41; 0xDFFF]%N = Raise UnicodeEncodeError.
Proof.
  split; [reflexivity|]. split; [reflexivity|]. split; [|split].
  - apply (@decrypt_token_encrypt_token marking_cipher Example.settings Example.now
             [Init.Byte.x01] (literal "A2")); reflexivity.
  - apply (@decrypt_token_encrypt_token marking_cipher Example.settings Example.now
             [Init.Byte.x01] [0xE9; 0x20AC; 0x1F600]%N); reflexivity.
  - apply (@decrypt_token_encrypt_token marking_cipher Example.settings Example.now
             [Init.Byte.x01] [0x41; 0xDFFF]%N). right. reflexivity.
Defined.

(** A connection with an hour left, asked for a minute after [now]: as a
    session reads it from the table, and as a session holds it that has
    assigned [expires_at] itself. *)
Lemma stored_expiry_is_not_comparable_example :
  (Example.now + timedelta_minutes 60 >
   utcnow_check Example.later_env + timedelta_minutes 2)%Z /\
  XeroConnection.expires_at Example.fresh_connection =
    aware (Example.now + timedelta_minutes 60)%Z /\
  @get_valid_access_token marking_cipher Example.settings Example.later_env
    Example.fresh_db 7%N =
  ({| value := Raise TypeError; database := Example.fresh_db |}, []) /\
  @get_valid_access_token marking_cipher Example.settings Example.later_env
    (Example.holding Example.fresh_pending_connection) 7%N =
  ({| value := Return (literal "A1");
      database := Example.holding Example.fresh_pending_connection |}, []).
Proof.
  split; [reflexivity|]. split; [reflexivity|]. split.
  - apply (@stored_expiry_is_not_comparable marking_cipher Example.settings
             Example.later_env Example.fresh_db 7%N Example.fresh_connection
             (Example.now + timedelta_minutes 60)%Z); reflexivity.
  - apply (@stored_expiry_is_not_comparable marking_cipher Example.settings
             Example.later_env (Example.holding Example.fresh_pending_connection) 7%N
             Example.fresh_pending_connection
             (Example.now + timedelta_minutes 60)%Z); reflexivity.
Defined.

(** The scenario of the specification: the token expired ten seconds ago
    and the provider would answer with ["A2"], ["R2"] and 1800 seconds.
    The connection as a session reads it from the table, and as a session
    holds it that has assigned [expires_at] itself. *)
Lemma accepted_refresh_is_never_requested_example :
  posted Example.accepted_env = Return Example.rotated /\
  (let (outcome, requests) :=
     @get_valid_access_token marking_cipher Example.settings Example.accepted_env
       Example.db 7%N in
   requests = [] /\
   database outcome = Example.db /\
   connection_of 7%N (database outcome) = Some Example.connection /\
   value outcome = Raise TypeError) /\
  (let (outcome, requests) :=
     @get_valid_access_token marking_cipher Example.settings Example.accepted_env
       (Example.holding Example.pending_connection) 7%N in
   requests = [] /\
   database outcome = Example.holding Example.pending_connection /\
   connection_of 7%N (database outcome) = Some Example.pending_connection /\
   value outcome = Raise (AttributeError "XERO_CLIENT_ID")).
Proof.
  split; [reflexivity|]. split.
  - apply (@accepted_refresh_is_never_requested marking_cipher Example.settings
             Example.accepted_env Example.db 7%N Example.connection).
    + reflexivity.
    + discriminate.
  - apply (@accepted_refresh_is_never_requested marking_cipher Example.settings
             Example.accepted_env (Example.holding Example.pending_connection) 7%N
             Example.pending_connection).
    + reflexivity.
    + discriminate.
Defined.

(** Two calls that overlap, and two calls one after the other, on the
    connection whose token expired ten seconds ago. *)
Lemma concurrent_calls_request_nothing_example :
  (let l := @run marking_cipher Example.settings Example.accepted_env Example.rejected_env
              7%N [true; false; true; false] (start Example.db) in
   sent l = [] /\
   shared l = Example.db /\
   first_call l = Done (Raise TypeError) /\
   second_call l = Done (Raise TypeError)) /\
  (let l := @run marking_cipher Example.settings Example.accepted_env Example.later_env
              7%N [true; true; false]
              (start (Example.holding Example.pending_connection)) in
   sent l = [] /\
   shared l = Example.holding Example.pending_connection /\
   first_call l = Done (Raise (AttributeError "XERO_CLIENT_ID")) /\
   second_call l = Done (Raise (AttributeError "XERO_CLIENT_ID"))).
Proof.
  split.
  - destruct (@concurrent_calls_request_nothing marking_cipher Example.settings
                Example.accepted_env Example.rejected_env Example.db 7%N
                Example.connection [true; false; true; false])
      as (Hs & Hd & _); [reflexivity|discriminate|discriminate|].
    cbv zeta in *. split; [exact Hs|]. split; [exact Hd|]. split; reflexivity.
  - destruct (@concurrent_calls_request_nothing marking_cipher Example.settings
                Example.accepted_env Example.later_env
                (Example.holding Example.pending_connection) 7%N
                Example.pending_connection [true; true; false])
      as (Hs & Hd & _); [reflexivity|discriminate|discriminate|].
    cbv zeta in *. split; [exact Hs|]. split; [exact Hd|]. split; reflexivity.
Defined.

(** The connection whose token expired ten seconds ago, read from the
    table, and a provider that would refuse the refresh token. *)
Lemma refused_refresh_is_never_recorded_example :
  status_code Example.rejected <> 200%Z /\
  let (outcome, requests) :=
    @get_valid_access_token marking_cipher Example.settings Example.rejected_env
      Example.db 7%N in
  requests = [] /\
  value outcome = Raise TypeError /\
  value outcome <> Raise (Exception "Failed to refresh Xero token") /\
  map XeroConnection.sync_status (xero_connections (database outcome)) = ["connected"].
Proof.
  split; [discriminate|].
  pose proof (@refused_refresh_is_never_recorded marking_cipher Example.settings
                Example.rejected_env Example.db 7%N) as W.
  destruct (@get_valid_access_token marking_cipher Example.settings Example.rejected_env
              Example.db 7%N) as [outcome requests] eqn:E.
  destruct W as (Hr & Hd & Hv).
  split; [exact Hr|]. split; [|split; [exact Hv|now rewrite Hd]].
  vm_compute in E. injection E as <- _. reflexivity.
Defined.

(** A row whose document has arrived, and a record for it that reports no
    attachment. *)
Lemma document_received_is_never_reset_example :
  Transaction.document_received Example.received_row = true /\
  exists t',
    nth_error
      (transactions
         (database
            (@upsert_xero_transactions literal_re
               (Example.table [Example.received_row] []) 7%N 3%N
               [Example.record "T1" (Some "Invoice 7") (Some "Other Ltd") (Some false)]
               Example.now Example.uuid4))) 0 = Some t' /\
    Transaction.id t' = 11%N /\
    Transaction.xero_transaction_id t' = "T1" /\
    Transaction.document_received t' = true.
Proof.
  split; [reflexivity|].
  apply (@document_received_is_never_reset literal_re
           (Example.table [Example.received_row] []) 7%N 3%N
           [Example.record "T1" (Some "Invoice 7") (Some "Other Ltd") (Some false)]
           Example.now Example.uuid4 0 Example.received_row).
  - reflexivity.
  - reflexivity.
Defined.

Lemma NoDup_two (a b : string) : a <> b -> NoDup [a; b].
Proof.
  intros Hab. constructor.
  - intros [E|[]]. now apply Hab.
  - constructor; [intros []|constructor].
Defined.

(** A row that was not excluded and that the rule on ["AWS"] excludes now,
    and a record for a transaction that the table does not have; then a
    row excluded before, whose rule has been switched off: its record
    without attachments leaves it excluded with its document required, and
    its record with attachments leaves its document not required. *)
Lemma excluded_rows_need_no_document_example :
  let batch :=
    [Example.record "T1" (Some "Hosting") (Some "AWS EMEA SARL") (Some false);
     Example.record "T2" None (Some "AWS Ireland") None] in
  let after :=
    transactions
      (database
         (@upsert_xero_transactions literal_re
            (Example.table [Example.aws_row] [Example.cloud_rule]) 7%N 3%N
            batch Example.now Example.uuid4)) in
  let stale :=
    transactions
      (database
         (@upsert_xero_transactions literal_re
            (Example.table [Example.excluded_row] [Example.disabled_cloud_rule]) 7%N 3%N
            [Example.hosting_record] Example.now Example.uuid4)) in
  let attached :=
    transactions
      (database
         (@upsert_xero_transactions literal_re
            (Example.table [Example.excluded_row] [Example.disabled_cloud_rule]) 7%N 3%N
            [Example.attached_record] Example.now Example.uuid4)) in
  NoDup (processed_ids batch) /\
  Transaction.excluded Example.aws_row = false /\
  map Transaction.excluded after = [true; true] /\
  (forall t', nth_error after 0 = Some t' -> Transaction.document_required t' = false) /\
  (forall t', nth_error after 1 = Some t' -> Transaction.document_required t' = false) /\
  Transaction.excluded Example.excluded_row = true /\
  (forall t', nth_error stale 0 = Some t' ->
              Transaction.document_required t' = true /\ Transaction.excluded t' = true) /\
  (forall t', nth_error attached 0 = Some t' -> Transaction.document_required t' = false).
Proof.
  cbv zeta.
  assert (NoDup (processed_ids
            [Example.record "T1" (Some "Hosting") (Some "AWS EMEA SARL") (Some false);
             Example.record "T2" None (Some "AWS Ireland") None])) as Hnd.
  { apply NoDup_two. discriminate. }
  pose proof (@excluded_rows_need_no_document literal_re
                (Example.table [Example.aws_row] [Example.cloud_rule]) 7%N 3%N
                [Example.record "T1" (Some "Hosting") (Some "AWS EMEA SARL") (Some false);
                 Example.record "T2" None (Some "AWS Ireland") None]
                Example.now Example.uuid4) as (Hins & Hupd & _).
  pose proof (@excluded_rows_need_no_document literal_re
                (Example.table [Example.excluded_row] [Example.disabled_cloud_rule]) 7%N 3%N
                [Example.hosting_record] Example.now Example.uuid4) as (_ & _ & Hstale & _).
  pose proof (@excluded_rows_need_no_document literal_re
                (Example.table [Example.excluded_row] [Example.disabled_cloud_rule]) 7%N 3%N
                [Example.attached_record] Example.now Example.uuid4) as (_ & _ & Hatt & _).
  cbv zeta in *.
  split; [exact Hnd|]. split; [reflexivity|]. split; [reflexivity|].
  split; [|split; [|split; [reflexivity|split]]].
  - intros t' Ht'.
    apply (Hupd Hnd 0%nat Example.aws_row t'); [reflexivity|reflexivity|exact Ht'|].
    injection Ht' as <-. reflexivity.
  - intros t' Ht'.
    apply (Hins 1%nat t'); [apply le_n|exact Ht'|].
    injection Ht' as <-. reflexivity.
  - intros t' Ht'.
    destruct (Hstale eq_refl 0%nat Example.excluded_row t' Example.hosting_record
                eq_refl Ht' eq_refl) as (_ & _ & Hrest).
    destruct Hrest as (Hreq & Hex & _).
    + injection Ht' as <-. reflexivity.
    + reflexivity.
    + split; [exact Hreq|]. now apply Hex.
  - intros t' Ht'.
    destruct (Hatt eq_refl 0%nat Example.excluded_row t' Example.attached_record
                eq_refl Ht' eq_refl) as (_ & Ha & _).
    now apply Ha.
Defined.

(** The same batch, synced twice. *)
Lemma sync_twice_same_rows_example :
  let batch :=
    [Example.record "T1" (Some "Hosting") (Some "AWS EMEA SARL") (Some false);
     Example.record "T2" None (Some "AWS Ireland") None] in
  let db := Example.table [Example.aws_row] [Example.cloud_rule] in
  let once :=
    @upsert_xero_transactions literal_re db 7%N 3%N batch Example.now Example.uuid4 in
  let twice :=
    @upsert_xero_transactions literal_re (database once) 7%N 3%N batch
      (Example.now + 60)%Z Example.uuid4 in
  NoDup (processed_ids batch) /\
  value once = Return tt /\
  exclusion_rules (database once) = exclusion_rules db /\
  value twice = Return tt /\
  List.length (transactions (database twice)) = List.length (transactions (database once)) /\
  Forall2 same_business_fields
          (transactions (database once)) (transactions (database twice)).
Proof.
  cbv zeta.
  assert (NoDup (processed_ids
            [Example.record "T1" (Some "Hosting") (Some "AWS EMEA SARL") (Some false);
             Example.record "T2" None (Some "AWS Ireland") None])) as Hnd.
  { apply NoDup_two. discriminate. }
  split; [exact Hnd|]. split; [reflexivity|].
  apply (@sync_twice_same_rows literal_re
           (Example.table [Example.aws_row] [Example.cloud_rule]) 7%N 3%N
           [Example.record "T1" (Some "Hosting") (Some "AWS EMEA SARL") (Some false);
            Example.record "T2" None (Some "AWS Ireland") None]
           Example.now Example.uuid4 (Example.now + 60)%Z Example.uuid4 Hnd).
  reflexivity.
Defined.

(** A record without [HasAttachments] for the row whose document has
    arrived, and one for a transaction that the table does not have. *)
Lemma record_without_HasAttachments_example :
  let updating := Example.record "T1" (Some "Invoice 7") (Some "Other Ltd") None in
  let inserting := Example.record "T2" None (Some "Other Ltd") None in
  let call :=
    @upsert_xero_transactions literal_re
      (Example.table [Example.received_row] [Example.cloud_rule]) 7%N 3%N
      [updating; inserting] Example.now Example.uuid4 in
  BankTransaction.HasAttachments updating = None /\
  BankTransaction.HasAttachments inserting = None /\
  value call = Return tt /\
  (exists updated,
      nth_error (transactions (database call)) 0 = Some updated /\
      Transaction.document_received updated = true /\
      Transaction.document_required updated = true) /\
  (exists i new_tx,
      nth_error (transactions (database call)) i = Some new_tx /\
      Transaction.xero_transaction_id new_tx = "T2" /\
      Transaction.document_received new_tx = false /\
      Transaction.document_required new_tx = true).
Proof.
  cbv zeta.
  assert (NoDup (processed_ids
            [Example.record "T1" (Some "Invoice 7") (Some "Other Ltd") None;
             Example.record "T2" None (Some "Other Ltd") None])) as Hnd.
  { apply NoDup_two. discriminate. }
  split; [reflexivity|]. split; [reflexivity|]. split; [reflexivity|]. split.
  - destruct (@record_without_HasAttachments literal_re
                (Example.table [Example.received_row] [Example.cloud_rule]) 7%N 3%N
                [Example.record "T1" (Some "Invoice 7") (Some "Other Ltd") None;
                 Example.record "T2" None (Some "Other Ltd") None]
                Example.now Example.uuid4
                (Example.record "T1" (Some "Invoice 7") (Some "Other Ltd") None) "T1"
                (or_introl eq_refl) eq_refl eq_refl eq_refl) as [_ Hcall].
    destruct (Hcall eq_refl) as [_ Hupd].
    destruct (Hupd Hnd 0%nat Example.received_row eq_refl eq_refl)
      as (updated & Hn & Hr & Hd).
    exists updated. split; [exact Hn|]. split; [exact Hr|].
    apply Hd. injection Hn as <-. repeat constructor.
  - destruct (@record_without_HasAttachments literal_re
                (Example.table [Example.received_row] [Example.cloud_rule]) 7%N 3%N
                [Example.record "T1" (Some "Invoice 7") (Some "Other Ltd") None;
                 Example.record "T2" None (Some "Other Ltd") None]
                Example.now Example.uuid4
                (Example.record "T2" None (Some "Other Ltd") None) "T2"
                (or_intror (or_introl eq_refl)) eq_refl eq_refl eq_refl) as [_ Hcall].
    destruct (Hcall eq_refl) as [Hins _].
    destruct (Hins eq_refl) as (i & new_tx & Hle & Hn & _ & Hx & Hr & Hd).
    exists i, new_tx. split; [exact Hn|]. split; [exact Hx|]. split; [exact Hr|].
    apply Hd.
    destruct i as [|[|i]]; [inversion Hle|injection Hn as <-; repeat constructor|].
    destruct i; discriminate Hn.
Defined.

(* ===================================================================== *)
(** * Part III.  Further properties of the same code                      *)
(* ===================================================================== *)

(** ** Rules and the engine *)

Lemma lower_truthy (v v' : string) :
  lower v = lower v' -> truthy (Some v) = truthy (Some v').
Proof. destruct v, v'; simpl; intros E; try reflexivity; discriminate. Qed.

Lemma prefix_refl (s : string) : String.prefix s s = true.
Proof.
  induction s as [|c s IH]; simpl; [reflexivity|].
  destruct (ascii_dec c c) as [_|N]; [exact IH|now elim N].
Qed.

Lemma contains_refl (s : string) : contains s s = true.
Proof. destruct s; cbn [contains]; [reflexivity|]. now rewrite prefix_refl. Qed.

Lemma contains_substring (value p : string) (i : nat) :
  String.substring i (String.length p) value = p -> contains value p = true.
Proof.
  revert i. induction value as [|c rest IH]; intros i Hs.
  - assert (p = EmptyString) as ->.
    { destruct i, (String.length p); simpl in Hs; now subst. }
    reflexivity.
  - destruct i as [|i].
    + cbn [contains]. apply orb_true_iff. left.
      now apply String.prefix_correct.
    + cbn [contains]. apply orb_true_iff. right.
      apply (IH i). exact Hs.
Qed.

Section Rules.

Context `{PyRe}.

(** A rule that would not match counts for nothing, wherever it stands in
    the list. *)
Lemma rule_without_match (transaction : Transaction.t)
      (before : list ExclusionRule.t) (rule : ExclusionRule.t)
      (after : list ExclusionRule.t) :
  would_match rule transaction = false ->
  apply_exclusion_rules transaction (before ++ rule :: after) =
  apply_exclusion_rules transaction (before ++ after).
Proof.
  intros Hr. rewrite !apply_exclusion_rules_find.
  assert (find (fun r => would_match r transaction) (before ++ rule :: after) =
          find (fun r => would_match r transaction) (before ++ after)) as ->.
  { induction before as [|r l IH]; simpl.
    - now rewrite Hr.
    - destruct (would_match r transaction); [reflexivity|exact IH]. }
  reflexivity.
Qed.

(** X1.  A disabled rule never matches, and the engine gives the same
    result with it in the list, at any place, as without it. *)
Theorem disabled_rule_has_no_effect
        (rule : ExclusionRule.t) (transaction : Transaction.t)
        (before after : list ExclusionRule.t) (value : option string) :
  ExclusionRule.enabled rule = false ->
  ExclusionRule.matches rule value = false /\
  apply_exclusion_rules transaction (before ++ rule :: after) =
  apply_exclusion_rules transaction (before ++ after).
Proof.
  intros He. split.
  - unfold ExclusionRule.matches. destruct value as [v|]; [|reflexivity].
    rewrite He. cbn [negb]. now rewrite orb_true_r.
  - apply rule_without_match. unfold would_match, ExclusionRule.is_active.
    now rewrite He.
Qed.

(** X2.  A rule whose type is neither ["supplier_name"] nor
    ["description"] (so also ["amount_range"] and ["category"]) is not
    evaluated: the engine gives the same result with it as without it,
    whatever its pattern and match type. *)
Theorem other_rule_types_have_no_effect
        (rule : ExclusionRule.t) (transaction : Transaction.t)
        (before after : list ExclusionRule.t) :
  ExclusionRule.rule_type rule <> "supplier_name" ->
  ExclusionRule.rule_type rule <> "description" ->
  apply_exclusion_rules transaction (before ++ rule :: after) =
  apply_exclusion_rules transaction (before ++ after).
Proof.
  intros Hs Hd. apply rule_without_match. unfold would_match, tested_value.
  apply String.eqb_neq in Hs. apply String.eqb_neq in Hd.
  rewrite Hs, Hd. apply andb_false_r.
Qed.

(** X3.  A regex rule whose pattern does not compile raises nothing and
    matches nothing: the engine goes on to the rules after it and gives
    the same result as without it. *)
Theorem malformed_regex_is_no_match
        (rule : ExclusionRule.t) (transaction : Transaction.t)
        (before after : list ExclusionRule.t) :
  ExclusionRule.match_type rule = "regex" ->
  (forall value, re_search_ignorecase (ExclusionRule.pattern rule) value = None) ->
  (forall value, ExclusionRule.matches rule value = false) /\
  apply_exclusion_rules transaction (before ++ rule :: after) =
  apply_exclusion_rules transaction (before ++ after).
Proof.
  intros Hm Hre.
  assert (forall value, ExclusionRule.matches rule value = false) as Hno.
  { intros [v|]; [|reflexivity]. unfold ExclusionRule.matches.
    rewrite Hm, Hre.
    destruct (negb (truthy (Some v)) || negb (ExclusionRule.enabled rule)); reflexivity. }
  split; [exact Hno|].
  apply rule_without_match. unfold would_match.
  destruct (tested_value rule transaction) as [v|]; [|apply andb_false_r].
  rewrite Hno. apply andb_false_r.
Qed.

(** X4.  A transaction with neither a supplier name nor a description
    (each [None] or empty) is excluded by no list of rules: the engine
    returns false and leaves it as it was. *)
Theorem nothing_to_test_nothing_excluded
        (transaction : Transaction.t) (rules : list ExclusionRule.t) :
  truthy (Transaction.supplier_name transaction) = false ->
  truthy (Transaction.description transaction) = false ->
  apply_exclusion_rules transaction rules = (transaction, false).
Proof.
  intros Hs Hd. rewrite apply_exclusion_rules_find.
  assert (forall v, truthy v = false -> forall r, ExclusionRule.matches r v = false) as Hno.
  { intros [v|] Hv r; [|reflexivity]. unfold ExclusionRule.matches. now rewrite Hv. }
  assert (find (fun r => would_match r transaction) rules = None) as ->; [|reflexivity].
  induction rules as [|r l IH]; simpl; [reflexivity|].
  assert (would_match r transaction = false) as ->; [|exact IH].
  unfold would_match, tested_value.
  destruct (String.eqb (ExclusionRule.rule_type r) "supplier_name");
    [rewrite (Hno _ Hs); apply andb_false_r|].
  destruct (String.eqb (ExclusionRule.rule_type r) "description");
    [rewrite (Hno _ Hd)|]; apply andb_false_r.
Qed.


(** X6.  Running the engine again on the transaction it has left gives the
    same transaction and the same answer. *)
Theorem engine_is_idempotent
        (transaction : Transaction.t) (rules : list ExclusionRule.t) :
  apply_exclusion_rules (fst (apply_exclusion_rules transaction rules)) rules =
  apply_exclusion_rules transaction rules.
Proof.
  rewrite (apply_exclusion_rules_find transaction).
  destruct (find (fun r => would_match r transaction) rules) as [rule|] eqn:Ef;
    cbn [fst]; rewrite apply_exclusion_rules_find.
  - rewrite (find_would_match_fields rules (exclude transaction rule) transaction
               eq_refl eq_refl), Ef.
    reflexivity.
  - now rewrite Ef.
Qed.

(** X7.  Matching ignores letter case.  For a rule that is not a regex
    rule, the answer is the same for two values that differ in case only,
    and for two rules that differ only in the case of their pattern. *)
Theorem matching_ignores_case
        (rule rule' : ExclusionRule.t) (v v' : string) :
  ExclusionRule.match_type rule <> "regex" ->
  ExclusionRule.match_type rule' = ExclusionRule.match_type rule ->
  ExclusionRule.enabled rule' = ExclusionRule.enabled rule ->
  lower (ExclusionRule.pattern rule') = lower (ExclusionRule.pattern rule) ->
  lower v' = lower v ->
  ExclusionRule.matches rule' (Some v') = ExclusionRule.matches rule (Some v).
Proof.
  intros Hre Hm He Hp Hv. unfold ExclusionRule.matches.
  rewrite (lower_truthy v' v Hv), Hm, He, Hp, Hv.
  apply String.eqb_neq in Hre. now rewrite Hre.
Qed.

(** X8.  Whatever a rule with match type ["equals"], ["starts_with"] or
    ["ends_with"] accepts, the rule with the same pattern and match type
    ["contains"] accepts. *)
Theorem contains_is_the_widest
        (rule wide : ExclusionRule.t) (value : option string) :
  ExclusionRule.match_type rule = "equals" \/
  ExclusionRule.match_type rule = "starts_with" \/
  ExclusionRule.match_type rule = "ends_with" ->
  ExclusionRule.match_type wide = "contains" ->
  ExclusionRule.pattern wide = ExclusionRule.pattern rule ->
  ExclusionRule.enabled wide = ExclusionRule.enabled rule ->
  ExclusionRule.matches rule value = true ->
  ExclusionRule.matches wide value = true.
Proof.
  intros Hm Hw Hp He. unfold ExclusionRule.matches.
  destruct value as [v|]; [|discriminate].
  rewrite Hw, Hp, He.
  destruct (negb (truthy (Some v)) || negb (ExclusionRule.enabled rule)); [discriminate|].
  cbn [String.eqb Ascii.eqb Bool.eqb].
  destruct Hm as [-> | [-> | ->]]; cbn.
  - intros E. apply String.eqb_eq in E. rewrite E. apply contains_refl.
  - unfold startswith. intros E.
    destruct (lower v); cbn [contains]; now rewrite E.
  - unfold endswith.
    destruct (String.length (lower (ExclusionRule.pattern rule)) <=?
              String.length (lower v))%nat; [|discriminate].
    intros E. apply String.eqb_eq in E. now apply contains_substring in E.
Qed.

End Rules.

(** ** The connection and the token manager *)

Lemma find_map_same {A : Type} (p : A -> bool) (f : A -> A) (l : list A) :
  (forall x, p (f x) = p x) ->
  find p (map f l) = option_map f (find p l).
Proof.
  intros Hp. induction l as [|x l IH]; simpl; [reflexivity|].
  rewrite Hp. destruct (p x); [reflexivity|exact IH].
Qed.

Section ManagerMore.

Context `{Cryptography}.

(** X9.  The clock properties of the connection and the margin of the
    manager.  On a connection as a session reads it from the table, with
    an aware [expires_at], [is_expired], [needs_refresh] and the manager
    all raise [TypeError].  On a connection whose [expires_at] is naive
    the three are nested: an expired connection needs refresh, and the
    manager raises for it; a connection that does not need refresh is
    answered from the store.  In every case the manager sends no request
    and writes nothing. *)
Theorem expiry_refresh_and_margin
        (settings : Settings) (env : Environment) (db : Database)
        (organization_id : UUID) (connection : XeroConnection.t) :
  connection_of organization_id db = Some connection ->
  let (outcome, requests) := get_valid_access_token settings env db organization_id in
  (forall t,
      XeroConnection.expires_at connection = aware t ->
      XeroConnection.is_expired (utcnow_check env) connection = Raise TypeError /\
      XeroConnection.needs_refresh (utcnow_check env) connection = Raise TypeError /\
      value outcome = Raise TypeError) /\
  (forall t,
      XeroConnection.expires_at connection = naive t ->
      (XeroConnection.is_expired (utcnow_check env) connection = Return true ->
       XeroConnection.needs_refresh (utcnow_check env) connection = Return true /\
       exists e, value outcome = Raise e) /\
      (XeroConnection.needs_refresh (utcnow_check env) connection = Return false ->
       value outcome =
         decrypt_token settings (XeroConnection.access_token_encrypted connection))) /\
  requests = [] /\
  database outcome = db.
Proof.
  intros Hc. rewrite get_valid_access_token_cases, Hc. cbn [value database].
  unfold XeroConnection.is_expired, XeroConnection.needs_refresh.
  split; [|split; [|split; reflexivity]].
  - intros t ->. repeat split.
  - intros t ->. cbn [stamp_ge stamp_sub]. unfold timedelta_hours, timedelta_minutes.
    split.
    + intros He. injection He as He. apply Z.geb_le in He.
      split; [f_equal; apply Z.geb_le; lia|].
      destruct (Z.gtb_spec t (utcnow_check env + 2 * 60 * 1000000)) as [Hgt|_]; [lia|].
      destruct (decrypt_token settings (XeroConnection.refresh_token_encrypted connection));
        now eexists.
    + intros Hn. injection Hn as Hn. rewrite Z.geb_leb in Hn. apply Z.leb_gt in Hn.
      destruct (Z.gtb_spec t (utcnow_check env + 2 * 60 * 1000000)) as [_|Hle]; [reflexivity|lia].
Qed.

(** X11.  A call sends one request at most, and it writes to the database
    only when it has sent one. *)
Theorem no_request_no_write
        (settings : Settings) (env : Environment) (db : Database)
        (organization_id : UUID) :
  let (outcome, requests) := get_valid_access_token settings env db organization_id in
  (List.length requests <= 1)%nat /\
  (requests = [] -> database outcome = db).
Proof.
  unfold get_valid_access_token.
  destruct (check_expiry settings db organization_id (utcnow_check env)) as [[token|c p]|e];
    cbn [List.length database]; split; auto; discriminate.
Qed.

(** X13.  Whatever happens, a call leaves the transactions and the rules
    as they were, keeps every connection in its place with its identifier,
    organization and tenant, and changes no connection other than the one
    it loaded. *)
Theorem manager_touches_one_connection
        (settings : Settings) (env : Environment) (db : Database)
        (organization_id : UUID) :
  let db' := database (fst (get_valid_access_token settings env db organization_id)) in
  transactions db' = transactions db /\
  exclusion_rules db' = exclusion_rules db /\
  map XeroConnection.id (xero_connections db') =
    map XeroConnection.id (xero_connections db) /\
  map XeroConnection.organization_id (xero_connections db') =
    map XeroConnection.organization_id (xero_connections db) /\
  map XeroConnection.xero_tenant_id (xero_connections db') =
    map XeroConnection.xero_tenant_id (xero_connections db) /\
  (forall loaded i row,
      connection_of organization_id db = Some loaded ->
      nth_error (xero_connections db) i = Some row ->
      XeroConnection.id row <> XeroConnection.id loaded ->
      nth_error (xero_connections db') i = Some row).
Proof.
  cbv zeta. rewrite get_valid_access_token_cases. cbn [fst database].
  repeat split. intros loaded i row _ Hi _. exact Hi.
Qed.

(** X14.  The manager does not read [sync_status]: were every connection
    given another status, ["revoked"] for one, the call would end as it
    does, returning or raising the same and sending the same. *)
Theorem sync_status_is_not_read
        (settings : Settings) (env : Environment) (db : Database)
        (organization_id : UUID) (status : string) :
  let db' :=
    {| transactions := transactions db;
       exclusion_rules := exclusion_rules db;
       xero_connections :=
         map (fun c => set_sync_status c status) (xero_connections db) |} in
  value (fst (get_valid_access_token settings env db' organization_id)) =
  value (fst (get_valid_access_token settings env db organization_id)) /\
  snd (get_valid_access_token settings env db' organization_id) =
  snd (get_valid_access_token settings env db organization_id).
Proof.
  cbv zeta. rewrite !get_valid_access_token_cases. cbn [fst snd value].
  split; [|reflexivity].
  unfold connection_of, first. cbn [xero_connections].
  rewrite find_map_same by reflexivity.
  destruct (find _ (xero_connections db)) as [c|]; reflexivity.
Qed.

End ManagerMore.

(** ** The sync: what it keeps *)

Section LoopMore.

Context `{PyRe}.
Variables (organization_id client_id : UUID) (rules : list ExclusionRule.t).
Variables (now : datetime) (uuid4 : nat -> UUID).

Local Abbreviation step := (upsert_one organization_id client_id rules now uuid4).

(** The identifiers of the added objects: those that were there, then the
    unknown identifiers of the batch. *)
Lemma loop_added_ids (txs : list BankTransaction.t) (db : Session) :
  map Transaction.xero_transaction_id (added (fold_left step txs db)) =
  map Transaction.xero_transaction_id (added db) ++
  unknown_ids organization_id (rows db) txs.
Proof.
  unfold unknown_ids.
  revert db. induction txs as [|tx rest IH]; intros db; cbn [fold_left processed_ids].
  - cbn [filter]. now rewrite app_nil_r.
  - rewrite IH.
    assert (forall l,
      filter (fun xid => negb (existsb (same_transaction organization_id xid)
                                       (rows (step db tx)))) l =
      filter (fun xid => negb (existsb (same_transaction organization_id xid)
                                       (rows db))) l) as Hfilter.
    { intros l. apply filter_ext. intros xid.
      now rewrite (existsb_key _ _ _ _ (step_keys organization_id client_id rules
                                          now uuid4 db tx)). }
    rewrite Hfilter.
    destruct (step_cases organization_id client_id rules now uuid4 db tx)
      as [(Hskip & -> & _)|[(xid & Eid & Et & Hf & ->)|(xid & e & Eid & Et & Hf & ->)]];
      cbn [added].
    + destruct (BankTransaction.BankTransactionID tx) as [xid|]; [|reflexivity].
      now rewrite Hskip.
    + rewrite Eid, Et. cbn [filter].
      apply first_existsb in Hf. rewrite Hf. cbn [negb].
      rewrite map_app, <- app_assoc. cbn [map app].
      pose proof (key_inserted organization_id client_id rules now
                    (uuid4 (List.length (added db))) xid tx) as Hk.
      unfold key in Hk. injection Hk as _ Hx. now rewrite Hx.
    + rewrite Eid, Et. cbn [filter].
      destruct (existsb (same_transaction organization_id xid) (rows db)) eqn:Ex;
        [reflexivity|].
      apply first_existsb in Ex. congruence.
Qed.

End LoopMore.

Section Kept.

Context `{PyRe}.
Variables (organization_id client_id : UUID) (rules : list ExclusionRule.t).

(** What every update keeps, the records of a batch keep. *)
Lemma fold_touch_invariant (P : Transaction.t -> Prop) (now : datetime)
      (txs : list BankTransaction.t) (t : Transaction.t) :
  (forall t0 tx, P t0 -> P (synced rules now t0 tx)) ->
  P t -> P (fold_left (touch organization_id rules now) txs t).
Proof.
  intros Hstep. revert t. induction txs as [|tx rest IH]; intros t Ht; cbn [fold_left];
    [exact Ht|].
  apply IH. unfold touch. destruct (selects organization_id tx t); [now apply Hstep|exact Ht].
Qed.

Lemma key_fold_touch (now : datetime) (txs : list BankTransaction.t) (t : Transaction.t) :
  key (fold_left (touch organization_id rules now) txs t) = key t.
Proof.
  apply (fold_touch_invariant (fun t' => key t' = key t)); [|reflexivity].
  intros t0 tx Hk. now rewrite key_synced.
Qed.

(** The columns that an update does not assign. *)
Lemma synced_identity (now : datetime) (t : Transaction.t) (tx : BankTransaction.t) :
  let t' := synced rules now t tx in
  Transaction.id t' = Transaction.id t /\
  Transaction.organization_id t' = Transaction.organization_id t /\
  Transaction.client_id t' = Transaction.client_id t /\
  Transaction.xero_transaction_id t' = Transaction.xero_transaction_id t /\
  Transaction.document_uploaded_at t' = Transaction.document_uploaded_at t /\
  Transaction.created_at t' = Transaction.created_at t.
Proof.
  unfold synced. rewrite engine_result. destruct (find _ rules); repeat split.
Qed.

Lemma synced_excluded (now : datetime) (t : Transaction.t) (tx : BankTransaction.t) :
  Transaction.excluded t = true ->
  Transaction.excluded (synced rules now t tx) = true.
Proof.
  unfold synced. rewrite engine_result. destruct (find _ rules); [reflexivity|].
  intros Ht. exact Ht.
Qed.

Lemma truthy_py_or (a b : option string) : truthy b = true -> truthy (py_or a b) = true.
Proof. unfold py_or. destruct (truthy a) eqn:E; [now rewrite E|tauto]. Qed.

Lemma synced_description (now : datetime) (t : Transaction.t) (tx : BankTransaction.t) :
  Transaction.description (synced rules now t tx) =
    py_or (BankTransaction.Reference tx) (Transaction.description t) /\
  Transaction.supplier_name (synced rules now t tx) = contact_name tx /\
  Transaction.updated_at (synced rules now t tx) = now.
Proof.
  unfold synced. rewrite engine_result. destruct (find _ rules); repeat split.
Qed.

(** With attachments reported, an update and an insert leave the document
    received and not required, whatever the rules. *)
Lemma synced_attached (now : datetime) (t : Transaction.t) (tx : BankTransaction.t) :
  has_attachments_of tx = true ->
  Transaction.document_required (synced rules now t tx) = false /\
  Transaction.document_received (synced rules now t tx) = true.
Proof.
  intros Hh. unfold synced. rewrite engine_result.
  destruct (find _ rules); cbn; now rewrite Hh.
Qed.

Lemma inserted_attached (now : datetime) (uuid : UUID) (xid : string)
      (tx : BankTransaction.t) :
  has_attachments_of tx = true ->
  Transaction.document_required
    (inserted rules now uuid organization_id client_id xid tx) = false /\
  Transaction.document_received
    (inserted rules now uuid organization_id client_id xid tx) = true.
Proof.
  intros Hh. unfold inserted. rewrite engine_result.
  destruct (find _ rules); cbn; now rewrite Hh.
Qed.

(** The columns that the insert branch fills by itself. *)
Lemma inserted_columns (now : datetime) (uuid : UUID) (xid : string)
      (tx : BankTransaction.t) :
  let t := inserted rules now uuid organization_id client_id xid tx in
  Transaction.id t = uuid /\
  Transaction.client_id t = client_id /\
  Transaction.xero_type t = BankTransaction.Type_ tx /\
  Transaction.date t = BankTransaction.Date tx /\
  Transaction.amount t = BankTransaction.Total tx /\
  Transaction.description t =
    py_or (BankTransaction.Reference tx) (BankTransaction.LineAmountTypes tx) /\
  Transaction.supplier_name t = contact_name tx /\
  Transaction.document_uploaded_at t = None /\
  Transaction.created_at t = now /\
  Transaction.updated_at t = now.
Proof.
  unfold inserted. rewrite engine_result. destruct (find _ rules); repeat split.
Qed.

End Kept.

Section SyncKeeps.

Context `{PyRe}.

(** X15.  A record whose [BankTransactionID] is absent or empty is skipped
    and the rest of the batch is processed: the call does exactly what it
    does for the batch without that record. *)
Theorem records_without_identifier_are_skipped
        (db : Database) (organization_id client_id : UUID)
        (before : list BankTransaction.t) (tx : BankTransaction.t)
        (after : list BankTransaction.t)
        (now : datetime) (uuid4 : nat -> UUID) :
  truthy (BankTransaction.BankTransactionID tx) = false ->
  upsert_xero_transactions db organization_id client_id (before ++ tx :: after) now uuid4 =
  upsert_xero_transactions db organization_id client_id (before ++ after) now uuid4.
Proof.
  intros Ht. unfold upsert_xero_transactions. rewrite !fold_left_app. cbn [fold_left].
  assert (forall s, upsert_one organization_id client_id
                      (enabled_rules organization_id db) now uuid4 s tx = s) as ->;
    [|reflexivity].
  intros s. unfold upsert_one.
  destruct (BankTransaction.BankTransactionID tx) as [xid|]; [|reflexivity].
  now rewrite Ht.
Qed.

(** X16.  The sync deletes no row and moves none.  After any call the
    table is at least as long as before, and every row that was in it is
    in the same place with the same [id], [organization_id], [client_id],
    [xero_transaction_id], [document_uploaded_at] and [created_at]. *)
Theorem rows_are_never_deleted
        (db : Database) (organization_id client_id : UUID)
        (xero_transactions : list BankTransaction.t)
        (now : datetime) (uuid4 : nat -> UUID) :
  let after :=
    transactions (database (upsert_xero_transactions db organization_id client_id
                              xero_transactions now uuid4)) in
  (List.length (transactions db) <= List.length after)%nat /\
  (forall i t,
      nth_error (transactions db) i = Some t ->
      exists t',
        nth_error after i = Some t' /\
        Transaction.id t' = Transaction.id t /\
        Transaction.organization_id t' = Transaction.organization_id t /\
        Transaction.client_id t' = Transaction.client_id t /\
        Transaction.xero_transaction_id t' = Transaction.xero_transaction_id t /\
        Transaction.document_uploaded_at t' = Transaction.document_uploaded_at t /\
        Transaction.created_at t' = Transaction.created_at t).
Proof.
  cbv zeta.
  destruct (value (upsert_xero_transactions db organization_id client_id
                     xero_transactions now uuid4)) as [[]|e] eqn:Hv.
  - split.
    + destruct (upsert_returns _ _ _ _ _ _ Hv) as [_ ->].
      destruct (upsert_rows _ _ _ _ _ _ Hv) as [_ Hr]. cbv zeta in Hr.
      cbn [transactions]. rewrite length_app, Hr, length_map. lia.
    + intros i t Hi. eexists. split; [apply upsert_nth_row; [exact Hv|exact Hi]|].
      apply (fold_touch_invariant organization_id (enabled_rules organization_id db)
               (fun t' =>
                  Transaction.id t' = Transaction.id t /\
                  Transaction.organization_id t' = Transaction.organization_id t /\
                  Transaction.client_id t' = Transaction.client_id t /\
                  Transaction.xero_transaction_id t' = Transaction.xero_transaction_id t /\
                  Transaction.document_uploaded_at t' = Transaction.document_uploaded_at t /\
                  Transaction.created_at t' = Transaction.created_at t));
        [|repeat split].
      intros t0 tx (H1 & H2 & H3 & H4 & H5 & H6).
      destruct (synced_identity (enabled_rules organization_id db) now t0 tx)
        as (E1 & E2 & E3 & E4 & E5 & E6).
      cbv zeta in *. repeat split; congruence.
  - rewrite upsert_raises; [|congruence]. split; [apply le_n|].
    intros i t Hi. exists t. repeat split. exact Hi.
Qed.

(** X17.  A call changes only rows of its organization whose provider
    identifier is among those it processes.  A row of another
    organization, and a row whose identifier no processed record carries,
    is after the call exactly what it was, [updated_at] included. *)
Theorem other_rows_are_untouched
        (db : Database) (organization_id client_id : UUID)
        (xero_transactions : list BankTransaction.t)
        (now : datetime) (uuid4 : nat -> UUID)
        (i : nat) (t : Transaction.t) :
  nth_error (transactions db) i = Some t ->
  Transaction.organization_id t <> organization_id \/
  ~ In (Transaction.xero_transaction_id t) (processed_ids xero_transactions) ->
  nth_error
    (transactions (database (upsert_xero_transactions db organization_id client_id
                               xero_transactions now uuid4))) i = Some t.
Proof.
  intros Hi Hother.
  destruct (value (upsert_xero_transactions db organization_id client_id
                     xero_transactions now uuid4)) as [[]|e] eqn:Hv.
  - rewrite (upsert_nth_row _ _ _ _ _ _ _ _ Hv Hi). f_equal.
    apply fold_touch_unselected. intros tx Hin.
    destruct (selects organization_id tx t) eqn:Hs; [|reflexivity].
    exfalso. destruct Hother as [Horg|Hid].
    + unfold selects in Hs.
      destruct (BankTransaction.BankTransactionID tx) as [xid|]; [|discriminate].
      apply andb_true_iff in Hs. destruct Hs as [_ Hs].
      apply same_transaction_xid in Hs. now apply Horg.
    + apply Hid. now apply (selects_processed organization_id xero_transactions tx).
  - rewrite upsert_raises; [exact Hi|congruence].
Qed.

(** X18.  The sync never takes an exclusion back: a row that is excluded
    before a call is excluded after it, whether or not a rule still
    matches it. *)
Theorem exclusion_is_never_lifted
        (db : Database) (organization_id client_id : UUID)
        (xero_transactions : list BankTransaction.t)
        (now : datetime) (uuid4 : nat -> UUID)
        (i : nat) (t : Transaction.t) :
  nth_error (transactions db) i = Some t ->
  Transaction.excluded t = true ->
  exists t',
    nth_error
      (transactions (database (upsert_xero_transactions db organization_id client_id
                                 xero_transactions now uuid4))) i = Some t' /\
    Transaction.excluded t' = true /\
    Transaction.needs_document t' = false.
Proof.
  intros Hi Hex.
  destruct (value (upsert_xero_transactions db organization_id client_id
                     xero_transactions now uuid4)) as [[]|e] eqn:Hv.
  - eexists. split; [apply upsert_nth_row; [exact Hv|exact Hi]|].
    assert (Transaction.excluded
              (fold_left (touch organization_id (enabled_rules organization_id db) now)
                         xero_transactions t) = true) as Hkept.
    { apply (fold_touch_invariant organization_id (enabled_rules organization_id db)
               (fun t' => Transaction.excluded t' = true)); [|exact Hex].
      intros t0 tx. apply synced_excluded. }
    split; [exact Hkept|].
    unfold Transaction.needs_document. rewrite Hkept. apply andb_false_r.
  - rewrite upsert_raises; [|congruence]. exists t. split; [exact Hi|].
    split; [exact Hex|]. unfold Transaction.needs_document. rewrite Hex. apply andb_false_r.
Qed.

(** X19.  A description is never erased: a row whose [description] is not
    empty before a call has a [description] that is not empty after it,
    also when the records for it carry no [Reference]. *)
Theorem description_is_never_erased
        (db : Database) (organization_id client_id : UUID)
        (xero_transactions : list BankTransaction.t)
        (now : datetime) (uuid4 : nat -> UUID)
        (i : nat) (t : Transaction.t) :
  nth_error (transactions db) i = Some t ->
  truthy (Transaction.description t) = true ->
  exists t',
    nth_error
      (transactions (database (upsert_xero_transactions db organization_id client_id
                                 xero_transactions now uuid4))) i = Some t' /\
    truthy (Transaction.description t') = true.
Proof.
  intros Hi Hd.
  destruct (value (upsert_xero_transactions db organization_id client_id
                     xero_transactions now uuid4)) as [[]|e] eqn:Hv.
  - eexists. split; [apply upsert_nth_row; [exact Hv|exact Hi]|].
    apply (fold_touch_invariant organization_id (enabled_rules organization_id db)
             (fun t' => truthy (Transaction.description t') = true)); [|exact Hd].
    intros t0 tx Ht0.
    destruct (synced_description (enabled_rules organization_id db) now t0 tx) as (-> & _).
    now apply truthy_py_or.
  - rewrite upsert_raises; [|congruence]. exists t. now split.
Qed.

(** X20.  Every row that a call adds to the table was built from a record
    of the batch that carries a non-empty identifier unknown to the
    organization: it has that identifier, the organization and the client
    of the call, the record's type, date, total and contact name, the
    record's [Reference] or else its [LineAmountTypes] as description,
    [document_received] as the record reports attachments, and both
    [created_at] and [updated_at] equal to the time of the call. *)
Theorem inserted_rows_come_from_records
        (db : Database) (organization_id client_id : UUID)
        (xero_transactions : list BankTransaction.t)
        (now : datetime) (uuid4 : nat -> UUID)
        (i : nat) (t' : Transaction.t) :
  (List.length (transactions db) <= i)%nat ->
  nth_error
    (transactions (database (upsert_xero_transactions db organization_id client_id
                               xero_transactions now uuid4))) i = Some t' ->
  exists tx,
    In tx xero_transactions /\
    BankTransaction.BankTransactionID tx = Some (Transaction.xero_transaction_id t') /\
    truthy (Some (Transaction.xero_transaction_id t')) = true /\
    existsb (same_transaction organization_id (Transaction.xero_transaction_id t'))
            (transactions db) = false /\
    Transaction.organization_id t' = organization_id /\
    Transaction.client_id t' = client_id /\
    Transaction.xero_type t' = BankTransaction.Type_ tx /\
    Transaction.date t' = BankTransaction.Date tx /\
    Transaction.amount t' = BankTransaction.Total tx /\
    Transaction.description t' =
      py_or (BankTransaction.Reference tx) (BankTransaction.LineAmountTypes tx) /\
    Transaction.supplier_name t' = contact_name tx /\
    Transaction.document_received t' = has_attachments_of tx /\
    Transaction.document_uploaded_at t' = None /\
    Transaction.created_at t' = now /\
    Transaction.updated_at t' = now.
Proof.
  intros Hi Hn.
  destruct (upsert_nth_added _ _ _ _ _ _ _ _ Hi Hn)
    as (tx & uuid & xid & Hin & Eid & Et & Ex & ->).
  destruct (inserted_fields organization_id client_id (enabled_rules organization_id db)
              now uuid xid tx) as (Ho & Hx & Hr & _ & _).
  destruct (inserted_columns organization_id client_id (enabled_rules organization_id db)
              now uuid xid tx) as (_ & Hc & Hty & Hda & Ham & Hde & Hsu & Hup & Hcr & Hud).
  cbv zeta in *. exists tx. rewrite Hx.
  repeat split; assumption.
Qed.

(** X21.  When a call returns and no provider identifier occurs twice
    among the records it processes, every row that the organization has
    for a record reporting attachments is left with
    [document_required = false] and [document_received = true], so that it
    needs no document, whatever the rules say. *)
Theorem record_with_attachments
        (db : Database) (organization_id client_id : UUID)
        (xero_transactions : list BankTransaction.t)
        (now : datetime) (uuid4 : nat -> UUID)
        (tx : BankTransaction.t) (xid : string) (t' : Transaction.t) :
  value (upsert_xero_transactions db organization_id client_id
           xero_transactions now uuid4) = Return tt ->
  NoDup (processed_ids xero_transactions) ->
  In tx xero_transactions ->
  BankTransaction.BankTransactionID tx = Some xid ->
  truthy (Some xid) = true ->
  BankTransaction.HasAttachments tx = Some true ->
  In t' (transactions (database (upsert_xero_transactions db organization_id client_id
                                   xero_transactions now uuid4))) ->
  same_transaction organization_id xid t' = true ->
  Transaction.document_required t' = false /\
  Transaction.document_received t' = true /\
  Transaction.needs_document t' = false.
Proof.
  intros Hv Hnd Hin Eid Et Hatt Hin' Hsel.
  assert (has_attachments_of tx = true) as Hhas.
  { unfold has_attachments_of. now rewrite Hatt. }
  assert (Transaction.document_required t' = false /\
          Transaction.document_received t' = true) as [Hreq Hrec];
    [|split; [exact Hreq|split; [exact Hrec|]];
      unfold Transaction.needs_document; now rewrite Hreq].
  destruct (upsert_returns _ _ _ _ _ _ Hv) as [_ Hd].
  destruct (upsert_rows _ _ _ _ _ _ Hv) as [_ Hr].
  cbv zeta in Hd, Hr. rewrite Hd in Hin'. cbn [transactions] in Hin'.
  set (rules := enabled_rules organization_id db) in *.
  apply in_app_or in Hin'. destruct Hin' as [Hrow|Hadd].
  - rewrite Hr in Hrow. apply in_map_iff in Hrow. destruct Hrow as (t & <- & _).
    rewrite (same_transaction_key _ _ _ t (key_fold_touch organization_id rules now _ t))
      in Hsel.
    rewrite (fold_touch_once _ _ _ _ _ Hnd).
    assert (selects organization_id tx t = true) as Hs.
    { unfold selects. now rewrite Eid, Et, Hsel. }
    destruct (find (fun tx0 => selects organization_id tx0 t) xero_transactions)
      as [tx'|] eqn:Ef.
    + apply find_some in Ef. destruct Ef as [Hin' Hs'].
      apply selects_xid in Hs'. destruct Hs' as [Eid' _].
      apply same_transaction_xid in Hsel. destruct Hsel as [_ Hx]. rewrite Hx in Eid'.
      rewrite (processed_ids_injective _ tx' tx xid Hnd Hin' Hin Eid' Eid Et).
      now apply synced_attached.
    + pose proof (find_none _ _ Ef tx Hin) as Hn. cbv beta in Hn. congruence.
  - apply loop_added_origin in Hadd.
    destruct Hadd as [[]|(tx' & u & xid' & Hin' & Eid' & Et' & _ & ->)].
    pose proof (key_inserted organization_id client_id rules now u xid' tx') as Hk.
    apply same_transaction_xid in Hsel. destruct Hsel as [_ Hx].
    unfold key in Hk. injection Hk as _ Hx'. rewrite Hx' in Hx. subst xid'.
    rewrite (processed_ids_injective _ tx' tx xid Hnd Hin' Hin Eid' Eid Et).
    now apply inserted_attached.
Qed.

End SyncKeeps.

(** ** The sync: when the commit is refused *)





Section Commit.

Context `{PyRe}.

(** The table that a call hands to the commit: its rows carry the
    identifiers that the rows of the database carry, and the added objects
    carry the unknown identifiers of the batch. *)
Lemma upsert_session (db : Database) (organization_id client_id : UUID)
      (xero_transactions : list BankTransaction.t)
      (now : datetime) (uuid4 : nat -> UUID) :
  let session :=
    fold_left (upsert_one organization_id client_id
                 (enabled_rules organization_id db) now uuid4)
              xero_transactions {| rows := transactions db; added := [] |} in
  map Transaction.xero_transaction_id (rows session) =
    map Transaction.xero_transaction_id (transactions db) /\
  map Transaction.xero_transaction_id (added session) =
    unknown_ids organization_id (transactions db) xero_transactions /\
  (constraints_hold (rows session ++ added session) = true ->
   value (upsert_xero_transactions db organization_id client_id
            xero_transactions now uuid4) = Return tt) /\
  (constraints_hold (rows session ++ added session) = false ->
   value (upsert_xero_transactions db organization_id client_id
            xero_transactions now uuid4) = Raise IntegrityError /\
   database (upsert_xero_transactions db organization_id client_id
               xero_transactions now uuid4) = db).
Proof.
  cbv zeta. split; [|split; [|split]].
  - now rewrite (map_xid_key _ _ (loop_keys _ _ _ _ _ _ _)).
  - now rewrite loop_added_ids.
  - intros Hc. unfold upsert_xero_transactions. cbv zeta. now rewrite Hc.
  - intros Hc. unfold upsert_xero_transactions. cbv zeta. now rewrite Hc.
Qed.





(** X25.  A call that returns adds one row for each processed record whose
    identifier the organization did not have, and no other: the table
    grows by the number of those identifiers. *)
Theorem table_grows_by_unknown_identifiers
        (db : Database) (organization_id client_id : UUID)
        (xero_transactions : list BankTransaction.t)
        (now : datetime) (uuid4 : nat -> UUID) :
  value (upsert_xero_transactions db organization_id client_id
           xero_transactions now uuid4) = Return tt ->
  let after :=
    transactions (database (upsert_xero_transactions db organization_id client_id
                              xero_transactions now uuid4)) in
  List.length after =
    (List.length (transactions db) +
     List.length (unknown_ids organization_id (transactions db) xero_transactions))%nat /\
  map Transaction.xero_transaction_id after =
    map Transaction.xero_transaction_id (transactions db) ++
    unknown_ids organization_id (transactions db) xero_transactions.
Proof.
  intros Hv. cbv zeta.
  destruct (upsert_returns _ _ _ _ _ _ Hv) as [_ ->].
  destruct (upsert_session db organization_id client_id xero_transactions now uuid4)
    as (Hr & Ha & _).
  cbv zeta in *. cbn [transactions].
  assert (map Transaction.xero_transaction_id
            (rows (fold_left (upsert_one organization_id client_id
                                (enabled_rules organization_id db) now uuid4)
                             xero_transactions
                             {| rows := transactions db; added := [] |}) ++
             added (fold_left (upsert_one organization_id client_id
                                 (enabled_rules organization_id db) now uuid4)
                              xero_transactions
                              {| rows := transactions db; added := [] |})) =
          map Transaction.xero_transaction_id (transactions db) ++
          unknown_ids organization_id (transactions db) xero_transactions) as Hids.
  { now rewrite map_app, Hr, Ha. }
  split; [|exact Hids].
  rewrite <- (length_map Transaction.xero_transaction_id), Hids.
  now rewrite length_app, length_map.
Qed.

End Commit.

(** ** The sync: what a record leaves behind *)

Section Found.

Context `{PyRe}.

Lemma synced_columns (rules : list ExclusionRule.t) (now : datetime)
      (t : Transaction.t) (tx : BankTransaction.t) :
  let t' := synced rules now t tx in
  Transaction.xero_type t' = BankTransaction.Type_ tx /\
  Transaction.date t' = BankTransaction.Date tx /\
  Transaction.amount t' = BankTransaction.Total tx /\
  Transaction.supplier_name t' = contact_name tx /\
  Transaction.updated_at t' = now.
Proof.
  unfold synced. rewrite engine_result. destruct (find _ rules); repeat split.
Qed.

(** X27.  After a call that returns, the lookup of every record that the
    loop has processed finds a row of the organization with the record's
    identifier.  When no identifier occurs twice among the processed
    records, that row carries the record's type, date, total and contact
    name, and the time of the call as [updated_at]. *)
Theorem processed_record_is_found
        (db : Database) (organization_id client_id : UUID)
        (xero_transactions : list BankTransaction.t)
        (now : datetime) (uuid4 : nat -> UUID)
        (tx : BankTransaction.t) (xid : string) :
  value (upsert_xero_transactions db organization_id client_id
           xero_transactions now uuid4) = Return tt ->
  In tx xero_transactions ->
  BankTransaction.BankTransactionID tx = Some xid ->
  truthy (Some xid) = true ->
  exists t',
    first (same_transaction organization_id xid)
          (transactions (database (upsert_xero_transactions db organization_id client_id
                                     xero_transactions now uuid4))) = Some t' /\
    Transaction.organization_id t' = organization_id /\
    Transaction.xero_transaction_id t' = xid /\
    (NoDup (processed_ids xero_transactions) ->
     Transaction.xero_type t' = BankTransaction.Type_ tx /\
     Transaction.date t' = BankTransaction.Date tx /\
     Transaction.amount t' = BankTransaction.Total tx /\
     Transaction.supplier_name t' = contact_name tx /\
     Transaction.updated_at t' = now).
Proof.
  intros Hv Hin Eid Et.
  destruct (upsert_returns _ _ _ _ _ _ Hv) as [_ Hd].
  destruct (upsert_rows _ _ _ _ _ _ Hv) as [_ Hr].
  cbv zeta in Hd, Hr. rewrite Hd. cbn [transactions].
  set (rules := enabled_rules organization_id db) in *.
  pose proof (loop_covers organization_id client_id rules now uuid4 xero_transactions
                {| rows := transactions db; added := [] |} tx xid Hin Eid Et) as Hcover.
  destruct (first (same_transaction organization_id xid) _) as [t'|] eqn:Hf;
    [|apply first_existsb in Hf; congruence].
  exists t'. split; [reflexivity|].
  apply find_some in Hf. destruct Hf as [Hin' Hsel].
  destruct (same_transaction_xid _ _ _ Hsel) as [Ho Hx].
  split; [exact Ho|]. split; [exact Hx|].
  intros Hnd.
  apply in_app_or in Hin'. destruct Hin' as [Hrow|Hadd].
  - rewrite Hr in Hrow. apply in_map_iff in Hrow. destruct Hrow as (t & <- & _).
    rewrite (same_transaction_key _ _ _ t (key_fold_touch organization_id rules now _ t))
      in Hsel.
    rewrite (fold_touch_once _ _ _ _ _ Hnd).
    assert (selects organization_id tx t = true) as Hs.
    { unfold selects. now rewrite Eid, Et, Hsel. }
    destruct (find (fun tx0 => selects organization_id tx0 t) xero_transactions)
      as [tx'|] eqn:Ef.
    + apply find_some in Ef. destruct Ef as [Hin' Hs'].
      apply selects_xid in Hs'. destruct Hs' as [Eid' _].
      apply same_transaction_xid in Hsel. destruct Hsel as [_ Hx']. rewrite Hx' in Eid'.
      rewrite (processed_ids_injective _ tx' tx xid Hnd Hin' Hin Eid' Eid Et).
      apply synced_columns.
    + pose proof (find_none _ _ Ef tx Hin) as Hn. cbv beta in Hn. congruence.
  - apply loop_added_origin in Hadd.
    destruct Hadd as [[]|(tx' & u & xid' & Hin' & Eid' & Et' & _ & ->)].
    pose proof (key_inserted organization_id client_id rules now u xid' tx') as Hk.
    unfold key in Hk. injection Hk as _ Hx'. rewrite Hx' in Hx. subst xid'.
    rewrite (processed_ids_injective _ tx' tx xid Hnd Hin' Hin Eid' Eid Et).
    destruct (inserted_columns organization_id client_id rules now u xid tx)
      as (_ & _ & Hty & Hda & Ham & _ & Hsu & _ & _ & Hud).
    cbv zeta in *. repeat split; assumption.
Qed.

End Found.

(** ** The fetch *)

Section Fetch.

Context `{Cryptography}.

(** X28.  The fetch writes nothing of its own and asks the provider for
    transactions only with a token that the manager has returned.  The
    database it leaves and the posts it has sent are the manager's; it
    sends one get at most, with ["Bearer "] and the manager's token as
    [Authorization] and the tenant of the organization's connection; when
    the manager raises, or the organization has no connection, it sends
    none and raises. *)
Theorem fetch_goes_through_the_manager
        (settings : Settings) (env : Environment) (got : result Feed)
        (db : Database) (organization_id : UUID) :
  let f := fetch_bank_transactions settings env got db organization_id in
  let (token, requests) := get_valid_access_token settings env db organization_id in
  database (fetched f) = database token /\
  posts f = requests /\
  (List.length (gets f) <= 1)%nat /\
  (forall h,
      In h (gets f) ->
      exists connection access_token,
        connection_of organization_id db = Some connection /\
        value token = Return access_token /\
        Headers.Authorization h = literal "Bearer " ++ access_token /\
        Headers.xero_tenant_id h = XeroConnection.xero_tenant_id connection /\
        Headers.Accept h = "application/json") /\
  (forall e, value token = Raise e ->
             gets f = [] /\ exists e', value (fetched f) = Raise e') /\
  (connection_of organization_id db = None ->
   value (fetched f) = Raise (Exception "Xero not connected for this organization")).
Proof.
  cbv zeta. unfold fetch_bank_transactions.
  destruct (connection_of organization_id db) as [connection|] eqn:Hc.
  - destruct (get_valid_access_token settings env db organization_id)
      as [token requests].
    destruct (value token) as [access_token|e] eqn:Hv.
    + assert (forall h : Headers.t,
                 h = {| Headers.Authorization := literal "Bearer " ++ access_token;
                        Headers.xero_tenant_id := XeroConnection.xero_tenant_id connection;
                        Headers.Accept := "application/json" |} ->
                 exists connection0 access_token0,
                   Some connection = Some connection0 /\
                   Return access_token = Return access_token0 /\
                   Headers.Authorization h = literal "Bearer " ++ access_token0 /\
                   Headers.xero_tenant_id h = XeroConnection.xero_tenant_id connection0 /\
                   Headers.Accept h = "application/json") as Hh.
      { intros h ->. now exists connection, access_token. }
      destruct got as [response|e].
      * destruct (negb (feed_status_code response =? 200)%Z);
          [|destruct (feed_json response)];
          cbn [fetched posts gets database value List.length];
          (repeat split; try discriminate; try lia);
          intros h [<-|[]]; now apply Hh.
      * cbn [fetched posts gets database value List.length].
        repeat split; try discriminate; try lia.
        intros h [<-|[]]. now apply Hh.
    + cbn [fetched posts gets database value List.length].
      repeat split; try discriminate; try lia.
      * intros h [].
      * now exists e.
  - unfold get_valid_access_token, check_expiry. rewrite Hc.
    cbn [fetched posts gets database value List.length].
    repeat split; try lia.
    + intros h [].
    + eexists. reflexivity.
Qed.

(** X29.  A fetch for a connection as a session reads it from the table,
    or for one whose token is within the margin, ends before any request:
    it posts nothing to the token endpoint, sends no get for the
    transactions, leaves the database as it was and raises; on the
    connection read from the table, [TypeError]. *)
Theorem fetch_raises_before_any_request
        (settings : Settings) (env : Environment) (got : result Feed)
        (db : Database) (organization_id : UUID) (connection : XeroConnection.t) :
  connection_of organization_id db = Some connection ->
  ((exists t, XeroConnection.expires_at connection = aware t) \/
   (instant (XeroConnection.expires_at connection) <=
    utcnow_check env + timedelta_minutes 2)%Z) ->
  let f := fetch_bank_transactions settings env got db organization_id in
  posts f = [] /\
  gets f = [] /\
  database (fetched f) = db /\
  (exists e, value (fetched f) = Raise e) /\
  ((exists t, XeroConnection.expires_at connection = aware t) ->
   value (fetched f) = Raise TypeError).
Proof.
  intros Hc Hexp. cbv zeta. unfold fetch_bank_transactions.
  rewrite Hc, get_valid_access_token_cases, Hc. cbn [value].
  destruct (XeroConnection.expires_at connection) as [t|t] eqn:Ee.
  - destruct Hexp as [[t' Ht']|Hle]; [discriminate|]. cbn [instant] in Hle.
    destruct (Z.gtb_spec t (utcnow_check env + timedelta_minutes 2)) as [Hgt|_]; [lia|].
    destruct (decrypt_token settings (XeroConnection.refresh_token_encrypted connection));
      cbn [fetched posts gets database value];
      (repeat split; [now eexists|intros [t' Ht']; discriminate]).
  - cbn [fetched posts gets database value].
    repeat split. now eexists.
Qed.

End Fetch.

(** ** The further properties at the examples *)

Lemma disabled_rule_has_no_effect_example :
  ExclusionRule.enabled Example.disabled_cloud_rule = false /\
  @ExclusionRule.matches literal_re Example.disabled_cloud_rule (Some "AWS EMEA SARL") = false /\
  @apply_exclusion_rules literal_re Example.aws_row
    ([Example.fees_rule] ++ Example.disabled_cloud_rule :: [Example.emea_rule]) =
  @apply_exclusion_rules literal_re Example.aws_row
    ([Example.fees_rule] ++ [Example.emea_rule]).
Proof.
  split; [reflexivity|].
  apply (@disabled_rule_has_no_effect literal_re Example.disabled_cloud_rule
           Example.aws_row [Example.fees_rule] [Example.emea_rule] (Some "AWS EMEA SARL")).
  reflexivity.
Defined.

Lemma other_rule_types_have_no_effect_example :
  let amount_rule := Example.rule "amount_range" "AWS" "contains" (Some "Small") in
  @apply_exclusion_rules literal_re Example.aws_row
    ([Example.fees_rule] ++ amount_rule :: [Example.emea_rule]) =
  @apply_exclusion_rules literal_re Example.aws_row
    ([Example.fees_rule] ++ [Example.emea_rule]).
Proof.
  apply (@other_rule_types_have_no_effect literal_re
           (Example.rule "amount_range" "AWS" "contains" (Some "Small"))
           Example.aws_row [Example.fees_rule] [Example.emea_rule]);
    discriminate.
Defined.

Lemma malformed_regex_is_no_match_example :
  let broken := Example.rule "supplier_name" "(" "regex" (Some "Broken") in
  (forall value, @ExclusionRule.matches paren_re broken value = false) /\
  @apply_exclusion_rules paren_re Example.aws_row
    ([] ++ broken :: [Example.cloud_rule]) =
  @apply_exclusion_rules paren_re Example.aws_row ([] ++ [Example.cloud_rule]).
Proof.
  apply (@malformed_regex_is_no_match paren_re
           (Example.rule "supplier_name" "(" "regex" (Some "Broken"))
           Example.aws_row [] [Example.cloud_rule]).
  - reflexivity.
  - intros value. reflexivity.
Defined.

Lemma nothing_to_test_nothing_excluded_example :
  @apply_exclusion_rules literal_re Example.blank_row
    [Example.cloud_rule; Example.fees_rule; Example.rule "description" EmptyString "contains" None] =
  (Example.blank_row, false).
Proof.
  apply (@nothing_to_test_nothing_excluded literal_re Example.blank_row); reflexivity.
Defined.

Lemma matching_ignores_case_example :
  @ExclusionRule.matches literal_re
     (Example.rule "supplier_name" "aws" "contains" (Some "Cloud infra"))
     (Some "aws emea sarl") =
  @ExclusionRule.matches literal_re Example.cloud_rule (Some "AWS EMEA SARL").
Proof.
  apply (@matching_ignores_case literal_re Example.cloud_rule
           (Example.rule "supplier_name" "aws" "contains" (Some "Cloud infra"))
           "AWS EMEA SARL" "aws emea sarl");
    [discriminate|reflexivity..].
Defined.

Lemma contains_is_the_widest_example :
  @ExclusionRule.matches literal_re Example.emea_rule (Some "AWS EMEA SARL") = true /\
  @ExclusionRule.matches literal_re
     (Example.rule "supplier_name" "emea sarl" "contains" None)
     (Some "AWS EMEA SARL") = true.
Proof.
  split; [reflexivity|].
  apply (@contains_is_the_widest literal_re Example.emea_rule
           (Example.rule "supplier_name" "emea sarl" "contains" None)
           (Some "AWS EMEA SARL"));
    [right; right; reflexivity|reflexivity..].
Defined.

(** The connection that expired ten seconds ago, as a session reads it from
    the table and as a session holds it that has assigned [expires_at]
    itself. *)
Lemma expiry_refresh_and_margin_example :
  XeroConnection.is_expired (utcnow_check Example.accepted_env) Example.connection =
    Raise TypeError /\
  XeroConnection.needs_refresh (utcnow_check Example.accepted_env) Example.connection =
    Raise TypeError /\
  value (fst (@get_valid_access_token marking_cipher Example.settings Example.accepted_env
                Example.db 7%N)) = Raise TypeError /\
  XeroConnection.is_expired (utcnow_check Example.accepted_env) Example.pending_connection =
    Return true /\
  XeroConnection.needs_refresh (utcnow_check Example.accepted_env)
    Example.pending_connection = Return true /\
  exists e,
    value (fst (@get_valid_access_token marking_cipher Example.settings
                  Example.accepted_env (Example.holding Example.pending_connection) 7%N)) =
    Raise e.
Proof.
  pose proof (@expiry_refresh_and_margin marking_cipher Example.settings
                Example.accepted_env Example.db 7%N Example.connection eq_refl)
    as Wa.
  pose proof (@expiry_refresh_and_margin marking_cipher Example.settings
                Example.accepted_env (Example.holding Example.pending_connection) 7%N
                Example.pending_connection eq_refl) as Wn.
  destruct (@get_valid_access_token marking_cipher Example.settings Example.accepted_env
              Example.db 7%N) as [oa ra].
  destruct (@get_valid_access_token marking_cipher Example.settings Example.accepted_env
              (Example.holding Example.pending_connection) 7%N) as [on rn].
  cbn [fst].
  destruct Wa as (Wa & _). destruct (Wa _ eq_refl) as (H1 & H2 & H3).
  destruct Wn as (_ & Wn & _). destruct (Wn _ eq_refl) as (Hn & _).
  destruct (Hn eq_refl) as (H5 & H6).
  repeat split; assumption.
Defined.

Lemma records_without_identifier_are_skipped_example :
  @upsert_xero_transactions literal_re
    (Example.table [Example.aws_row] [Example.cloud_rule]) 7%N 3%N
    ([Example.hosting_record] ++ Example.anonymous_record :: [Example.ireland_record])
    Example.now Example.uuid4 =
  @upsert_xero_transactions literal_re
    (Example.table [Example.aws_row] [Example.cloud_rule]) 7%N 3%N
    ([Example.hosting_record] ++ [Example.ireland_record])
    Example.now Example.uuid4.
Proof.
  apply (@records_without_identifier_are_skipped literal_re
           (Example.table [Example.aws_row] [Example.cloud_rule]) 7%N 3%N
           [Example.hosting_record] Example.anonymous_record [Example.ireland_record]
           Example.now Example.uuid4).
  reflexivity.
Defined.

(** A row of another organization with the same supplier. *)
Lemma other_rows_are_untouched_example :
  Transaction.organization_id Example.foreign_row <> 7%N /\
  nth_error
    (transactions
       (database
          (@upsert_xero_transactions literal_re
             (Example.table [Example.aws_row; Example.foreign_row] [Example.cloud_rule])
             7%N 3%N [Example.hosting_record] Example.now Example.uuid4))) 1 =
  Some Example.foreign_row.
Proof.
  split; [discriminate|].
  apply (@other_rows_are_untouched literal_re
           (Example.table [Example.aws_row; Example.foreign_row] [Example.cloud_rule])
           7%N 3%N [Example.hosting_record] Example.now Example.uuid4 1%nat
           Example.foreign_row).
  - reflexivity.
  - left. discriminate.
Defined.

(** The excluded row, its rule switched off since. *)
Lemma exclusion_is_never_lifted_example :
  Transaction.excluded Example.excluded_row = true /\
  exists t',
    nth_error
      (transactions
         (database
            (@upsert_xero_transactions literal_re
               (Example.table [Example.excluded_row] [Example.disabled_cloud_rule])
               7%N 3%N [Example.hosting_record] Example.now Example.uuid4))) 0 = Some t' /\
    Transaction.excluded t' = true /\
    Transaction.needs_document t' = false.
Proof.
  split; [reflexivity|].
  apply (@exclusion_is_never_lifted literal_re
           (Example.table [Example.excluded_row] [Example.disabled_cloud_rule])
           7%N 3%N [Example.hosting_record] Example.now Example.uuid4 0%nat
           Example.excluded_row); reflexivity.
Defined.

(** A record without a reference for the row with the description
    ["Bank fee"]. *)
Lemma description_is_never_erased_example :
  exists t',
    nth_error
      (transactions
         (database
            (@upsert_xero_transactions literal_re
               (Example.table [Example.fee_row] []) 7%N 3%N
               [Example.record "T1" None (Some "Other Ltd") None]
               Example.now Example.uuid4))) 0 = Some t' /\
    truthy (Transaction.description t') = true.
Proof.
  apply (@description_is_never_erased literal_re
           (Example.table [Example.fee_row] []) 7%N 3%N
           [Example.record "T1" None (Some "Other Ltd") None]
           Example.now Example.uuid4 0%nat Example.fee_row); reflexivity.
Defined.

Lemma inserted_rows_come_from_records_example :
  exists t',
    nth_error
      (transactions
         (database
            (@upsert_xero_transactions literal_re
               (Example.table [Example.aws_row] [Example.cloud_rule]) 7%N 3%N
               [Example.hosting_record; Example.ireland_record]
               Example.now Example.uuid4))) 1 = Some t' /\
    Transaction.xero_transaction_id t' = "T2" /\
    Transaction.organization_id t' = 7%N /\
    Transaction.client_id t' = 3%N /\
    Transaction.description t' = Some "Inclusive" /\
    Transaction.created_at t' = Example.now.
Proof.
  eexists. split; [reflexivity|].
  destruct (@inserted_rows_come_from_records literal_re
              (Example.table [Example.aws_row] [Example.cloud_rule]) 7%N 3%N
              [Example.hosting_record; Example.ireland_record]
              Example.now Example.uuid4 1%nat _ (le_n 1) eq_refl)
    as (tx & _ & _ & _ & _ & Ho & Hc & _ & _ & _ & _ & _ & _ & _ & Hcr & _).
  repeat split; assumption.
Defined.

Lemma record_with_attachments_example :
  let call :=
    @upsert_xero_transactions literal_re
      (Example.table [Example.aws_row] []) 7%N 3%N
      [Example.attached_record] Example.now Example.uuid4 in
  value call = Return tt /\
  forall t',
    In t' (transactions (database call)) ->
    same_transaction 7%N "T1" t' = true ->
    Transaction.document_required t' = false /\
    Transaction.document_received t' = true /\
    Transaction.needs_document t' = false.
Proof.
  cbv zeta. split; [reflexivity|]. intros t' Hin Hsel.
  apply (@record_with_attachments literal_re
           (Example.table [Example.aws_row] []) 7%N 3%N
           [Example.attached_record] Example.now Example.uuid4
           Example.attached_record "T1" t').
  - reflexivity.
  - constructor; [intros []|constructor].
  - now left.
  - reflexivity.
  - reflexivity.
  - reflexivity.
  - exact Hin.
  - exact Hsel.
Defined.




Lemma table_grows_by_unknown_identifiers_example :
  let db := Example.table [Example.aws_row] [Example.cloud_rule] in
  let after :=
    transactions
      (database
         (@upsert_xero_transactions literal_re db 7%N 3%N
            [Example.hosting_record; Example.anonymous_record; Example.ireland_record]
            Example.now Example.uuid4)) in
  List.length after = (1 + 1)%nat /\
  map Transaction.xero_transaction_id after = ["T1"] ++ ["T2"].
Proof.
  apply (@table_grows_by_unknown_identifiers literal_re
           (Example.table [Example.aws_row] [Example.cloud_rule]) 7%N 3%N
           [Example.hosting_record; Example.anonymous_record; Example.ireland_record]
           Example.now Example.uuid4).
  reflexivity.
Defined.

Lemma processed_record_is_found_example :
  exists t',
    first (same_transaction 7%N "T2")
          (transactions
             (database
                (@upsert_xero_transactions literal_re
                   (Example.table [Example.aws_row] [Example.cloud_rule]) 7%N 3%N
                   [Example.hosting_record; Example.ireland_record]
                   Example.now Example.uuid4))) = Some t' /\
    Transaction.supplier_name t' = Some "AWS Ireland" /\
    Transaction.updated_at t' = Example.now.
Proof.
  destruct (@processed_record_is_found literal_re
              (Example.table [Example.aws_row] [Example.cloud_rule]) 7%N 3%N
              [Example.hosting_record; Example.ireland_record]
              Example.now Example.uuid4 Example.ireland_record "T2"
              eq_refl (or_intror (or_introl eq_refl)) eq_refl eq_refl)
    as (t' & Hf & _ & _ & Hcols).
  exists t'. split; [exact Hf|].
  destruct Hcols as (_ & _ & _ & Hs & Hu).
  - apply NoDup_two. discriminate.
  - split; [exact Hs|exact Hu].
Defined.

(** The token expired ten seconds ago, the provider rotates it, and then
    answers the request for the transactions with status 503. *)
(** The connection whose token expired ten seconds ago, read from the
    table, and a provider that would answer every request. *)
Lemma fetch_raises_before_any_request_example :
  let f := @fetch_bank_transactions marking_cipher Example.settings Example.accepted_env
             (Return Example.feed) Example.db 7%N in
  posts f = [] /\
  gets f = [] /\
  database (fetched f) = Example.db /\
  value (fetched f) = Raise TypeError.
Proof.
  destruct (@fetch_raises_before_any_request marking_cipher Example.settings
              Example.accepted_env (Return Example.feed) Example.db 7%N
              Example.connection eq_refl)
    as (Hp & Hg & Hd & _ & Ht).
  - left. eexists. reflexivity.
  - cbv zeta in *. split; [exact Hp|]. split; [exact Hg|]. split; [exact Hd|].
    apply Ht. eexists. reflexivity.
Defined.

(** ** The endpoint *)

Section Endpoint.

Context `{PyRe} `{Cryptography}.

(** X30.  A request to the endpoint never reaches the fetch.  For a user
    without an organization it ends with the [HTTPException] of status
    400; for every other user the session refuses the select of the
    client, which the endpoint hands to it as a plain string, and the
    request ends with [ArgumentError].  No request is sent to the provider
    and the database is left as it was, whatever the clients, the
    connection and the provider's answers. *)
Theorem endpoint_stops_at_the_client_lookup
        (settings : Settings) (env : Environment) (got : result Feed)
        (now : datetime) (uuid4 : nat -> UUID)
        (organization_id : option UUID) (clients : list Client.t) (db : Database) :
  let h := debug_sync_transactions settings env got now uuid4 organization_id clients db in
  replied h =
    match organization_id with
    | None => HTTPException 400 "User has no organization"
    | Some _ => Unhandled ArgumentError
    end /\
  stored_db h = db /\
  token_posts h = [] /\
  feed_gets h = [].
Proof.
  cbv zeta. unfold debug_sync_transactions.
  destruct organization_id as [organization_id|]; repeat split.
Qed.

End Endpoint.
